(** * The receiver control loop of the MBMS modem (src/main.cpp)

    A shallow embedding of [main], [set_params] and
    [parseFrequenciesFromConfig]: the globals and the locals of [main] are
    one record, every call on a collaborator (SDR reader, PHY, RRC, frame
    processors, thread pool) is an event of a trace, and what a collaborator
    answers is read from a record of answers.  Statements that can end the
    run ([exit], undefined behaviour) stop the computation with a reason. *)

From Stdlib Require Import ZArith Lia List Bool Ascii String Floats Permutation.
Import ListNotations.
Open Scope Z_scope.

(** ** Machine integers *)

Definition UINT_MAX : Z := 2 ^ 32 - 1.

(** [unsigned] and [uint32_t] arithmetic is modulo 2^32. *)
Definition wrap32 (z : Z) : Z := z mod 2 ^ 32.

(** [static_cast<int>] of an unsigned value. *)
Definition to_int (z : Z) : Z :=
  let w := wrap32 z in if w <? 2 ^ 31 then w else w - 2 ^ 32.

(** Conversion of an unsigned value to [double] (exact below 2^53). *)
Definition uint32_to_double (z : Z) : float :=
  PrimFloat.of_uint63 (Uint63.of_Z (wrap32 z)).

(** Conversion of a [double] to [uint32_t]: the fraction is dropped.  C++
    defines it only when the truncated value fits; [wrap32] is what the
    usual targets give beyond that. *)
Definition double_to_uint32 (f : float) : Z :=
  match Prim2SF f with
  | S754_finite false m e =>
      wrap32 (if 0 <=? e then Z.pos m * 2 ^ e else Z.pos m / 2 ^ (- e))
  | _ => 0
  end.

(** The [double] nearest to the literal [1.2]. *)
Definition guard_margin : float := 0x1.3333333333333p+0%float.

(** [(nof_prb * 200000) * 1.2] stored in the [uint32_t bandwidth]
    (main.cpp:514 and :596): an unsigned product, a [double] product, a
    truncation. *)
Definition filter_bandwidth (nof_prb : Z) : Z :=
  double_to_uint32
    (PrimFloat.mul (uint32_to_double (wrap32 (nof_prb * 200000))) guard_margin).

(** [tti = (tti + 1) % 10240] (main.cpp:568). *)
Definition next_tti (tti : Z) : Z := wrap32 (tti + 1) mod 10240.

(** [unsigned sfn = tti / 10] (main.cpp:569). *)
Definition sfn_of (tti : Z) : Z := tti / 10.

(** The TTI is "system frame number * 10 + subframe number"
    (main.cpp:554), so the subframe number is what is left of it. *)
Definition subframe_of (tti : Z) : Z := tti - sfn_of tti * 10.

(** ** Data *)

Inductive state_t := searching | syncing | processing.

Inductive srsran_scs_t := SRSRAN_SCS_15KHZ | SRSRAN_SCS_7KHZ5 | SRSRAN_SCS_1KHZ25.

Inductive SubcarrierSpacing := df_15kHz | df_7kHz5 | df_1kHz25.

(** The two fields of [srsran_cell_t] the loop touches. *)
Record cell_t := mk_cell { nof_prb : Z; mbsfn_prb : Z }.

(** [struct arguments]: the options the loop and the start-up read. *)
Record arguments := mk_arguments {
  sample_file : bool;        (* sample_file != nullptr *)
  file_bw : Z;               (* uint8_t *)
  list_sdr_devices : bool
}.

(** The file-level statics of main.cpp and the locals of [main] that live
    across iterations of the run loop. *)
Record modem := mk_modem {
  sample_rate : Z;
  search_sample_rate : Z;
  frequency : Z;
  bandwidth : Z;
  gain : float;
  antenna : string;
  use_agc : bool;
  mbsfn_nof_prb : Z;
  cas_nof_prb : Z;
  restart : bool;
  opts : arguments;
  thread_cnt : Z;
  enable_measurement_file : bool;
  state : state_t;
  tti : Z;
  measurement_interval : Z;
  tick : Z
}.

Definition set_sample_rate (v : Z) (m : modem) : modem :=
  mk_modem v (search_sample_rate m) (frequency m) (bandwidth m) (gain m)
    (antenna m) (use_agc m) (mbsfn_nof_prb m) (cas_nof_prb m) (restart m)
    (opts m) (thread_cnt m) (enable_measurement_file m) (state m) (tti m)
    (measurement_interval m) (tick m).

Definition set_search_sample_rate (v : Z) (m : modem) : modem :=
  mk_modem (sample_rate m) v (frequency m) (bandwidth m) (gain m)
    (antenna m) (use_agc m) (mbsfn_nof_prb m) (cas_nof_prb m) (restart m)
    (opts m) (thread_cnt m) (enable_measurement_file m) (state m) (tti m)
    (measurement_interval m) (tick m).

Definition set_frequency (v : Z) (m : modem) : modem :=
  mk_modem (sample_rate m) (search_sample_rate m) v (bandwidth m) (gain m)
    (antenna m) (use_agc m) (mbsfn_nof_prb m) (cas_nof_prb m) (restart m)
    (opts m) (thread_cnt m) (enable_measurement_file m) (state m) (tti m)
    (measurement_interval m) (tick m).

Definition set_bandwidth (v : Z) (m : modem) : modem :=
  mk_modem (sample_rate m) (search_sample_rate m) (frequency m) v (gain m)
    (antenna m) (use_agc m) (mbsfn_nof_prb m) (cas_nof_prb m) (restart m)
    (opts m) (thread_cnt m) (enable_measurement_file m) (state m) (tti m)
    (measurement_interval m) (tick m).

Definition set_gain (v : float) (m : modem) : modem :=
  mk_modem (sample_rate m) (search_sample_rate m) (frequency m) (bandwidth m)
    v (antenna m) (use_agc m) (mbsfn_nof_prb m) (cas_nof_prb m) (restart m)
    (opts m) (thread_cnt m) (enable_measurement_file m) (state m) (tti m)
    (measurement_interval m) (tick m).

Definition set_antenna (v : string) (m : modem) : modem :=
  mk_modem (sample_rate m) (search_sample_rate m) (frequency m) (bandwidth m)
    (gain m) v (use_agc m) (mbsfn_nof_prb m) (cas_nof_prb m) (restart m)
    (opts m) (thread_cnt m) (enable_measurement_file m) (state m) (tti m)
    (measurement_interval m) (tick m).

Definition set_use_agc (v : bool) (m : modem) : modem :=
  mk_modem (sample_rate m) (search_sample_rate m) (frequency m) (bandwidth m)
    (gain m) (antenna m) v (mbsfn_nof_prb m) (cas_nof_prb m) (restart m)
    (opts m) (thread_cnt m) (enable_measurement_file m) (state m) (tti m)
    (measurement_interval m) (tick m).

Definition set_mbsfn_nof_prb (v : Z) (m : modem) : modem :=
  mk_modem (sample_rate m) (search_sample_rate m) (frequency m) (bandwidth m)
    (gain m) (antenna m) (use_agc m) v (cas_nof_prb m) (restart m)
    (opts m) (thread_cnt m) (enable_measurement_file m) (state m) (tti m)
    (measurement_interval m) (tick m).

Definition set_cas_nof_prb (v : Z) (m : modem) : modem :=
  mk_modem (sample_rate m) (search_sample_rate m) (frequency m) (bandwidth m)
    (gain m) (antenna m) (use_agc m) (mbsfn_nof_prb m) v (restart m)
    (opts m) (thread_cnt m) (enable_measurement_file m) (state m) (tti m)
    (measurement_interval m) (tick m).

Definition set_restart (v : bool) (m : modem) : modem :=
  mk_modem (sample_rate m) (search_sample_rate m) (frequency m) (bandwidth m)
    (gain m) (antenna m) (use_agc m) (mbsfn_nof_prb m) (cas_nof_prb m) v
    (opts m) (thread_cnt m) (enable_measurement_file m) (state m) (tti m)
    (measurement_interval m) (tick m).

Definition set_opts (v : arguments) (m : modem) : modem :=
  mk_modem (sample_rate m) (search_sample_rate m) (frequency m) (bandwidth m)
    (gain m) (antenna m) (use_agc m) (mbsfn_nof_prb m) (cas_nof_prb m)
    (restart m) v (thread_cnt m) (enable_measurement_file m) (state m) (tti m)
    (measurement_interval m) (tick m).

Definition set_thread_cnt (v : Z) (m : modem) : modem :=
  mk_modem (sample_rate m) (search_sample_rate m) (frequency m) (bandwidth m)
    (gain m) (antenna m) (use_agc m) (mbsfn_nof_prb m) (cas_nof_prb m)
    (restart m) (opts m) v (enable_measurement_file m) (state m) (tti m)
    (measurement_interval m) (tick m).

Definition set_enable_measurement_file (v : bool) (m : modem) : modem :=
  mk_modem (sample_rate m) (search_sample_rate m) (frequency m) (bandwidth m)
    (gain m) (antenna m) (use_agc m) (mbsfn_nof_prb m) (cas_nof_prb m)
    (restart m) (opts m) (thread_cnt m) v (state m) (tti m)
    (measurement_interval m) (tick m).

Definition set_state (v : state_t) (m : modem) : modem :=
  mk_modem (sample_rate m) (search_sample_rate m) (frequency m) (bandwidth m)
    (gain m) (antenna m) (use_agc m) (mbsfn_nof_prb m) (cas_nof_prb m)
    (restart m) (opts m) (thread_cnt m) (enable_measurement_file m) v (tti m)
    (measurement_interval m) (tick m).

Definition set_tti (v : Z) (m : modem) : modem :=
  mk_modem (sample_rate m) (search_sample_rate m) (frequency m) (bandwidth m)
    (gain m) (antenna m) (use_agc m) (mbsfn_nof_prb m) (cas_nof_prb m)
    (restart m) (opts m) (thread_cnt m) (enable_measurement_file m) (state m)
    v (measurement_interval m) (tick m).

Definition set_measurement_interval (v : Z) (m : modem) : modem :=
  mk_modem (sample_rate m) (search_sample_rate m) (frequency m) (bandwidth m)
    (gain m) (antenna m) (use_agc m) (mbsfn_nof_prb m) (cas_nof_prb m)
    (restart m) (opts m) (thread_cnt m) (enable_measurement_file m) (state m)
    (tti m) v (tick m).

Definition set_tick (v : Z) (m : modem) : modem :=
  mk_modem (sample_rate m) (search_sample_rate m) (frequency m) (bandwidth m)
    (gain m) (antenna m) (use_agc m) (mbsfn_nof_prb m) (cas_nof_prb m)
    (restart m) (opts m) (thread_cnt m) (enable_measurement_file m) (state m)
    (tti m) (measurement_interval m) v.

(** The initialisers of the statics (main.cpp:169-188) and of
    [struct arguments]; the locals get their values during start-up. *)
Definition initial_modem : modem :=
  mk_modem 7680000 7680000 667000000 10000000 0x1.ccccccccccccdp-1%float
    "LNAW" false 0 0 false (mk_arguments false 0 false) 4 false searching 0 5 0.

(** ** Calls on the collaborators *)

(** Whose receive buffer a frame is read into. *)
Inductive processor := cas_processor | mbsfn_processor (mb_idx : Z).

Inductive event :=
| sdr_stop
| sdr_start
| sdr_clear_buffer
| sdr_tune (fc sr bw : Z) (g : float) (ant : string) (agc : bool)
| sdr_disableSampleFileWriting
| sdr_enableSampleFileWriting
| phy_cell_search
| phy_nr_prb
| phy_set_nof_mbsfn_prb (n : Z)
| phy_set_cell
| phy_synchronize_subframe
| phy_tti
| phy_cell
| phy_is_cas_subframe (t : Z)
| phy_get_next_frame (p : processor)
| phy_nof_mbsfn_prb
| phy_reset
| phy_mcch_configured
| phy_is_mbsfn_subframe (t : Z)
| phy_mbsfn_subcarrier_spacing
| phy_mbsfn_area_id
| cas_set_cell (c : cell_t)
| mbsfn_unlock (i : Z)
| mbsfn_get_rx_buffer_and_lock (i : Z)
| mbsfn_configured (i : Z)
| mbsfn_set_cell (i : Z) (c : cell_t)
| mbsfn_configure_mbsfn (i : Z) (area : Z) (scs : srsran_scs_t)
| rrc_reset
| sleep (secs : Z)
| pool_push (p : processor) (t : Z)
| read_restart (v : bool)                 (* the control loop reads [restart] *)
| log_sending_to_mbsfn_proc (t i : Z)     (* the debug line of main.cpp:622 *)
| measurement_snapshot                    (* main.cpp:667-715 *)
| measurement_file_WriteLogValues
| log_tuned (fc : Z)                      (* main.cpp:350, :363 *)
| log_failed_to_set_center_frequency (fc : Z).

(** What the collaborators answer during one pass of the run loop, as
    values of the C++ result types. *)
Record answers := mk_answers {
  a_cell_search : bool;
  a_nr_prb : Z;                           (* the call stored at main.cpp:498 *)
  a_synchronize_subframe : nat -> bool;   (* the i-th call of a syncing pass *)
  a_tti : Z;                              (* the call stored at main.cpp:555 *)
  a_cell : cell_t;
  a_is_cas_subframe : bool;
  a_get_next_frame : bool;
  a_nof_mbsfn_prb : Z;                    (* the call compared at main.cpp:583 *)
  a_nof_mbsfn_prb_again : Z;              (* the call stored at main.cpp:588 *)
  a_mcch_configured : bool;
  a_is_mbsfn_subframe : bool;
  a_mbsfn_configured : bool;
  a_mbsfn_subcarrier_spacing : SubcarrierSpacing;
  a_mbsfn_area_id : Z
}.

(** ** The monad of the control thread *)

(** Why a run stops. *)
Inductive stop_reason :=
| exit (status : Z)
| out_of_bounds (index size : Z)
| division_by_zero
| uncaught_exception
| out_of_fuel.

Inductive outcome (A : Type) :=
| Ok (a : A) (m : modem) (t : list event)
| Stop (why : stop_reason).

Arguments Ok {A} a m t.
Arguments Stop {A} why.

Definition M (A : Type) : Type := modem -> outcome A.

Definition ret {A} (a : A) : M A := fun m => Ok a m [].

Definition bind {A B} (c : M A) (k : A -> M B) : M B :=
  fun m =>
    match c m with
    | Ok a m1 t1 =>
        match k a m1 with
        | Ok b m2 t2 => Ok b m2 (t1 ++ t2)
        | Stop why => Stop why
        end
    | Stop why => Stop why
    end.

Declare Scope modem_scope.
Delimit Scope modem_scope with modem.
Notation "x <- c ;; k" := (bind c (fun x => k))
  (at level 61, c at next level, right associativity) : modem_scope.
Notation "c ;; k" := (bind c (fun _ => k))
  (at level 61, right associativity) : modem_scope.
Open Scope modem_scope.

Definition call (e : event) : M unit := fun m => Ok tt m [e].
Definition get {A} (f : modem -> A) : M A := fun m => Ok (f m) m [].
Definition modify (f : modem -> modem) : M unit := fun m => Ok tt (f m) [].
Definition stop {A} (why : stop_reason) : M A := fun _ => Stop why.
Definition when (b : bool) (c : M unit) : M unit := if b then c else ret tt.

(** A read of the [restart] flag by the control loop. *)
Definition load_restart : M bool :=
  r <- get restart ;; call (read_restart r) ;; ret r.

(** [sdr.tune(frequency, sr, bandwidth, gain, antenna, use_agc)] with the
    statics as they are now. *)
Definition tune_at (sr : Z) : M unit :=
  fun m => Ok tt m [sdr_tune (frequency m) sr (bandwidth m) (gain m) (antenna m) (use_agc m)].

(** [set_params], called by the RESTful API handler. *)
Definition set_params (ant : string) (fc : Z) (g : float) (sr bw : Z) : M unit :=
  modify (set_sample_rate (wrap32 sr)) ;;
  modify (set_frequency (wrap32 fc)) ;;
  modify (set_bandwidth (wrap32 bw)) ;;
  modify (set_antenna ant) ;;
  modify (set_gain g) ;;
  modify (set_restart true).

(** ** Start-up (main.cpp:250-476) *)

Inductive read_result := read_ok | FileIOException | ParseException.

(** The settings [main] looks up; [None] is a setting that is absent, which
    leaves the variable at its default. *)
Record config := mk_config {
  modem_sdr_search_sample_rate_hz : option Z;
  modem_sdr_normalized_gain : option float;
  modem_sdr_antenna : option string;
  modem_sdr_use_agc : option bool;
  modem_phy_threads : option Z;
  modem_measurement_file_enabled : option bool;
  modem_measurement_file_interval_secs : option Z
}.

(** What the process finds when it starts. *)
Record boot := mk_boot {
  b_arguments : arguments;
  b_config_read : read_result;      (* cfg.readFile(arguments.config_file) *)
  b_config : config;
  b_sdr_init : bool;
  b_frequencies_read : read_result; (* the readFile of parseFrequenciesFromConfig *)
  (* modem.sdr.center_frequencies_hz: [None] when the lookup throws; per
     entry, the "value" when lookupValue finds an unsigned long long *)
  b_center_frequencies_hz : option (list (option Z));
  b_tune : Z -> bool;               (* sdr.tune at a centre frequency *)
  b_cas_init : bool;
  b_mbsfn_init : Z -> bool          (* init() of the i-th MBSFN processor *)
}.

(** [cfg.lookupValue(path, var)]. *)
Definition lookupValue {A} (setting : option A) (store : A -> modem -> modem) : M unit :=
  match setting with
  | Some v => modify (store v)
  | None => ret tt
  end.

(** The loop of main.cpp:231-239. *)
Fixpoint push_frequencies (entries : list (option Z)) (frequencies : list Z)
  : M (list Z) :=
  match entries with
  | [] => ret frequencies
  | Some f :: rest => push_frequencies rest (frequencies ++ [f])
  | None :: _ => stop (exit 1)
  end.

Definition parseFrequenciesFromConfig (b : boot) (frequencies : list Z) : M (list Z) :=
  match b_frequencies_read b with
  | FileIOException => stop (exit 1)
  | ParseException => stop (exit 1)
  | read_ok =>
      match b_center_frequencies_hz b with
      | None => stop uncaught_exception
      | Some entries => push_frequencies entries frequencies
      end
  end.

(** [frequencies[i]] on a [std::vector]: no bounds check in the source, and
    undefined behaviour past the end. *)
Definition vector_at (frequencies : list Z) (i : nat) : M Z :=
  match nth_error frequencies i with
  | Some f => ret f
  | None => stop (out_of_bounds (Z.of_nat i) (Z.of_nat (List.length frequencies)))
  end.

(** main.cpp:347-357 and :360-370: one candidate frequency. *)
Definition tune_candidate (b : boot) (frequencies : list Z) (i : nat) : M unit :=
  f <- vector_at frequencies i ;;
  if f <=? UINT_MAX then
    sr <- get sample_rate ;;
    bw <- get bandwidth ;; g <- get gain ;; ant <- get antenna ;; agc <- get use_agc ;;
    call (sdr_tune f sr bw g ant agc) ;;
    if b_tune b f then call (log_tuned f)
    else call (log_failed_to_set_center_frequency f)
  else stop (exit 1).

(** main.cpp:456-463. *)
Fixpoint init_mbsfn_processors (b : boot) (n : nat) (i : Z) : M unit :=
  match n with
  | O => ret tt
  | S n' =>
      if b_mbsfn_init b i then init_mbsfn_processors b n' (i + 1)
      else stop (exit 1)
  end.

(** main.cpp:256-328: the options, the configuration file, the SDR and the
    list of centre frequencies. *)
Definition read_configuration (b : boot) : M (list Z) :=
  modify (set_opts (b_arguments b)) ;;
  match b_config_read b with
  | FileIOException => stop (exit 1)
  | ParseException => stop (exit 1)
  | read_ok =>
      let cfg := b_config b in
      (if list_sdr_devices (b_arguments b) then stop (exit 0) else ret tt) ;;
      (if b_sdr_init b then ret tt else stop (exit 1)) ;;
      lookupValue (modem_sdr_search_sample_rate_hz cfg) (fun v => set_sample_rate (wrap32 v)) ;;
      sr <- get sample_rate ;;
      modify (set_search_sample_rate sr) ;;
      frequencies <- parseFrequenciesFromConfig b [] ;;
      lookupValue (modem_sdr_normalized_gain cfg) set_gain ;;
      lookupValue (modem_sdr_antenna cfg) set_antenna ;;
      lookupValue (modem_sdr_use_agc cfg) set_use_agc ;;
      ret frequencies
  end.

(** main.cpp:347-370: the first and the second frequency of the list. *)
Definition tune_candidates (b : boot) (frequencies : list Z) : M unit :=
  tune_candidate b frequencies 0 ;;
  tune_candidate b frequencies 1.

(** main.cpp:376-466: the thread count, the frame processors, the SDR. *)
Definition create_processors (b : boot) : M unit :=
  let cfg := b_config b in
  modify (set_thread_cnt 4) ;;
  lookupValue (modem_phy_threads cfg) (fun v => set_thread_cnt (wrap32 v)) ;;
  modify (set_enable_measurement_file false) ;;
  lookupValue (modem_measurement_file_enabled cfg) set_enable_measurement_file ;;
  modify (set_state searching) ;;
  (if b_cas_init b then ret tt else stop (exit 1)) ;;
  n <- get thread_cnt ;;
  init_mbsfn_processors b (Z.to_nat n) 0 ;;
  call sdr_start.

(** main.cpp:468-476: the TTI, the measurement interval in ticks, the tick
    counter and the initial state. *)
Definition start_counters (cfg : config) : M unit :=
  modify (set_tti 0) ;;
  modify (set_measurement_interval 5) ;;
  lookupValue (modem_measurement_file_interval_secs cfg)
    (fun v => set_measurement_interval (wrap32 v)) ;;
  mi <- get measurement_interval ;;
  modify (set_measurement_interval (wrap32 (mi * 1000))) ;;
  modify (set_tick 0) ;;
  modify (set_state searching).

Definition startup (b : boot) : M unit :=
  frequencies <- read_configuration b ;;
  tune_candidates b frequencies ;;
  create_processors b ;;
  start_counters (b_config b).

(** ** The run loop (main.cpp:479-722) *)

Section RunLoop.

(** [srsran_sampling_freq_hz] of the srsRAN library: the sample rate for a
    number of PRB.  Its [int] result is stored in an [unsigned]. *)
Variable srsran_sampling_freq_hz : Z -> Z.

(** *** Searching (main.cpp:480-525) *)

Definition searching_pass (a : answers) : M unit :=
  r <- load_restart ;;
  when r (call sdr_stop ;;
          ssr <- get search_sample_rate ;;
          modify (set_sample_rate ssr) ;;
          tune_at ssr ;;
          call sdr_start) ;;
  call sdr_disableSampleFileWriting ;;
  modify (set_restart false) ;;
  call sdr_clear_buffer ;;
  call phy_cell_search ;;
  if a_cell_search a then
    call phy_nr_prb ;;
    modify (set_mbsfn_nof_prb (a_nr_prb a)) ;;
    modify (set_cas_nof_prb (a_nr_prb a)) ;;
    o <- get opts ;;
    (if sample_file o && negb (file_bw o =? 0) then
       modify (set_mbsfn_nof_prb (file_bw o * 5)) ;;
       call (phy_set_nof_mbsfn_prb (file_bw o * 5)) ;;
       call phy_set_cell
     else
       prb <- get cas_nof_prb ;;
       let new_srate := wrap32 (srsran_sampling_freq_hz prb) in
       call phy_nr_prb ;;           (* the arguments of the log line, *)
       call phy_nr_prb ;;           (* main.cpp:510-511 *)
       call sdr_stop ;;
       modify (set_bandwidth (filter_bandwidth prb)) ;;
       tune_at new_srate ;;
       call sdr_start) ;;
    modify (set_state syncing)
  else
    call (sleep 1).

(** *** Syncing (main.cpp:526-564) *)

(** [while (!sfn_sync && max_frames-- > 0) sfn_sync = phy.synchronize_subframe();]
    The post-decrement happens whenever the left operand lets the test be
    evaluated, also the last time, when the test fails. *)
Fixpoint sync_while (fuel : nat) (a : answers) (calls : nat)
    (sfn_sync : bool) (max_frames : Z) : M (bool * Z) :=
  if negb sfn_sync then
    let test := 0 <? max_frames in
    let max_frames' := wrap32 (max_frames - 1) in
    if test then
      match fuel with
      | O => stop out_of_fuel
      | S fuel' =>
          call phy_synchronize_subframe ;;
          sync_while fuel' a (S calls) (a_synchronize_subframe a calls) max_frames'
      end
    else ret (sfn_sync, max_frames')
  else ret (sfn_sync, max_frames).

(** main.cpp:550-552. *)
Fixpoint unlock_all (n : nat) (i : Z) : M unit :=
  match n with
  | O => ret tt
  | S n' => call (mbsfn_unlock i) ;; unlock_all n' (i + 1)
  end.

Definition syncing_pass (a : answers) : M unit :=
  r <- sync_while 201 a 0 false 200 ;;
  let (sfn_sync, max_frames) := r : bool * Z in
  when ((max_frames =? 0) && negb sfn_sync)
       (modify (set_state searching) ;;
        call (sleep 1)) ;;
  when sfn_sync
       (call phy_tti ;;              (* the argument of the log line, main.cpp:545 *)
        call phy_cell ;;
        call (cas_set_cell (a_cell a)) ;;
        n <- get thread_cnt ;;
        unlock_all (Z.to_nat n) 0 ;;
        call phy_tti ;;
        modify (set_tti (a_tti a)) ;;
        call rrc_reset ;;
        modify (set_state processing) ;;
        call sdr_enableSampleFileWriting).

(** *** Processing (main.cpp:565-721) *)

(** [mbsfn_processors[mb_idx]]: the vector has [thread_cnt] elements. *)
Definition mbsfn_processors (mb_idx : Z) : M Z :=
  n <- get thread_cnt ;;
  if (0 <=? mb_idx) && (mb_idx <? n) then ret mb_idx
  else stop (out_of_bounds mb_idx n).

Definition to_scs (s : SubcarrierSpacing) : srsran_scs_t :=
  match s with
  | df_15kHz => SRSRAN_SCS_15KHZ
  | df_7kHz5 => SRSRAN_SCS_7KHZ5
  | df_1kHz25 => SRSRAN_SCS_1KHZ25
  end.

(** main.cpp:583-607: the PRB extension. *)
Definition prb_extension (a : answers) : M unit :=
  call phy_nof_mbsfn_prb ;;
  modify (set_mbsfn_nof_prb (a_nof_mbsfn_prb_again a)) ;;
  prb <- get mbsfn_nof_prb ;;
  let new_srate := wrap32 (srsran_sampling_freq_hz prb) in
  call sdr_stop ;;
  modify (set_bandwidth (filter_bandwidth prb)) ;;
  tune_at new_srate ;;
  call phy_set_cell ;;
  call phy_cell ;;
  call (cas_set_cell (a_cell a)) ;;
  call sdr_start ;;
  modify (set_state syncing).

(** main.cpp:570-619: a CAS subframe. *)
Definition cas_subframe (a : answers) (t : Z) : M unit :=
  r <- load_restart ;;
  got <- (if negb r
          then call (phy_get_next_frame cas_processor) ;; ret (a_get_next_frame a)
          else ret false) ;;
  if got : bool then
    call (pool_push cas_processor t) ;;
    call phy_nof_mbsfn_prb ;;
    tracked <- get mbsfn_nof_prb ;;
    when (negb (a_nof_mbsfn_prb a =? tracked)) (prb_extension a)
  else
    call sdr_stop ;;
    ssr <- get search_sample_rate ;;
    modify (set_sample_rate ssr) ;;
    tune_at ssr ;;
    call sdr_start ;;
    call rrc_reset ;;
    call phy_reset ;;
    call (sleep 1) ;;
    modify (set_state searching).

(** main.cpp:620-663: any other subframe; the result is the new [mb_idx]. *)
Definition mbsfn_subframe (a : answers) (t : Z) (mb_idx : Z) : M Z :=
  call (log_sending_to_mbsfn_proc t mb_idx) ;;
  r <- load_restart ;;
  got <- (if negb r
          then i <- mbsfn_processors mb_idx ;;
               call (mbsfn_get_rx_buffer_and_lock i) ;;
               call (phy_get_next_frame (mbsfn_processor i)) ;;
               ret (a_get_next_frame a)
          else ret false) ;;
  (if got : bool then
     call phy_mcch_configured ;;
     scheduled <- (if a_mcch_configured a
                   then call (phy_is_mbsfn_subframe t) ;; ret (a_is_mbsfn_subframe a)
                   else ret false) ;;
     if scheduled : bool then
       call (mbsfn_configured mb_idx) ;;
       when (negb (a_mbsfn_configured a))
            (call phy_mbsfn_subcarrier_spacing ;;
             let scs := to_scs (a_mbsfn_subcarrier_spacing a) in
             call phy_cell ;;
             let cell := mk_cell (mbsfn_prb (a_cell a)) (mbsfn_prb (a_cell a)) in
             call (mbsfn_set_cell mb_idx cell) ;;
             call phy_mbsfn_area_id ;;
             call (mbsfn_configure_mbsfn mb_idx (a_mbsfn_area_id a) scs)) ;;
       call (pool_push (mbsfn_processor mb_idx) t)
     else
       call (mbsfn_unlock mb_idx)
   else
     call sdr_stop ;;
     ssr <- get search_sample_rate ;;
     modify (set_sample_rate ssr) ;;
     tune_at ssr ;;
     call sdr_start ;;
     modify (set_state searching) ;;
     call (sleep 1) ;;
     call rrc_reset ;;
     call phy_reset) ;;
  n <- get thread_cnt ;;
  if n =? 0 then stop division_by_zero
  else ret (to_int (wrap32 (mb_idx + 1) mod n)).

(** main.cpp:665-719: the tick and the measurement output. *)
Definition telemetry : M unit :=
  tk <- get tick ;;
  modify (set_tick (wrap32 (tk + 1))) ;;
  tk <- get tick ;;
  mi <- get measurement_interval ;;
  if mi =? 0 then stop division_by_zero
  else
    when (tk mod mi =? 0)
         (call measurement_snapshot ;;
          w <- get enable_measurement_file ;;
          when w (call measurement_file_WriteLogValues)).

(** The body of [while (state == processing)]. *)
Definition processing_body (a : answers) (mb_idx : Z) : M Z :=
  t <- get tti ;;
  modify (set_tti (next_tti t)) ;;
  t <- get tti ;;
  call (phy_is_cas_subframe t) ;;
  mb_idx' <- (if a_is_cas_subframe a
              then cas_subframe a t ;; ret mb_idx
              else mbsfn_subframe a t mb_idx) ;;
  telemetry ;;
  ret mb_idx'.

(** The [while] over the subframes given: it ends early when the state
    leaves [processing]. *)
Fixpoint processing_while (subframes : list answers) (mb_idx : Z) : M Z :=
  match subframes with
  | [] => ret mb_idx
  | a :: rest =>
      s <- get state ;;
      match s with
      | processing => i <- processing_body a mb_idx ;; processing_while rest i
      | _ => ret mb_idx
      end
  end.

(** Where the control thread is between two passes: at the head of
    [for (;;)], or inside the [while] of the processing branch, where the
    local [mb_idx] lives. *)
Inductive control_point := loop_head | in_processing (mb_idx : Z).

(** One pass: an iteration of [for (;;)] in the searching or syncing branch,
    or an iteration of the [while] of the processing branch, entered with
    [int mb_idx = 0]. *)
Definition run_pass (a : answers) (p : control_point) : M control_point :=
  s <- get state ;;
  match s with
  | searching => searching_pass a ;; ret loop_head
  | syncing => syncing_pass a ;; ret loop_head
  | processing =>
      let mb_idx := match p with loop_head => 0 | in_processing i => i end in
      i <- processing_body a mb_idx ;;
      ret (in_processing i)
  end.

Fixpoint run_loop (passes : list answers) (p : control_point) : M control_point :=
  match passes with
  | [] => ret p
  | a :: rest => p' <- run_pass a p ;; run_loop rest p'
  end.

(** [main]: start-up, then the run loop for as many passes as given. *)
Definition main (b : boot) (passes : list answers) : outcome control_point :=
  (startup b ;; run_loop passes loop_head) initial_modem.

End RunLoop.

(** ** Reading traces and states *)

(** The worker indices of the dispatch lines of a trace, in order. *)
Fixpoint assigned_workers (tr : list event) : list Z :=
  match tr with
  | [] => []
  | log_sending_to_mbsfn_proc _ i :: rest => i :: assigned_workers rest
  | _ :: rest => assigned_workers rest
  end.

(** The workers whose receive buffer the control thread locks, the workers
    into whose buffer a frame is read, and the workers whose buffer is
    handed to the pool or unlocked again, each in the order of the calls. *)
Definition locked_workers (tr : list event) : list Z :=
  flat_map (fun e => match e with
                     | mbsfn_get_rx_buffer_and_lock i => [i]
                     | _ => []
                     end) tr.

Definition frame_workers (tr : list event) : list Z :=
  flat_map (fun e => match e with
                     | phy_get_next_frame (mbsfn_processor i) => [i]
                     | _ => []
                     end) tr.

Definition handed_workers (tr : list event) : list Z :=
  flat_map (fun e => match e with
                     | pool_push (mbsfn_processor i) _ | mbsfn_unlock i => [i]
                     | _ => []
                     end) tr.

(** The MBSFN worker a call is about, if any. *)
Definition worker_of (e : event) : option Z :=
  match e with
  | log_sending_to_mbsfn_proc _ i
  | mbsfn_get_rx_buffer_and_lock i
  | phy_get_next_frame (mbsfn_processor i)
  | mbsfn_configured i
  | mbsfn_set_cell i _
  | mbsfn_configure_mbsfn i _ _
  | pool_push (mbsfn_processor i) _
  | mbsfn_unlock i => Some i
  | _ => None
  end.

(** No call of the trace is about another worker than [i]. *)
Definition names_only (i : Z) (tr : list event) : Prop :=
  Forall (fun e => worker_of e = None \/ worker_of e = Some i) tr.

(** [k] workers in turn from [c], of [n]. *)
Definition round_robin (c n : Z) (k : nat) : list Z :=
  map (fun j => (c + Z.of_nat j) mod n) (seq 0 k).

(** Frame retrieval and decoding: locking a receive buffer, reading a frame
    into it, handing it to the pool. *)
Definition is_frame_event (e : event) : bool :=
  match e with
  | phy_get_next_frame _ | mbsfn_get_rx_buffer_and_lock _ | pool_push _ _ => true
  | _ => false
  end.

Definition is_flag_read (e : event) : bool :=
  match e with
  | read_restart _ => true
  | _ => false
  end.

(** No read of the restart flag among the calls. *)
Definition no_flag_read (tr : list event) : Prop :=
  Forall (fun e => is_flag_read e = false) tr.

(** Neither a read of the flag nor anything of a frame among the calls. *)
Definition before_any_frame (tr : list event) : Prop :=
  Forall (fun e => is_flag_read e = false /\ is_frame_event e = false) tr.

(** [filter_bandwidth] gives the nominal width plus a fifth on every width
    below [n]. *)
Definition bandwidth_exact_upto (n : nat) : bool :=
  forallb (fun k => filter_bandwidth (Z.of_nat k) =? Z.of_nat k * 200000 + Z.of_nat k * 200000 / 5)
          (seq 0 n).

(** What [telemetry] adds to the trace from a state. *)
Definition telemetry_events (st : modem) : list event :=
  if wrap32 (tick st + 1) mod measurement_interval st =? 0
  then measurement_snapshot ::
       (if enable_measurement_file st then [measurement_file_WriteLogValues] else [])
  else [].

(** The recovery calls in the order of the CAS branch (main.cpp:610-617)
    and in the order of the MBSFN branch (main.cpp:652-660). *)
Definition recovery_cas_order (st : modem) : list event :=
  [sdr_stop;
   sdr_tune (frequency st) (search_sample_rate st) (bandwidth st) (gain st)
            (antenna st) (use_agc st);
   sdr_start; rrc_reset; phy_reset; sleep 1].

Definition recovery_mbsfn_order (st : modem) : list event :=
  [sdr_stop;
   sdr_tune (frequency st) (search_sample_rate st) (bandwidth st) (gain st)
            (antenna st) (use_agc st);
   sdr_start; sleep 1; rrc_reset; phy_reset].

(** The state a recovery leaves, before the tick. *)
Definition recovered (st : modem) : modem :=
  set_state searching (set_sample_rate (search_sample_rate st) st).

(** The state a PRB extension leaves, before the tick. *)
Definition extended (a : answers) (st : modem) : modem :=
  set_state syncing
    (set_bandwidth (filter_bandwidth (a_nof_mbsfn_prb_again a))
       (set_mbsfn_nof_prb (a_nof_mbsfn_prb_again a) st)).

(** The calls of a PRB extension, from the second query of the width on. *)
Definition extension_calls (srate : Z -> Z) (a : answers) (st : modem)
  : list event :=
  [phy_nof_mbsfn_prb; sdr_stop;
   sdr_tune (frequency st) (wrap32 (srate (a_nof_mbsfn_prb_again a)))
            (filter_bandwidth (a_nof_mbsfn_prb_again a)) (gain st) (antenna st)
            (use_agc st);
   phy_set_cell; phy_cell; cas_set_cell (a_cell a); sdr_start].

(** The calls after a frame was read into the buffer of worker [i]
    (main.cpp:627-648). *)
Definition decode_calls (a : answers) (t i : Z) : list event :=
  phy_mcch_configured ::
  (if a_mcch_configured a
   then phy_is_mbsfn_subframe t ::
        (if a_is_mbsfn_subframe a
         then mbsfn_configured i ::
              (if a_mbsfn_configured a then []
               else [phy_mbsfn_subcarrier_spacing; phy_cell;
                     mbsfn_set_cell i (mk_cell (mbsfn_prb (a_cell a)) (mbsfn_prb (a_cell a)));
                     phy_mbsfn_area_id;
                     mbsfn_configure_mbsfn i (a_mbsfn_area_id a)
                       (to_scs (a_mbsfn_subcarrier_spacing a))])
              ++ [pool_push (mbsfn_processor i) t]
         else [mbsfn_unlock i])
   else [mbsfn_unlock i]).

(** What an iteration leaves alone, and what it always does. *)
Definition iteration_frame (a : answers) (i : Z) (st : modem)
    (i' : Z) (st' : modem) : Prop :=
  tti st' = next_tti (tti st) /\
  tick st' = wrap32 (tick st + 1) /\
  thread_cnt st' = thread_cnt st /\
  measurement_interval st' = measurement_interval st /\
  enable_measurement_file st' = enable_measurement_file st /\
  restart st' = restart st /\
  search_sample_rate st' = search_sample_rate st /\
  i' = (if a_is_cas_subframe a then i else (i + 1) mod thread_cnt st).

(** The paths through the subframe branch of an iteration that starts in
    [st] with cursor [i]: the state and the calls each one leaves, the TTI
    already advanced. *)
Inductive subframe_path (srate : Z -> Z) (a : answers) (i : Z) (st : modem)
  : modem -> list event -> Prop :=
| cas_restart_pending :
    a_is_cas_subframe a = true -> restart st = true ->
    subframe_path srate a i st
      (recovered (set_tti (next_tti (tti st)) st))
      (read_restart true :: recovery_cas_order st)
| cas_no_frame :
    a_is_cas_subframe a = true -> restart st = false ->
    a_get_next_frame a = false ->
    subframe_path srate a i st
      (recovered (set_tti (next_tti (tti st)) st))
      (read_restart false :: phy_get_next_frame cas_processor ::
       recovery_cas_order st)
| cas_steady :
    a_is_cas_subframe a = true -> restart st = false ->
    a_get_next_frame a = true -> a_nof_mbsfn_prb a = mbsfn_nof_prb st ->
    subframe_path srate a i st
      (set_tti (next_tti (tti st)) st)
      [read_restart false; phy_get_next_frame cas_processor;
       pool_push cas_processor (next_tti (tti st)); phy_nof_mbsfn_prb]
| cas_extension :
    a_is_cas_subframe a = true -> restart st = false ->
    a_get_next_frame a = true -> a_nof_mbsfn_prb a <> mbsfn_nof_prb st ->
    subframe_path srate a i st
      (extended a (set_tti (next_tti (tti st)) st))
      ([read_restart false; phy_get_next_frame cas_processor;
        pool_push cas_processor (next_tti (tti st)); phy_nof_mbsfn_prb]
       ++ extension_calls srate a st)
| mbsfn_restart_pending :
    a_is_cas_subframe a = false -> restart st = true ->
    subframe_path srate a i st
      (recovered (set_tti (next_tti (tti st)) st))
      (log_sending_to_mbsfn_proc (next_tti (tti st)) i :: read_restart true ::
       recovery_mbsfn_order st)
| mbsfn_no_frame :
    a_is_cas_subframe a = false -> restart st = false ->
    a_get_next_frame a = false ->
    subframe_path srate a i st
      (recovered (set_tti (next_tti (tti st)) st))
      (log_sending_to_mbsfn_proc (next_tti (tti st)) i :: read_restart false ::
       mbsfn_get_rx_buffer_and_lock i :: phy_get_next_frame (mbsfn_processor i) ::
       recovery_mbsfn_order st)
| mbsfn_frame :
    a_is_cas_subframe a = false -> restart st = false ->
    a_get_next_frame a = true ->
    subframe_path srate a i st
      (set_tti (next_tti (tti st)) st)
      (log_sending_to_mbsfn_proc (next_tti (tti st)) i :: read_restart false ::
       mbsfn_get_rx_buffer_and_lock i :: phy_get_next_frame (mbsfn_processor i) ::
       decode_calls a (next_tti (tti st)) i).

(** A state in which an iteration of the processing loop is defined: the
    cursor indexes the vector of [thread_cnt] processors, whose indices fit
    the [int] cursor, and the measurement interval can divide. *)
Definition well_formed (st : modem) (mb_idx : Z) : Prop :=
  0 <= mb_idx < thread_cnt st /\ thread_cnt st <= 2 ^ 31 /\
  measurement_interval st <> 0.

(** ** Inputs for concrete runs *)

(** A sample-rate table to run the model on: 15 kHz times a transform size
    that grows with the number of PRB.  No theorem depends on its values. *)
Definition sampling_freq_table (nof_prb : Z) : Z :=
  15000 * (if nof_prb <=? 6 then 128
           else if nof_prb <=? 15 then 256
           else if nof_prb <=? 25 then 512
           else if nof_prb <=? 52 then 1024
           else if nof_prb <=? 79 then 1536
           else 2048).

(** Camped on a 5 MHz cell (25 PRB), four MBSFN processors, a snapshot
    every 5000 ticks. *)
Definition camped_at (s : state_t) (tk : Z) : modem :=
  mk_modem 7680000 7680000 667000000 6000000 0x1.ccccccccccccdp-1%float "LNAW"
    false 25 25 false (mk_arguments false 0 false) 4 false s 0 5000 tk.

Definition camped : modem := camped_at processing 0.

(** The answers of one subframe: whether it is a CAS subframe, whether a
    frame could be read, the MBSFN width the PHY reports. *)
Definition subframe (is_cas got_frame : bool) (width : Z) : answers :=
  mk_answers true 25 (fun _ => true) 0 (mk_cell 25 width) is_cas got_frame
    width width false false false df_15kHz 0.

(** A PHY that never synchronises. *)
Definition never_locks : answers :=
  mk_answers true 25 (fun _ => false) 0 (mk_cell 25 25) false false 25 25
    false false false df_15kHz 0.

(** A configuration file that sets nothing, and a start that finds it, a
    working SDR and working processors, with the centre frequencies and the
    answers of [sdr.tune] as given. *)
Definition default_config : config :=
  mk_config None None None None None None None.

Definition boot_with (entries : list (option Z)) (tune : Z -> bool) : boot :=
  mk_boot (mk_arguments false 0 false) read_ok default_config true read_ok
    (Some entries) tune true (fun _ => true).

(** A searching pass that finds no cell. *)
Definition no_cell : answers :=
  mk_answers false 0 (fun _ => false) 0 (mk_cell 0 0) false false 0 0
    false false false df_15kHz 0.

(** ** Reading the start-up *)

(** The start-up gets as far as the list of centre frequencies. *)
Definition reaches_frequencies (b : boot) : Prop :=
  b_config_read b = read_ok /\
  list_sdr_devices (b_arguments b) = false /\
  b_sdr_init b = true.

(** The list of centre frequencies is read and every entry has a value. *)
Definition frequencies_parsed (b : boot) (frequencies : list Z) : Prop :=
  b_frequencies_read b = read_ok /\
  b_center_frequencies_hz b = Some (map Some frequencies).

(** The state a [lookupValue] leaves. *)
Definition looked_up {A} (setting : option A) (store : A -> modem -> modem)
    (m : modem) : modem :=
  match setting with
  | Some v => store v m
  | None => m
  end.

(** The state [read_configuration] leaves when it gets through. *)
Definition configured (b : boot) (st : modem) : modem :=
  let cfg := b_config b in
  let m1 := looked_up (modem_sdr_search_sample_rate_hz cfg)
              (fun v => set_sample_rate (wrap32 v)) (set_opts (b_arguments b) st) in
  let m2 := set_search_sample_rate (sample_rate m1) m1 in
  looked_up (modem_sdr_use_agc cfg) set_use_agc
    (looked_up (modem_sdr_antenna cfg) set_antenna
       (looked_up (modem_sdr_normalized_gain cfg) set_gain m2)).

(** How the start-up ends once the candidates are tuned to: in the run
    loop, or with exit status 1 (a frame processor that cannot be created). *)
Definition startup_tail_ok (b : boot) (st : modem) : Prop :=
  (exists st',
      (create_processors b ;; start_counters (b_config b)) st
      = Ok tt st' ([sdr_start] ++ []) /\
      tick st' = 0 /\ state st' = searching /\
      thread_cnt st' = match modem_phy_threads (b_config b) with
                       | Some v => wrap32 v
                       | None => 4
                       end /\
      measurement_interval st'
      = wrap32 (match modem_measurement_file_interval_secs (b_config b) with
                | Some v => wrap32 v
                | None => 5
                end * 1000)) \/
  (create_processors b ;; start_counters (b_config b)) st = Stop (exit 1).

(** What the run loop needs of a state to go on: processors to index, with
    indices that fit the [int] cursor and the cursor among them, and a
    measurement interval that can divide. *)
Definition loop_invariant (st : modem) (p : control_point) : Prop :=
  0 < thread_cnt st <= 2 ^ 31 /\
  measurement_interval st <> 0 /\
  match p with
  | loop_head => True
  | in_processing i => 0 <= i < thread_cnt st
  end.

(** ** The command line (main.cpp:99-153) *)

Module Cli.

(** [struct arguments], all of it. *)
Record arguments := mk_arguments {
  config_file : string;
  log_level : Z;                       (* unsigned *)
  srs_log_level : Z;                   (* unsigned *)
  override_nof_prb : Z;                (* int8_t *)
  sample_file : option string;         (* [None] is nullptr *)
  file_bw : Z;                         (* uint8_t *)
  write_sample_file : option string;
  list_sdr_devices : bool
}.

(** The member initialisers and the defaults of main.cpp:253-255. *)
Definition defaults : arguments :=
  mk_arguments "/etc/5gmag-rt.conf" 2 4 (-1) None 0 None false.

(** [error_t] as [parse_opt] returns it. *)
Inductive error_t := no_error | ARGP_ERR_UNKNOWN.

(** A call of [parse_opt]: it returns, or [argp_usage] ends the process. *)
Inductive result := returned (err : error_t) (a : arguments) | usage.

(** [static_cast<uint8_t>] and [static_cast<int8_t>]. *)
Definition to_uint8 (z : Z) : Z := z mod 256.
Definition to_int8 (z : Z) : Z :=
  let w := z mod 256 in if w <? 128 then w else w - 256.

(** The key of a short option is its character; [ARGP_KEY_ARG] is 0 in
    argp.h. *)
Definition key_of (c : Ascii.ascii) : Z := Z.of_nat (Ascii.nat_of_ascii c).
Definition ARGP_KEY_ARG : Z := 0.

Section ParseOpt.

(** [strtoul(arg, nullptr, 10)] and [strtol(arg, nullptr, 10)] of the C
    library. *)
Variable strtoul : string -> Z.
Variable strtol : string -> Z.

Definition parse_opt (key : Z) (arg : string) (a : arguments) : result :=
  if key =? key_of "c"%char then
    returned no_error
      (mk_arguments arg (log_level a) (srs_log_level a) (override_nof_prb a)
         (sample_file a) (file_bw a) (write_sample_file a) (list_sdr_devices a))
  else if key =? key_of "l"%char then
    returned no_error
      (mk_arguments (config_file a) (wrap32 (strtoul arg)) (srs_log_level a)
         (override_nof_prb a) (sample_file a) (file_bw a) (write_sample_file a)
         (list_sdr_devices a))
  else if key =? key_of "s"%char then
    returned no_error
      (mk_arguments (config_file a) (log_level a) (wrap32 (strtoul arg))
         (override_nof_prb a) (sample_file a) (file_bw a) (write_sample_file a)
         (list_sdr_devices a))
  else if key =? key_of "f"%char then
    returned no_error
      (mk_arguments (config_file a) (log_level a) (srs_log_level a)
         (override_nof_prb a) (Some arg) (file_bw a) (write_sample_file a)
         (list_sdr_devices a))
  else if key =? key_of "w"%char then
    returned no_error
      (mk_arguments (config_file a) (log_level a) (srs_log_level a)
         (override_nof_prb a) (sample_file a) (file_bw a) (Some arg)
         (list_sdr_devices a))
  else if key =? key_of "b"%char then
    returned no_error
      (mk_arguments (config_file a) (log_level a) (srs_log_level a)
         (override_nof_prb a) (sample_file a) (to_uint8 (strtoul arg))
         (write_sample_file a) (list_sdr_devices a))
  else if key =? key_of "p"%char then
    returned no_error
      (mk_arguments (config_file a) (log_level a) (srs_log_level a)
         (to_int8 (strtol arg)) (sample_file a) (file_bw a) (write_sample_file a)
         (list_sdr_devices a))
  else if key =? key_of "d"%char then
    returned no_error
      (mk_arguments (config_file a) (log_level a) (srs_log_level a)
         (override_nof_prb a) (sample_file a) (file_bw a) (write_sample_file a)
         true)
  else if key =? ARGP_KEY_ARG then usage
  else returned ARGP_ERR_UNKNOWN a.

End ParseOpt.

End Cli.

(** What the start-up and the run loop read of the parsed options. *)
Definition options_of (a : Cli.arguments) : arguments :=
  mk_arguments (match Cli.sample_file a with Some _ => true | None => false end)
    (Cli.file_bw a) (Cli.list_sdr_devices a).

(** ** Reading runs of the loop *)

(** The number of calls of [phy.synchronize_subframe] up to and with the
    first that succeeds, when one of the [n] calls from the [from]-th on
    does. *)
Fixpoint attempts_to_lock (a : answers) (from n : nat) : option nat :=
  match n with
  | O => None
  | S n' =>
      if a_synchronize_subframe a from then Some 1%nat
      else option_map S (attempts_to_lock a (S from) n')
  end.

(** The state after a pass, as a table of the answers: the transitions of
    the receiver as the run loop makes them. *)
Definition next_state (a : answers) (st : modem) : state_t :=
  match state st with
  | searching => if a_cell_search a then syncing else searching
  | syncing =>
      match attempts_to_lock a 0 200 with
      | Some _ => processing
      | None => syncing
      end
  | processing =>
      if negb (restart st) && a_get_next_frame a then
        if a_is_cas_subframe a then
          if a_nof_mbsfn_prb a =? mbsfn_nof_prb st then processing else syncing
        else processing
      else searching
  end.

(** [mbsfn_processors[i]->unlock()] for [n] processors from [i] on. *)
Definition unlock_calls (n : nat) (i : Z) : list event :=
  map (fun k => mbsfn_unlock (i + Z.of_nat k)) (seq 0 n).

(** The calls of a syncing pass after the call that locked. *)
Definition locked_calls (a : answers) (st : modem) : list event :=
  [phy_tti; phy_cell; cas_set_cell (a_cell a)] ++
  unlock_calls (Z.to_nat (thread_cnt st)) 0 ++
  [phy_tti; rrc_reset; sdr_enableSampleFileWriting].

(** The calls of a searching pass up to the cell search, with and without
    a restart pending. *)
Definition search_calls (st : modem) : list event :=
  read_restart (restart st) ::
  (if restart st
   then [sdr_stop;
         sdr_tune (frequency st) (search_sample_rate st) (bandwidth st)
                  (gain st) (antenna st) (use_agc st);
         sdr_start]
   else []) ++
  [sdr_disableSampleFileWriting; sdr_clear_buffer; phy_cell_search].

(** The state of a searching pass before the cell search. *)
Definition search_begun (st : modem) : modem :=
  set_restart false
    (if restart st then set_sample_rate (search_sample_rate st) st else st).

(** Decoding from a sample file: both options given (main.cpp:500). *)
Definition file_mode (st : modem) : bool :=
  sample_file (opts st) && negb (file_bw (opts st) =? 0).

(** The cursor a pass of the run loop works with. *)
Definition cursor_of (p : control_point) : Z :=
  match p with
  | loop_head => 0
  | in_processing i => i
  end.

(** The state [set_params] leaves. *)
Definition requested (ant : string) (fc : Z) (g : float) (sr bw : Z) (st : modem)
  : modem :=
  set_restart true
    (set_gain g
       (set_antenna ant
          (set_bandwidth (wrap32 bw)
             (set_frequency (wrap32 fc) (set_sample_rate (wrap32 sr) st))))).

(** The calls with which a searching pass applies a request of
    [set_params] made in [st]. *)
Definition retune_calls (ant : string) (fc : Z) (g : float) (bw : Z) (st : modem)
  : list event :=
  [read_restart true; sdr_stop;
   sdr_tune (wrap32 fc) (search_sample_rate st) (wrap32 bw) g ant (use_agc st);
   sdr_start; sdr_disableSampleFileWriting; sdr_clear_buffer; phy_cell_search].

(** The receive buffers the control thread has locked and neither unlocked
    nor handed to a decode task, after the calls of a trace. *)
Fixpoint locks_after (tr : list event) (held : list Z) : list Z :=
  match tr with
  | [] => held
  | mbsfn_get_rx_buffer_and_lock i :: rest => locks_after rest (i :: held)
  | mbsfn_unlock i :: rest => locks_after rest (remove Z.eq_dec i held)
  | pool_push (mbsfn_processor i) _ :: rest =>
      locks_after rest (remove Z.eq_dec i held)
  | _ :: rest => locks_after rest held
  end.

(** Every [sdr.tune] of a trace is at the centre frequency, gain, antenna
    and AGC setting of [st]. *)
Definition tunes_at (st : modem) (tr : list event) : Prop :=
  Forall (fun e =>
            match e with
            | sdr_tune fc _ _ g ant agc =>
                fc = frequency st /\ g = gain st /\ ant = antenna st /\
                agc = use_agc st
            | _ => True
            end) tr.

(** What no pass of the run loop changes. *)
Definition settings_kept (st st' : modem) : Prop :=
  frequency st' = frequency st /\ gain st' = gain st /\
  antenna st' = antenna st /\ use_agc st' = use_agc st /\
  search_sample_rate st' = search_sample_rate st /\
  opts st' = opts st /\ thread_cnt st' = thread_cnt st /\
  measurement_interval st' = measurement_interval st /\
  enable_measurement_file st' = enable_measurement_file st.


(** The thread count the start-up takes from the configuration. *)
Definition configured_threads (b : boot) : Z :=
  match modem_phy_threads (b_config b) with
  | Some v => wrap32 v
  | None => 4
  end.

(** The measurement interval, in ticks, the start-up takes from it. *)
Definition configured_interval (b : boot) : Z :=
  wrap32 (match modem_measurement_file_interval_secs (b_config b) with
          | Some v => wrap32 v
          | None => 5
          end * 1000).

(** The states [create_processors] and [start_counters] leave when they
    get through, and the state of a start-up that reaches the run loop. *)
Definition processors_created (b : boot) (m : modem) : modem :=
  set_state searching
    (looked_up (modem_measurement_file_enabled (b_config b))
       set_enable_measurement_file
       (set_enable_measurement_file false
          (looked_up (modem_phy_threads (b_config b))
             (fun v => set_thread_cnt (wrap32 v)) (set_thread_cnt 4 m)))).

Definition counters_started (cfg : config) (m : modem) : modem :=
  let m1 := looked_up (modem_measurement_file_interval_secs cfg)
              (fun v => set_measurement_interval (wrap32 v))
              (set_measurement_interval 5 (set_tti 0 m)) in
  set_state searching
    (set_tick 0
       (set_measurement_interval (wrap32 (measurement_interval m1 * 1000)) m1)).

Definition started (b : boot) (st : modem) : modem :=
  counters_started (b_config b) (processors_created b (configured b st)).

(** The calls of a start-up that reaches the run loop, with [f0] and [f1]
    the first two centre frequencies and [st] the state [read_configuration]
    leaves. *)
Definition startup_calls (b : boot) (st : modem) (f0 f1 : Z) : list event :=
  [sdr_tune f0 (sample_rate st) (bandwidth st) (gain st) (antenna st) (use_agc st);
   if b_tune b f0 then log_tuned f0 else log_failed_to_set_center_frequency f0;
   sdr_tune f1 (sample_rate st) (bandwidth st) (gain st) (antenna st) (use_agc st);
   if b_tune b f1 then log_tuned f1 else log_failed_to_set_center_frequency f1;
   sdr_start].

(** The conditions under which the start-up reaches the run loop. *)
Definition startup_succeeds (b : boot) (f0 f1 : Z) : Prop :=
  reaches_frequencies b /\
  (exists fs, frequencies_parsed b fs /\
              nth_error fs 0 = Some f0 /\ nth_error fs 1 = Some f1) /\
  f0 <= UINT_MAX /\ f1 <= UINT_MAX /\
  b_cas_init b = true /\
  (forall k, (k < Z.to_nat (configured_threads b))%nat ->
             b_mbsfn_init b (Z.of_nat k) = true).

(** ** Lemmas on the monad and the arithmetic *)

#[local] Arguments wrap32 : simpl never.
#[local] Arguments to_int : simpl never.
#[local] Arguments next_tti : simpl never.
#[local] Arguments filter_bandwidth : simpl never.
#[local] Arguments Z.modulo : simpl never.
#[local] Arguments Z.pow : simpl never.

Lemma bind_Ok {A B} (c : M A) (k : A -> M B) m a m1 t1 b m2 t2 :
  c m = Ok a m1 t1 -> k a m1 = Ok b m2 t2 -> bind c k m = Ok b m2 (t1 ++ t2).
Proof. intros Hc Hk. unfold bind. rewrite Hc, Hk. reflexivity. Qed.

Lemma bind_Stop {A B} (c : M A) (k : A -> M B) m why :
  c m = Stop why -> bind c k m = Stop why.
Proof. intros Hc. unfold bind. rewrite Hc. reflexivity. Qed.

Lemma wrap32_small z : 0 <= z < 2 ^ 32 -> wrap32 z = z.
Proof. intros H. unfold wrap32. apply Z.mod_small. exact H. Qed.

Lemma wrap32_range z : 0 <= wrap32 z < 2 ^ 32.
Proof. unfold wrap32. apply Z.mod_pos_bound. lia. Qed.

Lemma to_int_small z : 0 <= z < 2 ^ 31 -> to_int z = z.
Proof.
  intros H. unfold to_int. rewrite wrap32_small by lia.
  destruct (Z.ltb_spec z (2 ^ 31)); [reflexivity | lia].
Qed.

(** The cursor after a broadcast subframe, as an integer of the range. *)
Lemma cursor_advance c n :
  0 <= c < n -> n <= 2 ^ 31 ->
  to_int (wrap32 (c + 1) mod n) = (c + 1) mod n /\ 0 <= (c + 1) mod n < n.
Proof.
  intros Hc Hn.
  assert (Hr : 0 <= (c + 1) mod n < n) by (apply Z.mod_pos_bound; lia).
  rewrite wrap32_small by lia. split; [|exact Hr].
  apply to_int_small. lia.
Qed.

Lemma next_tti_range t : 0 <= next_tti t < 10240.
Proof. unfold next_tti. apply Z.mod_pos_bound. lia. Qed.

Lemma next_tti_succ t : 0 <= t < 10239 -> next_tti t = t + 1.
Proof.
  intros H. unfold next_tti. rewrite wrap32_small by lia.
  apply Z.mod_small. lia.
Qed.

Lemma subframe_of_mod t : subframe_of t = t mod 10.
Proof. unfold subframe_of, sfn_of. rewrite Z.mod_eq by lia. lia. Qed.

(** ** Concrete runs *)

Example filter_bandwidth_25_prb : filter_bandwidth 25 = 6000000.
Proof. vm_compute. reflexivity. Qed.

Example filter_bandwidth_40_prb : filter_bandwidth 40 = 9600000.
Proof. vm_compute. reflexivity. Qed.

Example next_tti_from_10238 : next_tti 10238 = 10239 /\ next_tti 10239 = 0.
Proof. split; reflexivity. Qed.

(** A cell found while decoding from the air: the radio is retuned to the
    rate of the cell's width and the loop goes to syncing. *)
Example searching_finds_cell :
  searching_pass sampling_freq_table (subframe true true 25) (camped_at searching 0)
  = Ok tt (camped_at syncing 0)
      [read_restart false; sdr_disableSampleFileWriting; sdr_clear_buffer;
       phy_cell_search; phy_nr_prb; phy_nr_prb; phy_nr_prb; sdr_stop;
       sdr_tune 667000000 7680000 6000000 (gain initial_modem) "LNAW" false;
       sdr_start].
Proof. vm_compute. reflexivity. Qed.

(** Synchronised at the first attempt: the four processors are unlocked
    and the loop goes to processing. *)
Example syncing_locks_at_once :
  syncing_pass (subframe true true 25) (camped_at syncing 0)
  = Ok tt (camped_at processing 0)
      [phy_synchronize_subframe; phy_tti; phy_cell; cas_set_cell (mk_cell 25 25);
       mbsfn_unlock 0; mbsfn_unlock 1; mbsfn_unlock 2; mbsfn_unlock 3;
       phy_tti; rrc_reset; sdr_enableSampleFileWriting].
Proof. vm_compute. reflexivity. Qed.

(** Five broadcast subframes from cursor 2 with four processors. *)
Example five_broadcast_subframes :
  let run := processing_while sampling_freq_table
               (repeat (subframe false true 25) 5) 2 camped in
  match run with
  | Ok c' st' tr => c' = 3 /\ assigned_workers tr = [2; 3; 0; 1; 2] /\ tti st' = 5
  | Stop _ => False
  end.
Proof. vm_compute. repeat split; reflexivity. Qed.

(** No processors at all: the cursor cannot advance. *)
Example no_processors_divides_by_zero :
  processing_body sampling_freq_table (subframe false true 25) 0
    (set_restart true (set_thread_cnt 0 camped))
  = Stop division_by_zero.
Proof. vm_compute. reflexivity. Qed.

(** ** One iteration of the processing loop, case by case *)

Section Iteration.

Variable srate : Z -> Z.

Ltac reduce_run :=
  cbn [sample_rate search_sample_rate frequency bandwidth gain antenna use_agc
       mbsfn_nof_prb cas_nof_prb restart opts thread_cnt
       enable_measurement_file state tti measurement_interval tick
       app negb andb].

Ltac unfold_run :=
  cbv [cas_subframe mbsfn_subframe prb_extension telemetry mbsfn_processors
       load_restart tune_at bind ret call get modify when stop
       set_sample_rate set_bandwidth set_mbsfn_nof_prb set_state set_tti
       set_tick];
  reduce_run.

Lemma telemetry_run st :
  measurement_interval st <> 0 ->
  telemetry st = Ok tt (set_tick (wrap32 (tick st + 1)) st) (telemetry_events st).
Proof.
  intros Hmi. unfold_run. unfold telemetry_events.
  destruct (Z.eqb_spec (measurement_interval st) 0) as [E|_]; [contradiction|].
  destruct (wrap32 (tick st + 1) mod measurement_interval st =? 0); [|reflexivity].
  destruct (enable_measurement_file st); reflexivity.
Qed.

Lemma cas_subframe_restart a t st :
  restart st = true ->
  cas_subframe srate a t st
  = Ok tt (recovered st) (read_restart true :: recovery_cas_order st).
Proof.
  intros Hr. unfold_run. rewrite Hr. reflexivity.
Qed.

Lemma cas_subframe_no_frame a t st :
  restart st = false -> a_get_next_frame a = false ->
  cas_subframe srate a t st
  = Ok tt (recovered st)
      (read_restart false :: phy_get_next_frame cas_processor :: recovery_cas_order st).
Proof.
  intros Hr Hf. unfold_run. rewrite Hr, Hf. reflexivity.
Qed.

Lemma cas_subframe_steady a t st :
  restart st = false -> a_get_next_frame a = true ->
  a_nof_mbsfn_prb a = mbsfn_nof_prb st ->
  cas_subframe srate a t st
  = Ok tt st [read_restart false; phy_get_next_frame cas_processor;
              pool_push cas_processor t; phy_nof_mbsfn_prb].
Proof.
  intros Hr Hf Hw. unfold_run. rewrite Hr. reduce_run. rewrite Hf, Hw, Z.eqb_refl.
  reflexivity.
Qed.

Lemma cas_subframe_extension a t st :
  restart st = false -> a_get_next_frame a = true ->
  a_nof_mbsfn_prb a <> mbsfn_nof_prb st ->
  cas_subframe srate a t st
  = Ok tt (extended a st)
      ([read_restart false; phy_get_next_frame cas_processor;
        pool_push cas_processor t; phy_nof_mbsfn_prb] ++ extension_calls srate a st).
Proof.
  intros Hr Hf Hw. unfold_run. rewrite Hr. reduce_run. rewrite Hf.
  destruct (Z.eqb_spec (a_nof_mbsfn_prb a) (mbsfn_nof_prb st)) as [E|_]; [contradiction|].
  reflexivity.
Qed.

Lemma mbsfn_subframe_restart a t i st :
  thread_cnt st <> 0 -> restart st = true ->
  mbsfn_subframe a t i st
  = Ok (to_int (wrap32 (i + 1) mod thread_cnt st)) (recovered st)
      (log_sending_to_mbsfn_proc t i :: read_restart true :: recovery_mbsfn_order st).
Proof.
  intros Hn Hr. unfold_run. rewrite Hr. reduce_run.
  destruct (Z.eqb_spec (thread_cnt st) 0) as [E|_]; [contradiction|].
  reflexivity.
Qed.

Lemma in_range_test i n : 0 <= i < n -> (0 <=? i) && (i <? n) = true.
Proof.
  intros H. apply andb_true_intro. split; [apply Z.leb_le | apply Z.ltb_lt]; lia.
Qed.

Lemma mbsfn_subframe_no_frame a t i st :
  0 <= i < thread_cnt st -> restart st = false -> a_get_next_frame a = false ->
  mbsfn_subframe a t i st
  = Ok (to_int (wrap32 (i + 1) mod thread_cnt st)) (recovered st)
      (log_sending_to_mbsfn_proc t i :: read_restart false ::
       mbsfn_get_rx_buffer_and_lock i :: phy_get_next_frame (mbsfn_processor i) ::
       recovery_mbsfn_order st).
Proof.
  intros Hi Hr Hf. unfold_run. rewrite Hr. reduce_run.
  rewrite (in_range_test _ _ Hi), Hf. reduce_run.
  destruct (Z.eqb_spec (thread_cnt st) 0) as [E|_]; [lia|].
  reflexivity.
Qed.

Lemma mbsfn_subframe_frame a t i st :
  0 <= i < thread_cnt st -> restart st = false -> a_get_next_frame a = true ->
  mbsfn_subframe a t i st
  = Ok (to_int (wrap32 (i + 1) mod thread_cnt st)) st
      (log_sending_to_mbsfn_proc t i :: read_restart false ::
       mbsfn_get_rx_buffer_and_lock i :: phy_get_next_frame (mbsfn_processor i) ::
       decode_calls a t i).
Proof.
  intros Hi Hr Hf. unfold_run. rewrite Hr. reduce_run.
  rewrite (in_range_test _ _ Hi), Hf. reduce_run. unfold decode_calls.
  assert (Hn : (thread_cnt st =? 0) = false) by (apply Z.eqb_neq; lia).
  destruct (a_mcch_configured a); [|cbn; rewrite Hn; reflexivity].
  destruct (a_is_mbsfn_subframe a); [|cbn; rewrite Hn; reflexivity].
  destruct (a_mbsfn_configured a); cbn; rewrite Hn; reflexivity.
Qed.

(** An iteration is its subframe branch on the state with the TTI
    advanced, then the tick. *)
Lemma processing_body_run a i st i' st1 tr :
  (if a_is_cas_subframe a
   then bind (cas_subframe srate a (next_tti (tti st))) (fun _ => ret i)
   else mbsfn_subframe a (next_tti (tti st)) i) (set_tti (next_tti (tti st)) st)
  = Ok i' st1 tr ->
  measurement_interval st1 <> 0 ->
  processing_body srate a i st
  = Ok i' (set_tick (wrap32 (tick st1 + 1)) st1)
      (phy_is_cas_subframe (next_tti (tti st)) :: tr ++ telemetry_events st1).
Proof.
  intros Hd Hmi. unfold processing_body.
  cbv [bind get modify]. cbn [tti set_tti call].
  change (mk_modem (sample_rate st) (search_sample_rate st) (frequency st)
            (bandwidth st) (gain st) (antenna st) (use_agc st) (mbsfn_nof_prb st)
            (cas_nof_prb st) (restart st) (opts st) (thread_cnt st)
            (enable_measurement_file st) (state st) (next_tti (tti st))
            (measurement_interval st) (tick st))
    with (set_tti (next_tti (tti st)) st).
  destruct (a_is_cas_subframe a).
  - cbv [bind ret] in Hd |- *.
    destruct (cas_subframe srate a (next_tti (tti st)) (set_tti (next_tti (tti st)) st))
      as [u m1 t1|]; [|discriminate].
    inversion Hd; subst. rewrite (telemetry_run _ Hmi).
    cbn [app]. rewrite !app_nil_r. reflexivity.
  - rewrite Hd. rewrite (telemetry_run _ Hmi). cbn [app ret].
    rewrite !app_nil_r. reflexivity.
Qed.

Lemma processing_body_cases a i st :
  well_formed st i ->
  exists i' st1 tr,
    processing_body srate a i st
    = Ok i' (set_tick (wrap32 (tick st + 1)) st1)
        (phy_is_cas_subframe (next_tti (tti st)) :: tr ++ telemetry_events st) /\
    subframe_path srate a i st st1 tr /\
    iteration_frame a i st i' (set_tick (wrap32 (tick st + 1)) st1) /\
    well_formed (set_tick (wrap32 (tick st + 1)) st1) i'.
Proof.
  intros (Hi & Hn & Hmi).
  destruct (cursor_advance i (thread_cnt st) Hi Hn) as [Hc Hc'].
  pose (s0 := set_tti (next_tti (tti st)) st).
  assert (Hd : exists i' st1 tr,
             (if a_is_cas_subframe a
              then bind (cas_subframe srate a (next_tti (tti st))) (fun _ => ret i)
              else mbsfn_subframe a (next_tti (tti st)) i) s0 = Ok i' st1 tr /\
             subframe_path srate a i st st1 tr /\
             tti st1 = next_tti (tti st) /\ tick st1 = tick st /\
             thread_cnt st1 = thread_cnt st /\
             measurement_interval st1 = measurement_interval st /\
             enable_measurement_file st1 = enable_measurement_file st /\
             restart st1 = restart st /\
             search_sample_rate st1 = search_sample_rate st /\
             i' = (if a_is_cas_subframe a then i else (i + 1) mod thread_cnt st)).
  { destruct (a_is_cas_subframe a) eqn:Hcas.
    - destruct (restart st) eqn:Hr.
      + do 3 eexists. split; [|split].
        * eapply bind_Ok; [apply cas_subframe_restart; exact Hr | reflexivity].
        * rewrite app_nil_r. exact (cas_restart_pending srate a i st Hcas Hr).
        * cbn. rewrite Hr. repeat split; reflexivity.
      + destruct (a_get_next_frame a) eqn:Hf.
        * destruct (Z.eq_dec (a_nof_mbsfn_prb a) (mbsfn_nof_prb st)) as [Hw|Hw].
          -- do 3 eexists. split; [|split].
             ++ eapply bind_Ok;
                  [apply cas_subframe_steady; [exact Hr | exact Hf | exact Hw] | reflexivity].
             ++ rewrite app_nil_r. exact (cas_steady srate a i st Hcas Hr Hf Hw).
             ++ cbn. rewrite Hr. repeat split; reflexivity.
          -- do 3 eexists. split; [|split].
             ++ eapply bind_Ok;
                  [apply cas_subframe_extension; [exact Hr | exact Hf | exact Hw] | reflexivity].
             ++ rewrite app_nil_r. exact (cas_extension srate a i st Hcas Hr Hf Hw).
             ++ cbn. rewrite Hr. repeat split; reflexivity.
        * do 3 eexists. split; [|split].
          -- eapply bind_Ok;
               [apply cas_subframe_no_frame; [exact Hr | exact Hf] | reflexivity].
          -- rewrite app_nil_r. exact (cas_no_frame srate a i st Hcas Hr Hf).
          -- cbn. rewrite Hr. repeat split; reflexivity.
    - destruct (restart st) eqn:Hr.
      + do 3 eexists. split; [|split].
        * apply mbsfn_subframe_restart; [cbn; lia | exact Hr].
        * exact (mbsfn_restart_pending srate a i st Hcas Hr).
        * cbn. rewrite Hr, Hc. repeat split; reflexivity.
      + destruct (a_get_next_frame a) eqn:Hf.
        * do 3 eexists. split; [|split].
          -- apply mbsfn_subframe_frame; [exact Hi | exact Hr | exact Hf].
          -- exact (mbsfn_frame srate a i st Hcas Hr Hf).
          -- cbn. rewrite Hr, Hc. repeat split; reflexivity.
        * do 3 eexists. split; [|split].
          -- apply mbsfn_subframe_no_frame; [exact Hi | exact Hr | exact Hf].
          -- exact (mbsfn_no_frame srate a i st Hcas Hr Hf).
          -- cbn. rewrite Hr, Hc. repeat split; reflexivity. }
  destruct Hd as (i' & st1 & tr & Hrun & Hpath & Ht & Htk & Hcnt & Hint & Hen & Hre & Hss & Hi').
  exists i', st1, tr.
  assert (Hte : telemetry_events st1 = telemetry_events st).
  { unfold telemetry_events. rewrite Htk, Hint, Hen. reflexivity. }
  split; [|split; [exact Hpath|split]].
  - rewrite <- Hte, <- Htk.
    apply processing_body_run; [exact Hrun | rewrite Hint; exact Hmi].
  - unfold iteration_frame. cbn. repeat split; assumption.
  - unfold well_formed. cbn. rewrite Hcnt, Hint. repeat split; try lia.
    + subst i'. destruct (a_is_cas_subframe a); lia.
    + subst i'. destruct (a_is_cas_subframe a); lia.
Qed.

End Iteration.

(** ** Properties of the processing loop *)

Lemma telemetry_events_only e st :
  In e (telemetry_events st) ->
  e = measurement_snapshot \/ e = measurement_file_WriteLogValues.
Proof.
  unfold telemetry_events.
  destruct (wrap32 (tick st + 1) mod measurement_interval st =? 0); [|intros []].
  destruct (enable_measurement_file st); cbn [In]; intuition auto.
Qed.

Lemma snapshot_in_telemetry st :
  In measurement_snapshot (telemetry_events st) <->
  wrap32 (tick st + 1) mod measurement_interval st = 0.
Proof.
  unfold telemetry_events.
  destruct (Z.eqb_spec (wrap32 (tick st + 1) mod measurement_interval st) 0) as [E|E].
  - split; [intros _; exact E | intros _; left; reflexivity].
  - split; [intros [] | intros H; contradiction].
Qed.

(** No subframe branch takes a snapshot: only the tick does. *)
Lemma subframe_path_no_snapshot srate a i st st1 tr :
  subframe_path srate a i st st1 tr -> ~ In measurement_snapshot tr.
Proof.
  intros Hp; inversion Hp; subst;
    unfold recovery_cas_order, recovery_mbsfn_order, extension_calls, decode_calls;
    cbn [In app]; try (intuition discriminate).
  destruct (a_mcch_configured a); [|cbn [In]; intuition discriminate].
  destruct (a_is_mbsfn_subframe a); [|cbn [In]; intuition discriminate].
  destruct (a_mbsfn_configured a); cbn [In app]; intuition discriminate.
Qed.

(** C7: every iteration of the processing loop advances the TTI once,
    modulo 10240, so that 10239 is followed by 0; for every TTI of the
    range the frame index is TTI / 10 and the subframe index TTI mod 10. *)
Theorem tti_advances_modulo_10240 srate a i st :
  well_formed st i ->
  (exists i' st' tr,
      processing_body srate a i st = Ok i' st' tr /\
      tti st' = next_tti (tti st)) /\
  next_tti 10239 = 0 /\
  (forall t, 0 <= t < 10240 ->
     0 <= next_tti t < 10240 /\
     (t < 10239 -> next_tti t = t + 1) /\
     sfn_of t = t / 10 /\
     subframe_of t = t mod 10 /\
     t = sfn_of t * 10 + subframe_of t /\
     0 <= sfn_of t < 1024 /\ 0 <= subframe_of t < 10).
Proof.
  intros Hwf. split; [|split].
  - destruct (processing_body_cases srate a i st Hwf)
      as (i' & st1 & tr & Hrun & _ & Hfr & _).
    do 3 eexists. split; [exact Hrun|]. apply Hfr.
  - reflexivity.
  - intros t Ht. split; [apply next_tti_range|].
    split; [intros Hlt; apply next_tti_succ; lia|].
    split; [reflexivity|].
    split; [apply subframe_of_mod|].
    rewrite subframe_of_mod. unfold sfn_of.
    pose proof (Z.div_mod t 10 ltac:(lia)) as Hdm.
    pose proof (Z.mod_pos_bound t 10 ltac:(lia)) as Hm.
    repeat split; lia.
Qed.

Lemma tti_advances_witness :
  well_formed camped 0 /\
  (exists i' st' tr,
      processing_body sampling_freq_table (subframe true true 25) 0 camped
      = Ok i' st' tr /\ tti st' = next_tti (tti camped)).
Proof.
  assert (Hwf : well_formed camped 0)
    by (unfold well_formed; cbn; repeat split; (lia || discriminate)).
  split; [exact Hwf|].
  exact (proj1 (tti_advances_modulo_10240 sampling_freq_table
                  (subframe true true 25) 0 camped Hwf)).
Defined.

Lemma start_counters_run cfg st :
  exists st',
    start_counters cfg st = Ok tt st' [] /\
    tick st' = 0 /\ state st' = searching /\
    thread_cnt st' = thread_cnt st /\
    measurement_interval st'
    = wrap32 (match modem_measurement_file_interval_secs cfg with
              | Some v => wrap32 v
              | None => 5
              end * 1000).
Proof.
  unfold start_counters, lookupValue.
  destruct (modem_measurement_file_interval_secs cfg);
    eexists; (split; [reflexivity|]); cbn; repeat split; reflexivity.
Qed.

(** C9, as the code has it: every iteration of the processing loop adds
    one to the 32-bit tick counter, whatever happened to the subframe, and
    takes a snapshot exactly when the new tick is a multiple of the
    interval; an interval of 5 seconds (also the default) is 5000 ticks, the
    counter starts at 0, and up to the wrap-around of the counter the
    snapshots are taken at the ticks 5000, 10000, ... and at no other. *)
Theorem telemetry_every_interval_until_wrap srate a i st :
  well_formed st i ->
  (exists i' st' tr,
      processing_body srate a i st = Ok i' st' tr /\
      tick st' = wrap32 (tick st + 1) /\
      (In measurement_snapshot tr <->
       tick st' mod measurement_interval st = 0) /\
      (measurement_interval st = 5000 -> 0 <= tick st -> tick st + 1 < 2 ^ 32 ->
       tick st' = tick st + 1 /\
       (In measurement_snapshot tr <-> (tick st + 1) mod 5000 = 0))) /\
  (forall cfg st0,
      modem_measurement_file_interval_secs cfg = Some 5 \/
      modem_measurement_file_interval_secs cfg = None ->
      exists st1, start_counters cfg st0 = Ok tt st1 [] /\
                  measurement_interval st1 = 5000 /\ tick st1 = 0).
Proof.
  intros Hwf. split.
  - destruct (processing_body_cases srate a i st Hwf)
      as (i' & st1 & tr & Hrun & Hpath & Hfr & _).
    destruct Hfr as (_ & Htick & _).
    assert (Hsnap : In measurement_snapshot
                      (phy_is_cas_subframe (next_tti (tti st)) :: tr ++ telemetry_events st)
                    <-> wrap32 (tick st + 1) mod measurement_interval st = 0).
    { rewrite <- snapshot_in_telemetry. cbn [In]. rewrite in_app_iff.
      pose proof (subframe_path_no_snapshot _ _ _ _ _ _ Hpath) as Hno.
      split; [intros [H|[H|H]]; [discriminate H | contradiction | exact H]
             | intros H; right; right; exact H]. }
    do 3 eexists. split; [exact Hrun|]. split; [exact Htick|].
    rewrite Htick. split; [exact Hsnap|].
    intros Hmi H0 Hlt. rewrite wrap32_small by lia. split; [reflexivity|].
    rewrite Hsnap, Hmi, wrap32_small by lia. reflexivity.
  - intros cfg st0 Hcfg.
    destruct (start_counters_run cfg st0) as (st1 & Hrun & Htk & _ & _ & Hmi).
    exists st1. split; [exact Hrun|]. split; [|exact Htk].
    rewrite Hmi. destruct Hcfg as [-> | ->]; reflexivity.
Qed.

Lemma telemetry_cadence_witness :
  well_formed (camped_at processing 4999) 0 /\
  exists i' st' tr,
    processing_body sampling_freq_table (subframe false false 25) 0
      (camped_at processing 4999) = Ok i' st' tr /\
    tick st' = wrap32 (tick (camped_at processing 4999) + 1) /\
    (In measurement_snapshot tr <->
     tick st' mod measurement_interval (camped_at processing 4999) = 0) /\
    (measurement_interval (camped_at processing 4999) = 5000 ->
     0 <= tick (camped_at processing 4999) ->
     tick (camped_at processing 4999) + 1 < 2 ^ 32 ->
     tick st' = tick (camped_at processing 4999) + 1 /\
     (In measurement_snapshot tr <->
      (tick (camped_at processing 4999) + 1) mod 5000 = 0)).
Proof.
  assert (Hwf : well_formed (camped_at processing 4999) 0)
    by (unfold well_formed; cbn; repeat split; (lia || discriminate)).
  split; [exact Hwf|].
  exact (proj1 (telemetry_every_interval_until_wrap sampling_freq_table
                  (subframe false false 25) 0 (camped_at processing 4999) Hwf)).
Defined.

(** C9 as stated fails where the counter wraps: the iteration that wraps
    the tick from 2^32 - 1 to 0 takes a snapshot, 2296 iterations after the
    snapshot at tick 4294965000 and not 5000. *)
Lemma snapshot_at_tick_wraparound :
  (exists st' tr,
      processing_body sampling_freq_table (subframe true true 25) 0
        (camped_at processing 4294964999) = Ok 0 st' tr /\
      tick st' = 4294965000 /\ In measurement_snapshot tr) /\
  (exists st' tr,
      processing_body sampling_freq_table (subframe true true 25) 0
        (camped_at processing 4294967295) = Ok 0 st' tr /\
      tick st' = 0 /\ In measurement_snapshot tr) /\
  4294967295 + 1 - 4294965000 = 2296.
Proof.
  split; [|split].
  - do 2 eexists. split; [vm_compute; reflexivity|].
    split; [reflexivity | cbn; auto 10].
  - do 2 eexists. split; [vm_compute; reflexivity|].
    split; [reflexivity | cbn; auto 10].
  - reflexivity.
Qed.

(** C2, as the code has it: on a CAS subframe the width reported by the PHY
    is compared with the tracked one exactly when no restart is pending and
    the frame was retrieved, and a decode task has then been submitted for
    that subframe.  When the retrieval fails or a restart is pending the
    comparison is not made and the recovery runs instead: the tracked width
    is unchanged, the calls of the iteration are the reading of the flag,
    the retrieval when no restart is pending, and the recovery calls of the
    CAS branch, and the iteration ends in searching at the search sample
    rate. *)
Theorem width_compared_only_after_frame_retrieved srate a i st :
  well_formed st i ->
  a_is_cas_subframe a = true ->
  exists i' st' tr,
    processing_body srate a i st = Ok i' st' tr /\
    (In phy_nof_mbsfn_prb tr <-> restart st = false /\ a_get_next_frame a = true) /\
    (In phy_nof_mbsfn_prb tr -> In (pool_push cas_processor (next_tti (tti st))) tr) /\
    (restart st = true \/ a_get_next_frame a = false ->
     mbsfn_nof_prb st' = mbsfn_nof_prb st /\
     state st' = searching /\
     sample_rate st' = search_sample_rate st /\
     tr = phy_is_cas_subframe (next_tti (tti st)) :: read_restart (restart st) ::
          (if restart st then [] else [phy_get_next_frame cas_processor]) ++
          recovery_cas_order st ++ telemetry_events st).
Proof.
  intros Hwf Hcas.
  destruct (processing_body_cases srate a i st Hwf)
    as (i' & st1 & tr & Hrun & Hpath & _ & _).
  do 3 eexists. split; [exact Hrun|].
  assert (Htel : ~ In phy_nof_mbsfn_prb (telemetry_events st))
    by (intros H; destruct (telemetry_events_only _ _ H); discriminate).
  inversion Hpath; subst; try congruence;
    unfold recovery_cas_order, extension_calls;
    cbn [In app]; rewrite ?in_app_iff; cbn [In].
  - (* a restart is pending *)
    split; [|split]; [split| |].
    + intros Hin. exfalso. intuition (try discriminate; auto).
    + intros [Hr' _]. congruence.
    + intros Hin. exfalso. intuition (try discriminate; auto).
    + intros _.
      match goal with Hr : restart st = _ |- _ => rewrite Hr end.
      repeat split.
  - (* the frame is lost *)
    split; [|split]; [split| |].
    + intros Hin. exfalso. intuition (try discriminate; auto).
    + intros [_ Hf']. congruence.
    + intros Hin. exfalso. intuition (try discriminate; auto).
    + intros _.
      match goal with Hr : restart st = _ |- _ => rewrite Hr end.
      repeat split.
  - (* a frame, the same width *)
    split; [|split]; [split| |]; try (intros [Hr' | Hf']; congruence);
      intros _; auto 10.
  - (* a frame, another width *)
    split; [|split]; [split| |]; try (intros [Hr' | Hf']; congruence);
      intros _; auto 10.
Qed.

Lemma width_compared_witness :
  well_formed camped 0 /\ a_is_cas_subframe (subframe true false 40) = true /\
  exists i' st' tr,
    processing_body sampling_freq_table (subframe true false 40) 0 camped
    = Ok i' st' tr /\
    (In phy_nof_mbsfn_prb tr <->
     restart camped = false /\ a_get_next_frame (subframe true false 40) = true) /\
    (In phy_nof_mbsfn_prb tr ->
     In (pool_push cas_processor (next_tti (tti camped))) tr) /\
    (restart camped = true \/ a_get_next_frame (subframe true false 40) = false ->
     mbsfn_nof_prb st' = mbsfn_nof_prb camped /\
     state st' = searching /\
     sample_rate st' = search_sample_rate camped /\
     tr = phy_is_cas_subframe (next_tti (tti camped)) ::
          read_restart (restart camped) ::
          (if restart camped then [] else [phy_get_next_frame cas_processor]) ++
          recovery_cas_order camped ++ telemetry_events camped).
Proof.
  assert (Hwf : well_formed camped 0)
    by (unfold well_formed; cbn; repeat split; (lia || discriminate)).
  split; [exact Hwf|]. split; [reflexivity|].
  exact (width_compared_only_after_frame_retrieved sampling_freq_table
           (subframe true false 40) 0 camped Hwf eq_refl).
Defined.

(** C2 as stated fails: a CAS subframe whose frame is lost while the PHY
    reports a width (40 PRB) other than the tracked one (25 PRB) ends
    without the PHY having been asked for its width; the tracked width
    stays and the loop goes back to searching. *)
Lemma width_not_compared_when_frame_lost :
  a_is_cas_subframe (subframe true false 40) = true /\
  a_nof_mbsfn_prb (subframe true false 40) = 40 /\
  mbsfn_nof_prb camped = 25 /\
  processing_body sampling_freq_table (subframe true false 40) 0 camped
  = Ok 0 (set_tick 1 (recovered (set_tti 1 camped)))
      [phy_is_cas_subframe 1; read_restart false;
       phy_get_next_frame cas_processor; sdr_stop;
       sdr_tune 667000000 7680000 6000000 (gain camped) "LNAW" false;
       sdr_start; rrc_reset; phy_reset; sleep 1] /\
  mbsfn_nof_prb (set_tick 1 (recovered (set_tti 1 camped))) = 25 /\
  state (set_tick 1 (recovered (set_tti 1 camped))) = searching.
Proof. repeat split; vm_compute; reflexivity. Qed.

(** What the two copies of the recovery share: whenever a frame cannot be
    retrieved, on a CAS or on an MBSFN subframe, the iteration stops the
    radio, sets the sample rate back to the search sample rate, retunes and
    restarts the radio, makes the three calls that reset the RRC, reset the
    PHY and wait one second, and ends in searching.  The order of these
    three calls is that of C3 in the CAS copy only. *)
Theorem frame_failure_recovers_to_searching srate a i st :
  well_formed st i ->
  restart st = false ->
  a_get_next_frame a = false ->
  exists i' st' attempt,
    processing_body srate a i st
    = Ok i' st'
        (attempt ++
         [phy_get_next_frame
            (if a_is_cas_subframe a then cas_processor else mbsfn_processor i)] ++
         (if a_is_cas_subframe a then recovery_cas_order st
          else recovery_mbsfn_order st) ++
         telemetry_events st) /\
    state st' = searching /\
    sample_rate st' = search_sample_rate st /\
    search_sample_rate st' = search_sample_rate st /\
    firstn 3 (recovery_cas_order st) = firstn 3 (recovery_mbsfn_order st) /\
    skipn 3 (recovery_cas_order st) = [rrc_reset; phy_reset; sleep 1] /\
    skipn 3 (recovery_mbsfn_order st) = [sleep 1; rrc_reset; phy_reset] /\
    Permutation (recovery_cas_order st) (recovery_mbsfn_order st).
Proof.
  intros Hwf Hr Hf.
  destruct (processing_body_cases srate a i st Hwf)
    as (i' & st1 & tr & Hrun & Hpath & _ & _).
  assert (Hperm : Permutation (recovery_cas_order st) (recovery_mbsfn_order st)).
  { unfold recovery_cas_order, recovery_mbsfn_order.
    do 3 apply perm_skip. apply Permutation_sym.
    apply (Permutation_cons_append [rrc_reset; phy_reset] (sleep 1)). }
  inversion Hpath; subst; try congruence.
  - exists i', (set_tick (wrap32 (tick st + 1)) (recovered (set_tti (next_tti (tti st)) st))),
      [phy_is_cas_subframe (next_tti (tti st)); read_restart false].
    rewrite Hrun. match goal with H : a_is_cas_subframe a = true |- _ => rewrite H end.
    repeat split; try reflexivity. exact Hperm.
  - exists i', (set_tick (wrap32 (tick st + 1)) (recovered (set_tti (next_tti (tti st)) st))),
      [phy_is_cas_subframe (next_tti (tti st));
       log_sending_to_mbsfn_proc (next_tti (tti st)) i; read_restart false;
       mbsfn_get_rx_buffer_and_lock i].
    rewrite Hrun. match goal with H : a_is_cas_subframe a = false |- _ => rewrite H end.
    repeat split; try reflexivity. exact Hperm.
Qed.

Lemma frame_failure_witness :
  well_formed camped 1 /\ restart camped = false /\
  a_get_next_frame (subframe false false 25) = false /\
  exists i' st' attempt,
    processing_body sampling_freq_table (subframe false false 25) 1 camped
    = Ok i' st'
        (attempt ++ [phy_get_next_frame (mbsfn_processor 1)] ++
         recovery_mbsfn_order camped ++ telemetry_events camped) /\
    state st' = searching /\
    sample_rate st' = search_sample_rate camped.
Proof.
  assert (Hwf : well_formed camped 1)
    by (unfold well_formed; cbn; repeat split; (lia || discriminate)).
  split; [exact Hwf|]. split; [reflexivity|]. split; [reflexivity|].
  destruct (frame_failure_recovers_to_searching sampling_freq_table
              (subframe false false 25) 1 camped Hwf eq_refl eq_refl)
    as (i' & st' & attempt & Hrun & Hs & Hsr & _).
  exists i', st', attempt. split; [exact Hrun|]. split; [exact Hs | exact Hsr].
Defined.

(** C3, where the code departs from it: after a lost frame on an MBSFN
    subframe the loop goes to searching and waits its second before it
    resets the RRC and the PHY (main.cpp:652-660), where the recovery of C3
    and its copy for a lost frame on a CAS subframe (main.cpp:610-618)
    reset them first, then wait. *)
Lemma recovery_order_differs_between_branches :
  processing_body sampling_freq_table (subframe false false 25) 0 camped
  = Ok 1 (set_tick 1 (recovered (set_tti 1 camped)))
      [phy_is_cas_subframe 1; log_sending_to_mbsfn_proc 1 0; read_restart false;
       mbsfn_get_rx_buffer_and_lock 0; phy_get_next_frame (mbsfn_processor 0);
       sdr_stop;
       sdr_tune 667000000 7680000 6000000 (gain camped) "LNAW" false;
       sdr_start; sleep 1; rrc_reset; phy_reset] /\
  processing_body sampling_freq_table (subframe true false 25) 0 camped
  = Ok 0 (set_tick 1 (recovered (set_tti 1 camped)))
      [phy_is_cas_subframe 1; read_restart false;
       phy_get_next_frame cas_processor;
       sdr_stop;
       sdr_tune 667000000 7680000 6000000 (gain camped) "LNAW" false;
       sdr_start; rrc_reset; phy_reset; sleep 1] /\
  recovery_mbsfn_order camped <> recovery_cas_order camped.
Proof.
  split; [vm_compute; reflexivity|]. split; [vm_compute; reflexivity|].
  unfold recovery_mbsfn_order, recovery_cas_order. intros H. discriminate H.
Qed.

(** [(w * 200000) * 1.2] is exact on every width a [uint8_t] bandwidth
    option times five can give, which includes the LTE range of up to 110
    PRB. *)
Lemma bandwidth_exact_1276 : bandwidth_exact_upto 1276 = true.
Proof. vm_compute. reflexivity. Qed.

Lemma filter_bandwidth_exact w :
  0 <= w <= 1275 -> filter_bandwidth w = w * 200000 + w * 200000 / 5.
Proof.
  intros Hw. pose proof bandwidth_exact_1276 as H.
  unfold bandwidth_exact_upto in H. rewrite forallb_forall in H.
  specialize (H (Z.to_nat w)). rewrite Z2Nat.id in H by lia.
  apply Z.eqb_eq, H, in_seq. lia.
Qed.

(** The PHY is asked for the MBSFN width only on a CAS subframe whose
    frame was retrieved with no restart pending. *)
Lemma width_asked_after_frame srate a i st st1 tr :
  subframe_path srate a i st st1 tr ->
  In phy_nof_mbsfn_prb
     (phy_is_cas_subframe (next_tti (tti st)) :: tr ++ telemetry_events st) ->
  a_is_cas_subframe a = true /\ restart st = false /\ a_get_next_frame a = true.
Proof.
  intros Hpath Hin.
  assert (Htel : ~ In phy_nof_mbsfn_prb (telemetry_events st))
    by (intros H; destruct (telemetry_events_only _ _ H); discriminate).
  cbn [In] in Hin. rewrite in_app_iff in Hin.
  destruct Hin as [Hin | [Hin | Hin]]; [discriminate Hin | | contradiction].
  inversion Hpath; subst; auto; exfalso; revert Hin;
    unfold recovery_cas_order, recovery_mbsfn_order, decode_calls;
    cbn [In]; try (intuition discriminate).
  destruct (a_mcch_configured a); [|cbn [In]; intuition discriminate].
  destruct (a_is_mbsfn_subframe a); [|cbn [In]; intuition discriminate].
  destruct (a_mbsfn_configured a); cbn [In app]; intuition discriminate.
Qed.

(** C4: when the PHY, asked for the MBSFN width during an iteration of the
    processing loop, reports another width than the tracked one, the
    iteration runs one reconfiguration: it stops the radio, takes the
    sample rate of the new width and the filter bandwidth
    [(width * 200000) * 1.2] (the nominal width plus a fifth), retunes
    once, sets the cell in the PHY and in the CAS processor, restarts the
    radio and ends in syncing, neither in searching nor in processing, with
    the new width tracked. *)
Theorem prb_extension_retunes_and_resyncs srate a i st i' st' tr :
  well_formed st i ->
  processing_body srate a i st = Ok i' st' tr ->
  In phy_nof_mbsfn_prb tr ->
  a_nof_mbsfn_prb a <> mbsfn_nof_prb st ->
  tr = [phy_is_cas_subframe (next_tti (tti st)); read_restart false;
        phy_get_next_frame cas_processor;
        pool_push cas_processor (next_tti (tti st));
        phy_nof_mbsfn_prb; phy_nof_mbsfn_prb;
        sdr_stop;
        sdr_tune (frequency st)
                 (wrap32 (srate (a_nof_mbsfn_prb_again a)))
                 (filter_bandwidth (a_nof_mbsfn_prb_again a))
                 (gain st) (antenna st) (use_agc st);
        phy_set_cell; phy_cell; cas_set_cell (a_cell a);
        sdr_start] ++ telemetry_events st /\
  i' = i /\
  state st' = syncing /\
  mbsfn_nof_prb st' = a_nof_mbsfn_prb_again a /\
  bandwidth st' = filter_bandwidth (a_nof_mbsfn_prb_again a) /\
  (0 <= a_nof_mbsfn_prb_again a <= 1275 ->
   bandwidth st' = a_nof_mbsfn_prb_again a * 200000
                   + a_nof_mbsfn_prb_again a * 200000 / 5) /\
  sample_rate st' = sample_rate st /\
  frequency st' = frequency st.
Proof.
  intros Hwf Hbody Hin Hw.
  destruct (processing_body_cases srate a i st Hwf)
    as (i1 & st1 & tr1 & Hrun & Hpath & Hfr & _).
  rewrite Hrun in Hbody. inversion Hbody; subst i' st' tr. clear Hbody.
  destruct (width_asked_after_frame _ _ _ _ _ _ Hpath Hin) as (Hcas & Hr & Hf).
  destruct Hfr as (_ & _ & _ & _ & _ & _ & _ & Hi'). rewrite Hcas in Hi'. subst i1.
  inversion Hpath; subst; try congruence.
  cbn. repeat split; try reflexivity.
  intros Hrange. apply filter_bandwidth_exact. exact Hrange.
Qed.

Lemma prb_extension_witness :
  well_formed camped 0 /\
  processing_body sampling_freq_table (subframe true true 40) 0 camped
  = Ok 0 (set_tick 1 (extended (subframe true true 40) (set_tti 1 camped)))
      [phy_is_cas_subframe 1; read_restart false;
       phy_get_next_frame cas_processor; pool_push cas_processor 1;
       phy_nof_mbsfn_prb; phy_nof_mbsfn_prb; sdr_stop;
       sdr_tune 667000000 15360000 9600000 (gain camped) "LNAW" false;
       phy_set_cell; phy_cell; cas_set_cell (mk_cell 25 40); sdr_start] /\
  a_nof_mbsfn_prb (subframe true true 40) <> mbsfn_nof_prb camped /\
  state (set_tick 1 (extended (subframe true true 40) (set_tti 1 camped))) = syncing /\
  mbsfn_nof_prb (set_tick 1 (extended (subframe true true 40) (set_tti 1 camped))) = 40 /\
  bandwidth (set_tick 1 (extended (subframe true true 40) (set_tti 1 camped)))
  = 40 * 200000 + 40 * 200000 / 5.
Proof.
  assert (Hwf : well_formed camped 0)
    by (unfold well_formed; cbn; repeat split; (lia || discriminate)).
  assert (Hrun : processing_body sampling_freq_table (subframe true true 40) 0 camped
                 = Ok 0 (set_tick 1 (extended (subframe true true 40) (set_tti 1 camped)))
                     [phy_is_cas_subframe 1; read_restart false;
                      phy_get_next_frame cas_processor; pool_push cas_processor 1;
                      phy_nof_mbsfn_prb; phy_nof_mbsfn_prb; sdr_stop;
                      sdr_tune 667000000 15360000 9600000 (gain camped) "LNAW" false;
                      phy_set_cell; phy_cell; cas_set_cell (mk_cell 25 40); sdr_start])
    by (vm_compute; reflexivity).
  assert (Hw : a_nof_mbsfn_prb (subframe true true 40) <> mbsfn_nof_prb camped)
    by (cbn; discriminate).
  destruct (prb_extension_retunes_and_resyncs sampling_freq_table
              (subframe true true 40) 0 camped _ _ _ Hwf Hrun
              ltac:(cbn; auto 10) Hw)
    as (_ & _ & Hs & Hprb & _ & Hbw & _).
  split; [exact Hwf|]. split; [exact Hrun|]. split; [exact Hw|].
  split; [exact Hs|]. split; [exact Hprb|].
  apply Hbw. cbn. lia.
Defined.

(** ** The dispatch cursor *)

Lemma assigned_workers_app tr1 tr2 :
  assigned_workers (tr1 ++ tr2) = assigned_workers tr1 ++ assigned_workers tr2.
Proof.
  induction tr1 as [|e tr1 IH]; [reflexivity|].
  destruct e; cbn [assigned_workers app]; rewrite IH; reflexivity.
Qed.

Lemma assigned_workers_telemetry st : assigned_workers (telemetry_events st) = [].
Proof.
  unfold telemetry_events.
  destruct (wrap32 (tick st + 1) mod measurement_interval st =? 0); [|reflexivity].
  destruct (enable_measurement_file st); reflexivity.
Qed.

Lemma assigned_workers_decode a t i : assigned_workers (decode_calls a t i) = [].
Proof.
  unfold decode_calls.
  destruct (a_mcch_configured a); [|reflexivity].
  destruct (a_is_mbsfn_subframe a); [|reflexivity].
  destruct (a_mbsfn_configured a); reflexivity.
Qed.

Lemma workers_of_iteration (f : event -> list Z) t tr st :
  f (phy_is_cas_subframe t) = [] ->
  f measurement_snapshot = [] -> f measurement_file_WriteLogValues = [] ->
  flat_map f (phy_is_cas_subframe t :: tr ++ telemetry_events st) = flat_map f tr.
Proof.
  intros Ht Hs Hw. cbn [flat_map]. rewrite Ht, flat_map_app. cbn [app].
  unfold telemetry_events.
  destruct (wrap32 (tick st + 1) mod measurement_interval st =? 0);
    [destruct (enable_measurement_file st)|];
    cbn [flat_map]; rewrite ?Hs, ?Hw; cbn [app]; apply app_nil_r.
Qed.

Lemma workers_of_decode a t i :
  locked_workers (decode_calls a t i) = [] /\
  frame_workers (decode_calls a t i) = [] /\
  handed_workers (decode_calls a t i) = [i].
Proof.
  unfold decode_calls.
  destruct (a_mcch_configured a); [|repeat split].
  destruct (a_is_mbsfn_subframe a); [|repeat split].
  destruct (a_mbsfn_configured a); repeat split.
Qed.

(** An iteration on a broadcast subframe at cursor [c]: worker [c] is
    named, and with no restart pending it is the buffer of worker [c] that
    is locked and offered to the frame, and handed on when the frame came;
    the cursor moves on by one, whatever the subframe brings. *)
Lemma mbsfn_iteration srate a c st :
  well_formed st c ->
  a_is_cas_subframe a = false ->
  exists st' tr,
    processing_body srate a c st = Ok ((c + 1) mod thread_cnt st) st' tr /\
    assigned_workers tr = [c] /\
    locked_workers tr = (if restart st then [] else [c]) /\
    frame_workers tr = (if restart st then [] else [c]) /\
    handed_workers tr
    = (if negb (restart st) && a_get_next_frame a then [c] else []) /\
    names_only c tr /\
    thread_cnt st' = thread_cnt st /\
    restart st' = restart st /\
    well_formed st' ((c + 1) mod thread_cnt st) /\
    state st'
    = (if negb (restart st) && a_get_next_frame a then state st else searching).
Proof.
  intros Hwf Hcas.
  destruct (processing_body_cases srate a c st Hwf)
    as (i' & st1 & tr & Hrun & Hpath & Hfr & Hwf').
  destruct Hfr as (_ & _ & Hcnt & _ & _ & Hre & _ & Hi').
  rewrite Hcas in Hi'. subst i'.
  do 2 eexists. split; [exact Hrun|].
  unfold locked_workers, frame_workers, handed_workers.
  rewrite !workers_of_iteration by reflexivity.
  fold (locked_workers tr). fold (frame_workers tr). fold (handed_workers tr).
  destruct (workers_of_decode a (next_tti (tti st)) c) as (Hdl & Hdf & Hdh).
  split; [|split; [|split; [|split; [|split; [|split; [exact Hcnt|split;
    [exact Hre|split; [exact Hwf'|]]]]]]]].
  - cbn [assigned_workers]. rewrite assigned_workers_app, assigned_workers_telemetry.
    inversion Hpath; subst; try congruence; cbn [assigned_workers]; try reflexivity.
    rewrite assigned_workers_decode. reflexivity.
  - inversion Hpath; subst; try congruence;
      match goal with H : restart st = _ |- _ => rewrite H end; try reflexivity.
    change (locked_workers (decode_calls a (next_tti (tti st)) c) = []) in Hdl.
    unfold locked_workers in *. cbn [flat_map app]. rewrite Hdl. reflexivity.
  - inversion Hpath; subst; try congruence;
      match goal with H : restart st = _ |- _ => rewrite H end; try reflexivity.
    unfold frame_workers in *. cbn [flat_map app]. rewrite Hdf. reflexivity.
  - inversion Hpath; subst; try congruence;
      repeat match goal with
             | H : restart st = _ |- _ => rewrite H
             | H : a_get_next_frame a = _ |- _ => rewrite H
             end; try reflexivity.
    unfold handed_workers in *. cbn [flat_map app negb andb]. exact Hdh.
  - unfold names_only. apply Forall_cons; [left; reflexivity|].
    apply Forall_app. split.
    + inversion Hpath; subst; try congruence;
        unfold recovery_mbsfn_order, decode_calls;
        try (destruct (a_mcch_configured a);
             [destruct (a_is_mbsfn_subframe a); [destruct (a_mbsfn_configured a)|]|]);
        cbn [app]; repeat (apply Forall_cons; [cbn; auto|]); constructor.
    + apply Forall_forall. intros e He.
      destruct (telemetry_events_only _ _ He); subst; left; reflexivity.
  - inversion Hpath; subst; try congruence;
      repeat match goal with
             | H : restart st = _ |- _ => rewrite H
             | H : a_get_next_frame a = _ |- _ => rewrite H
             end; reflexivity.
Qed.

Lemma processing_while_left srate subframes c st :
  state st <> processing ->
  processing_while srate subframes c st = Ok c st [].
Proof.
  intros Hs. destruct subframes as [|a rest]; [reflexivity|].
  cbn [processing_while]. cbv [bind get].
  destruct (state st); try reflexivity. contradiction.
Qed.

Lemma round_robin_shift c n m :
  0 < n ->
  map (fun j => ((c + 1) mod n + Z.of_nat j) mod n) (seq 0 m)
  = map (fun j => (c + Z.of_nat j) mod n) (seq 1 m).
Proof.
  intros Hn. rewrite <- seq_shift, map_map. apply map_ext. intros j.
  rewrite Zplus_mod_idemp_l. f_equal. lia.
Qed.

Lemma round_robin_S c n k :
  0 <= c < n ->
  round_robin c n (S k) = c :: round_robin ((c + 1) mod n) n k.
Proof.
  intros Hc. unfold round_robin. cbn [seq map].
  rewrite Z.add_0_r, Z.mod_small by lia. f_equal.
  symmetry. apply round_robin_shift. lia.
Qed.

(** C6, as the code has it: over the consecutive broadcast subframes of one
    stay in the processing loop that starts with the cursor at [c], the
    workers named are [c, (c+1) mod N, (c+2) mod N, ...], one per subframe
    handled, and the cursor ends one past the last; with no restart pending
    these are the workers whose buffer is locked and offered to the frame,
    and each frame that came is handed to the pool or unlocked on the same
    worker, whether the schedule is known or a decode is submitted; no
    call of the j-th iteration is about another worker than the j-th.  A
    lost frame or a pending restart ends the stay with that subframe (with
    a restart pending nothing is locked), so every subframe given is
    handled when all but the last deliver their frame.  A stay that begins
    at the head of the run loop begins with worker 0. *)
Theorem dispatch_cursor_round_robin srate subframes c st :
  well_formed st c ->
  state st = processing ->
  Forall (fun a => a_is_cas_subframe a = false) subframes ->
  (exists c' st' tr k,
      processing_while srate subframes c st = Ok c' st' tr /\
      (k <= List.length subframes)%nat /\
      assigned_workers tr = round_robin c (thread_cnt st) k /\
      c' = (c + Z.of_nat k) mod thread_cnt st /\
      (restart st = false ->
       locked_workers tr = round_robin c (thread_cnt st) k /\
       frame_workers tr = round_robin c (thread_cnt st) k /\
       exists h,
         handed_workers tr = round_robin c (thread_cnt st) h /\
         k = match state st' with processing => h | _ => S h end) /\
      (restart st = true ->
       locked_workers tr = [] /\ frame_workers tr = [] /\ (k <= 1)%nat) /\
      (exists iterations,
          tr = List.concat iterations /\
          Forall2 names_only (round_robin c (thread_cnt st) k) iterations) /\
      (restart st = false ->
       Forall (fun a => a_get_next_frame a = true) (removelast subframes) ->
       k = List.length subframes)) /\
  (forall a st0,
      loop_invariant st0 loop_head -> state st0 = processing ->
      a_is_cas_subframe a = false ->
      exists st1 tr1,
        run_pass srate a loop_head st0
        = Ok (in_processing (1 mod thread_cnt st0)) st1 tr1 /\
        assigned_workers tr1 = [0] /\
        (restart st0 = false -> locked_workers tr1 = [0])).
Proof.
  intros Hwf Hs Hall. split.
  - revert c st Hwf Hs.
    induction Hall as [|a rest Hcas Hrest IH]; intros c st Hwf Hs.
    + exists c, st, [], 0%nat. cbn. destruct Hwf as (Hc & _).
      rewrite Z.add_0_r, Z.mod_small by lia. rewrite Hs.
      repeat split; auto.
      * exists 0%nat. split; reflexivity.
      * exists []. split; [reflexivity | constructor].
    + destruct (mbsfn_iteration srate a c st Hwf Hcas)
        as (st1 & tr1 & Hrun & Hw1 & Hl1 & Hf1 & Hh1 & Hno1 & Hcnt & Hre & Hwf1 & Hs1).
      pose proof Hwf as (Hc & _).
      assert (Hstep : processing_while srate (a :: rest) c st
                      = bind (processing_body srate a c)
                          (fun i => processing_while srate rest i) st).
      { cbn [processing_while]. unfold bind at 1. unfold get. rewrite Hs. cbn.
        unfold bind. destruct (processing_body srate a c st) as [i1 m1 t1|]; [|reflexivity].
        destruct (processing_while srate rest i1 m1); reflexivity. }
      destruct (negb (restart st) && a_get_next_frame a) eqn:Hgot.
      * (* the frame was delivered: the loop goes on *)
        apply andb_prop in Hgot. destruct Hgot as [Hr Hf].
        apply negb_true_iff in Hr.
        rewrite Hs in Hs1. rewrite Hr in Hl1, Hf1.
        destruct (IH _ _ Hwf1 Hs1)
          as (c' & st' & tr2 & k & Hrun2 & Hle & Hw2 & Hc' & Hlock & _ & Hseg & Hfull).
        rewrite Hcnt in Hw2, Hc', Hlock, Hseg. rewrite Hre in Hlock, Hfull.
        destruct Hseg as (segs & Htr2 & Hnames).
        destruct (Hlock Hr) as (Hl2 & Hf2 & h & Hh2 & Hk).
        exists c', st', (tr1 ++ tr2), (S k). rewrite Hstep.
        split; [exact (bind_Ok _ _ _ _ _ _ _ _ _ Hrun Hrun2)|].
        split; [cbn [List.length]; lia|].
        rewrite (round_robin_S c _ k Hc).
        split; [rewrite assigned_workers_app, Hw1, Hw2; reflexivity|].
        split; [rewrite Hc', Zplus_mod_idemp_l; f_equal; lia|].
        split; [|split; [|split]].
        -- intros _. unfold locked_workers, frame_workers, handed_workers in *.
           rewrite !flat_map_app, Hl1, Hf1, Hh1, Hl2, Hf2, Hh2.
           split; [reflexivity|]. split; [reflexivity|].
           exists (S h). rewrite (round_robin_S c _ h Hc).
           split; [reflexivity|]. rewrite Hk. destruct (state st'); reflexivity.
        -- intros Hr'. congruence.
        -- exists (tr1 :: segs). split; [cbn [List.concat]; rewrite Htr2; reflexivity|].
           constructor; [exact Hno1 | exact Hnames].
        -- intros _ Hfr. cbn [List.length]. f_equal. apply (Hfull Hr).
           destruct rest as [|b rest']; [constructor|].
           cbn [removelast] in Hfr. inversion Hfr; assumption.
      * (* the loop is left *)
        assert (Hleft : processing_while srate rest ((c + 1) mod thread_cnt st) st1
                        = Ok ((c + 1) mod thread_cnt st) st1 [])
          by (apply processing_while_left; congruence).
        exists ((c + 1) mod thread_cnt st), st1, (tr1 ++ []), 1%nat. rewrite Hstep.
        split; [exact (bind_Ok _ _ _ _ _ _ _ _ _ Hrun Hleft)|].
        rewrite app_nil_r. split; [cbn [List.length]; lia|].
        assert (Hone : round_robin c (thread_cnt st) 1 = [c]).
        { unfold round_robin. cbn [seq map].
          rewrite Z.add_0_r, Z.mod_small by lia. reflexivity. }
        rewrite Hone. split; [exact Hw1|]. split; [reflexivity|].
        split; [|split; [|split]].
        -- intros Hr. rewrite Hr in Hl1, Hf1.
           split; [exact Hl1|]. split; [exact Hf1|].
           exists 0%nat. split; [exact Hh1|]. rewrite Hs1. reflexivity.
        -- intros Hr. rewrite Hr in Hl1, Hf1. repeat split; auto.
        -- exists [tr1]. split; [cbn [List.concat]; rewrite app_nil_r; reflexivity|].
           repeat constructor. exact Hno1.
        -- intros Hr Hfr. destruct rest as [|b rest']; [reflexivity|].
           cbn [removelast] in Hfr. inversion Hfr as [|x l Hx Hl]; subst.
           rewrite Hr, Hx in Hgot. discriminate Hgot.
  - intros a st0 (Hn & Hmi & _) Hs0 Hcas0.
    assert (Hwf0 : well_formed st0 0)
      by (unfold well_formed; repeat split; try lia; exact Hmi).
    destruct (mbsfn_iteration srate a 0 st0 Hwf0 Hcas0)
      as (st1 & tr1 & Hrun & Hw1 & Hl1 & _).
    exists st1, tr1. split; [|split; [exact Hw1|]].
    + unfold run_pass. unfold bind at 1. unfold get. rewrite Hs0.
      rewrite (bind_Ok _ (fun i => ret (in_processing i)) _ _ _ _ _ _ _ Hrun eq_refl).
      rewrite app_nil_r. reflexivity.
    + intros Hr. rewrite Hr in Hl1. exact Hl1.
Qed.

Lemma dispatch_cursor_witness :
  well_formed camped 2 /\ state camped = processing /\
  Forall (fun a => a_is_cas_subframe a = false)
    [subframe false true 25; subframe false true 25; subframe false false 25] /\
  exists c' st' tr,
    processing_while sampling_freq_table
      [subframe false true 25; subframe false true 25; subframe false false 25]
      2 camped = Ok c' st' tr /\
    assigned_workers tr = round_robin 2 (thread_cnt camped) 3 /\
    locked_workers tr = round_robin 2 (thread_cnt camped) 3 /\
    c' = (2 + Z.of_nat 3) mod thread_cnt camped.
Proof.
  assert (Hwf : well_formed camped 2)
    by (unfold well_formed; cbn; repeat split; (lia || discriminate)).
  assert (Hall : Forall (fun a => a_is_cas_subframe a = false)
                   [subframe false true 25; subframe false true 25;
                    subframe false false 25])
    by (repeat constructor).
  split; [exact Hwf|]. split; [reflexivity|]. split; [exact Hall|].
  destruct (dispatch_cursor_round_robin sampling_freq_table _ 2 camped Hwf eq_refl Hall)
    as ((c' & st' & tr & k & Hrun & _ & Hw & Hc' & Hlock & _ & _ & Hfull) & _).
  assert (Hk : k = 3%nat) by (apply Hfull; [reflexivity | repeat constructor]).
  subst k. destruct (Hlock eq_refl) as (Hl & _).
  exists c', st', tr. split; [exact Hrun|]. split; [exact Hw|].
  split; [exact Hl | exact Hc'].
Defined.

(** C6 as stated fails when a frame is lost: the broadcast subframe at
    cursor 2 whose frame cannot be retrieved ends the stay in the
    processing loop, and once a cell is found and synchronised again the
    next two broadcast subframes go to workers 0 and 1, where the claim has
    3 and 0. *)
Lemma dispatch_restarts_at_zero_after_lost_frame :
  exists st' tr,
    run_loop sampling_freq_table
      [subframe false false 25; subframe true true 25; subframe true true 25;
       subframe false true 25; subframe false true 25] (in_processing 2) camped
    = Ok (in_processing 2) st' tr /\
    assigned_workers tr = [2; 0; 1] /\
    locked_workers tr = [2; 0; 1] /\
    frame_workers tr = [2; 0; 1] /\
    round_robin 2 (thread_cnt camped) 3 = [2; 3; 0].
Proof.
  do 2 eexists. split; [vm_compute; reflexivity|].
  repeat split; vm_compute; reflexivity.
Qed.

(** ** Searching and syncing *)

Lemma no_flag_read_app tr1 tr2 :
  no_flag_read tr1 -> no_flag_read tr2 -> no_flag_read (tr1 ++ tr2).
Proof. intros H1 H2. apply Forall_app. split; assumption. Qed.

Lemma no_flag_read_repeat e n :
  is_flag_read e = false -> no_flag_read (repeat e n).
Proof.
  intros He. induction n as [|n IH]; cbn [repeat]; constructor; assumption.
Qed.

Lemma no_flag_read_telemetry st : no_flag_read (telemetry_events st).
Proof.
  unfold telemetry_events, no_flag_read.
  destruct (wrap32 (tick st + 1) mod measurement_interval st =? 0); [|constructor].
  destruct (enable_measurement_file st); repeat constructor.
Qed.

Lemma searching_pass_run srate a st :
  exists st' tr,
    searching_pass srate a st = Ok tt st' (read_restart (restart st) :: tr) /\
    no_flag_read tr /\
    restart st' = false /\
    thread_cnt st' = thread_cnt st /\
    measurement_interval st' = measurement_interval st /\
    (state st' = state st \/ state st' = syncing).
Proof.
  unfold searching_pass.
  cbv [load_restart tune_at bind ret call get modify when stop
       set_sample_rate set_bandwidth set_mbsfn_nof_prb set_cas_nof_prb
       set_state set_restart].
  cbn [sample_rate search_sample_rate frequency bandwidth gain antenna use_agc
       mbsfn_nof_prb cas_nof_prb restart opts thread_cnt
       enable_measurement_file state tti measurement_interval tick app].
  destruct (restart st); destruct (a_cell_search a); cbn;
    try destruct (sample_file (opts st) && negb (file_bw (opts st) =? 0)); cbn;
    do 2 eexists; (split; [reflexivity|]);
    (split; [repeat constructor | repeat split; auto]).
Qed.

Lemma sync_while_locked fuel a calls max_frames st :
  sync_while fuel a calls true max_frames st = Ok (true, max_frames) st [].
Proof. destruct fuel; reflexivity. Qed.

(** The [while] of the syncing branch: at most [max_frames] calls, and it
    ends either locked with the counter not below zero, or unlocked with
    the counter wrapped to 2^32 - 1. *)
Lemma sync_while_run fuel a : forall calls max_frames st,
  0 <= max_frames < 2 ^ 32 ->
  max_frames < Z.of_nat fuel ->
  exists sfn_sync left n,
    sync_while fuel a calls false max_frames st
    = Ok (sfn_sync, left) st (repeat phy_synchronize_subframe n) /\
    Z.of_nat n <= max_frames /\
    ((sfn_sync = true /\ 0 <= left < max_frames) \/
     (sfn_sync = false /\ left = 2 ^ 32 - 1 /\ Z.of_nat n = max_frames /\
      forall k, (k < n)%nat -> a_synchronize_subframe a (calls + k) = false)).
Proof.
  induction fuel as [|fuel IH]; intros calls max_frames st Hmf Hfuel; [lia|].
  cbn [sync_while negb].
  destruct (Z.ltb_spec 0 max_frames) as [Hpos|Hzero].
  - cbv [bind call].
    destruct (a_synchronize_subframe a calls) eqn:Hans.
    + rewrite sync_while_locked. exists true, (wrap32 (max_frames - 1)), 1%nat.
      rewrite wrap32_small by lia. split; [reflexivity|]. split; [lia|]. left. lia.
    + destruct (IH (S calls) (wrap32 (max_frames - 1)) st) as (s & l & n & Hrun & Hn & Hend).
      * rewrite wrap32_small by lia. lia.
      * rewrite wrap32_small by lia. lia.
      * rewrite wrap32_small in Hn, Hend by lia.
        exists s, l, (S n). rewrite Hrun. split; [reflexivity|]. split; [lia|].
        destruct Hend as [(Hs & Hl) | (Hs & Hl & Hcount & Hall)].
        -- left. split; [exact Hs | lia].
        -- right. repeat split; try assumption; try lia.
           intros k Hk. destruct k as [|k].
           ++ rewrite Nat.add_0_r. exact Hans.
           ++ rewrite Nat.add_succ_r. apply (Hall k). lia.
  - assert (max_frames = 0) by lia. subst max_frames.
    exists false, (wrap32 (0 - 1)), 0%nat. split; [reflexivity|].
    split; [reflexivity|]. right. repeat split; try reflexivity.
    intros k Hk. lia.
Qed.

Lemma unlock_all_run n : forall i st,
  exists tr, unlock_all n i st = Ok tt st tr /\ no_flag_read tr.
Proof.
  induction n as [|n IH]; intros i st.
  - exists []. split; [reflexivity | constructor].
  - destruct (IH (i + 1) st) as (tr & Hrun & Hq).
    exists (mbsfn_unlock i :: tr). cbn [unlock_all]. cbv [bind call].
    rewrite Hrun. split; [reflexivity|]. constructor; [reflexivity | exact Hq].
Qed.

(** A syncing pass calls the PHY at most 200 times and ends either where
    it began or in processing: it never sets the state to searching. *)
Lemma syncing_pass_run a st :
  exists st' tr n,
    syncing_pass a st = Ok tt st' (repeat phy_synchronize_subframe n ++ tr) /\
    (n <= 200)%nat /\
    no_flag_read tr /\
    restart st' = restart st /\
    thread_cnt st' = thread_cnt st /\
    measurement_interval st' = measurement_interval st /\
    ((st' = st /\ tr = [] /\ n = 200%nat /\
      forall k, (k < 200)%nat -> a_synchronize_subframe a k = false) \/
     state st' = processing).
Proof.
  unfold syncing_pass.
  destruct (sync_while_run 201 a 0 200 st ltac:(lia) ltac:(lia))
    as (s & l & n & Hrun & Hn & Hend).
  destruct (unlock_all_run (Z.to_nat (thread_cnt st)) 0 st) as (tru & Hunlock & Hq).
  destruct Hend as [(Hs & Hl) | (Hs & Hl & Hcount & Hall)]; subst s.
  - exists (set_state processing (set_tti (a_tti a) st)),
      ([phy_tti; phy_cell; cas_set_cell (a_cell a)] ++ tru ++
       [phy_tti; rrc_reset; sdr_enableSampleFileWriting]), n.
    split; [|split; [lia|split; [|cbn; auto]]].
    + unfold bind at 1. rewrite Hrun.
      assert (Hz : (l =? 0) && negb true = false) by apply andb_false_r.
      rewrite Hz. cbv [when bind ret call get modify]. cbn [thread_cnt].
      rewrite Hunlock. cbn [app]. reflexivity.
    + repeat (apply no_flag_read_app || constructor || assumption).
  - exists st, [], n.
    split; [|split; [lia|split; [constructor|cbn]]].
    + unfold bind at 1. rewrite Hrun. subst l.
      assert (Hz : (2 ^ 32 - 1 =? 0) && negb false = false) by reflexivity.
      rewrite Hz. cbv [when bind ret]. cbn [app]. rewrite ?app_nil_r. reflexivity.
    + repeat split; try reflexivity. left.
      assert (n = 200%nat) by lia. subst n. repeat split. exact Hall.
Qed.

(** C8: the control loop reads the restart flag, which [set_params]
    raises, at two places only.  A searching pass reads it once, first
    thing, and lowers it; a syncing pass does not read it and leaves it as
    it is; an iteration of the processing loop reads it once, after the TTI
    was advanced and the subframe classified and before any buffer is
    locked, any frame retrieved or any decode submitted, and not again in
    that iteration. *)
Theorem restart_flag_read_only_at_checkpoints srate a :
  (forall st, exists st' tr,
      searching_pass srate a st = Ok tt st' (read_restart (restart st) :: tr) /\
      no_flag_read tr /\ restart st' = false) /\
  (forall st, exists st' tr,
      syncing_pass a st = Ok tt st' tr /\
      no_flag_read tr /\ restart st' = restart st) /\
  (forall i st, well_formed st i ->
      exists i' st' pre post,
        processing_body srate a i st
        = Ok i' st' (pre ++ read_restart (restart st) :: post) /\
        before_any_frame pre /\ no_flag_read post /\
        restart st' = restart st) /\
  (forall ant fc g sr bw st, exists st',
      set_params ant fc g sr bw st = Ok tt st' [] /\ restart st' = true).
Proof.
  split; [|split; [|split]].
  - intros st. destruct (searching_pass_run srate a st) as (st' & tr & Hrun & Hq & Hr & _).
    exists st', tr. auto.
  - intros st.
    destruct (syncing_pass_run a st) as (st' & tr & n & Hrun & _ & Hq & Hr & _).
    exists st', (repeat phy_synchronize_subframe n ++ tr).
    split; [exact Hrun|]. split; [|exact Hr].
    apply no_flag_read_app; [apply no_flag_read_repeat; reflexivity | exact Hq].
  - intros i st Hwf.
    destruct (processing_body_cases srate a i st Hwf)
      as (i' & st1 & tr & Hrun & Hpath & Hfr & _).
    destruct Hfr as (_ & _ & _ & _ & _ & Hre & _).
    pose proof (no_flag_read_telemetry st) as Htel.
    inversion Hpath; subst;
      match goal with H : restart st = _ |- _ => rename H into Hr end.
    1-4: exists i'; eexists; exists [phy_is_cas_subframe (next_tti (tti st))].
    5-7: exists i'; eexists;
           exists [phy_is_cas_subframe (next_tti (tti st));
                   log_sending_to_mbsfn_proc (next_tti (tti st)) i].
    all: eexists; rewrite Hrun, Hr.
    all: split; [cbn [app]; reflexivity|].
    all: split; [repeat constructor|].
    all: split; [|cbn; congruence].
    all: unfold recovery_cas_order, recovery_mbsfn_order, extension_calls;
      cbn [app];
      repeat (apply Forall_cons; [reflexivity|]);
      try exact Htel.
    destruct (a_mcch_configured a);
      [destruct (a_is_mbsfn_subframe a); [destruct (a_mbsfn_configured a)|]|];
      cbn [app]; repeat (apply Forall_cons; [reflexivity|]); exact Htel.
  - intros ant fc g sr bw st. eexists. split; reflexivity.
Qed.

Lemma restart_flag_witness :
  exists i' st' pre post,
    processing_body sampling_freq_table (subframe false true 25) 0 camped
    = Ok i' st' (pre ++ read_restart (restart camped) :: post) /\
    before_any_frame pre /\ no_flag_read post /\ restart st' = restart camped.
Proof.
  assert (Hwf : well_formed camped 0)
    by (unfold well_formed; cbn; repeat split; (lia || discriminate)).
  exact (proj1 (proj2 (proj2 (restart_flag_read_only_at_checkpoints
                                sampling_freq_table (subframe false true 25))))
           0 camped Hwf).
Defined.

(** C1 fails on the code: when all 200 attempts of a syncing pass fail,
    the test that ends the [while] has already decremented the unsigned
    [max_frames] from 0 to 2^32 - 1, so [max_frames == 0] is false, the
    state is left at syncing with no wait, and the next pass starts 200
    attempts more. *)
Theorem sync_failure_stays_in_syncing :
  (forall st,
      syncing_pass never_locks st = Ok tt st (repeat phy_synchronize_subframe 200)) /\
  sync_while 201 never_locks 0 false 200 (camped_at syncing 0)
  = Ok (false, 4294967295) (camped_at syncing 0) (repeat phy_synchronize_subframe 200) /\
  run_loop sampling_freq_table [never_locks; never_locks] loop_head (camped_at syncing 0)
  = Ok loop_head (camped_at syncing 0) (repeat phy_synchronize_subframe 400).
Proof.
  split; [|split].
  - intros st. vm_compute. reflexivity.
  - vm_compute. reflexivity.
  - vm_compute. reflexivity.
Qed.

(** ** Start-up *)

Lemma lookupValue_run {A} (setting : option A) store m :
  lookupValue setting store m = Ok tt (looked_up setting store m) [].
Proof. destruct setting; reflexivity. Qed.

Lemma push_frequencies_all fs : forall acc st,
  push_frequencies (map Some fs) acc st = Ok (acc ++ fs) st [].
Proof.
  induction fs as [|f fs IH]; intros acc st; cbn [map push_frequencies].
  - rewrite app_nil_r. reflexivity.
  - rewrite IH, <- app_assoc. reflexivity.
Qed.

Lemma push_frequencies_unparsable entries : forall acc st,
  In None entries -> push_frequencies entries acc st = Stop (exit 1).
Proof.
  induction entries as [|e entries IH]; intros acc st Hin; [destruct Hin|].
  destruct e as [f|]; cbn [push_frequencies]; [|reflexivity].
  destruct Hin as [Hin|Hin]; [discriminate Hin|]. apply IH. exact Hin.
Qed.

Lemma read_configuration_unreadable b st :
  b_config_read b <> read_ok -> read_configuration b st = Stop (exit 1).
Proof.
  intros H. unfold read_configuration. cbv [bind modify].
  destruct (b_config_read b); [contradiction | reflexivity | reflexivity].
Qed.

Ltac run_configuration Hreach :=
  let Hc := fresh in let Hl := fresh in let Hi := fresh in
  destruct Hreach as (Hc & Hl & Hi);
  unfold read_configuration; rewrite Hc, Hl, Hi;
  cbv [bind modify get ret]; rewrite lookupValue_run.

Lemma read_configuration_no_list b st :
  reaches_frequencies b -> b_frequencies_read b <> read_ok ->
  read_configuration b st = Stop (exit 1).
Proof.
  intros Hreach Hf. run_configuration Hreach. unfold parseFrequenciesFromConfig.
  destruct (b_frequencies_read b); [contradiction | reflexivity | reflexivity].
Qed.

Lemma read_configuration_unparsable b st entries :
  reaches_frequencies b -> b_frequencies_read b = read_ok ->
  b_center_frequencies_hz b = Some entries -> In None entries ->
  read_configuration b st = Stop (exit 1).
Proof.
  intros Hreach Hf He Hin. run_configuration Hreach.
  unfold parseFrequenciesFromConfig. rewrite Hf, He.
  rewrite push_frequencies_unparsable by exact Hin. reflexivity.
Qed.

Lemma read_configuration_ok b st fs :
  reaches_frequencies b -> frequencies_parsed b fs ->
  read_configuration b st = Ok fs (configured b st) [].
Proof.
  intros Hreach (Hf & He). run_configuration Hreach.
  unfold parseFrequenciesFromConfig. rewrite Hf, He, push_frequencies_all.
  rewrite !lookupValue_run. reflexivity.
Qed.

Lemma tune_candidate_out_of_bounds b fs i st :
  nth_error fs i = None ->
  tune_candidate b fs i st
  = Stop (out_of_bounds (Z.of_nat i) (Z.of_nat (List.length fs))).
Proof.
  intros H. unfold tune_candidate, vector_at. cbv [bind]. rewrite H. reflexivity.
Qed.

Lemma tune_candidate_too_large b fs i f st :
  nth_error fs i = Some f -> UINT_MAX < f ->
  tune_candidate b fs i st = Stop (exit 1).
Proof.
  intros H Hf. unfold tune_candidate, vector_at. cbv [bind]. rewrite H.
  cbv [ret]. destruct (Z.leb_spec f UINT_MAX); [lia | reflexivity].
Qed.

(** A candidate in range is tuned to, and whatever [sdr.tune] answers the
    start-up goes on, with a line in the log. *)
Lemma tune_candidate_in_range b fs i f st :
  nth_error fs i = Some f -> f <= UINT_MAX ->
  tune_candidate b fs i st
  = Ok tt st
      [sdr_tune f (sample_rate st) (bandwidth st) (gain st) (antenna st) (use_agc st);
       if b_tune b f then log_tuned f else log_failed_to_set_center_frequency f].
Proof.
  intros H Hf. unfold tune_candidate, vector_at. cbv [bind]. rewrite H.
  cbv [ret get call]. destruct (Z.leb_spec f UINT_MAX); [|lia].
  destruct (b_tune b f); reflexivity.
Qed.

Lemma init_mbsfn_processors_run b n : forall i st,
  init_mbsfn_processors b n i st = Ok tt st [] \/
  init_mbsfn_processors b n i st = Stop (exit 1).
Proof.
  induction n as [|n IH]; intros i st; cbn [init_mbsfn_processors].
  - left. reflexivity.
  - destruct (b_mbsfn_init b i); [apply IH | right; reflexivity].
Qed.

Lemma init_mbsfn_processors_ok b n : forall i st,
  (forall k, b_mbsfn_init b k = true) ->
  init_mbsfn_processors b n i st = Ok tt st [].
Proof.
  induction n as [|n IH]; intros i st Hall; cbn [init_mbsfn_processors].
  - reflexivity.
  - rewrite Hall. apply IH. exact Hall.
Qed.

(** The state [create_processors] leaves when it gets through. *)
Lemma create_processors_run b st :
  create_processors b st = Stop (exit 1) \/
  exists st',
    create_processors b st = Ok tt st' [sdr_start] /\
    thread_cnt st' = match modem_phy_threads (b_config b) with
                     | Some v => wrap32 v
                     | None => 4
                     end.
Proof.
  unfold create_processors. cbv [bind modify get].
  rewrite !lookupValue_run.
  destruct (b_cas_init b); [|left; reflexivity].
  cbv [ret call].
  match goal with
  | |- context [init_mbsfn_processors b ?n ?i ?m] =>
      destruct (init_mbsfn_processors_run b n i m) as [-> | ->]
  end; [|left; reflexivity].
  right. eexists. split; [reflexivity|].
  destruct (modem_phy_threads (b_config b)),
    (modem_measurement_file_enabled (b_config b)); reflexivity.
Qed.

Lemma create_processors_ok b st :
  b_cas_init b = true -> (forall k, b_mbsfn_init b k = true) ->
  exists st',
    create_processors b st = Ok tt st' [sdr_start] /\
    thread_cnt st' = match modem_phy_threads (b_config b) with
                     | Some v => wrap32 v
                     | None => 4
                     end.
Proof.
  intros Hcas Hall. unfold create_processors. cbv [bind modify get].
  rewrite !lookupValue_run, Hcas. cbv [ret call].
  rewrite init_mbsfn_processors_ok by exact Hall.
  eexists. split; [reflexivity|].
  destruct (modem_phy_threads (b_config b)),
    (modem_measurement_file_enabled (b_config b)); reflexivity.
Qed.

(** From [create_processors] on the start-up never indexes the list. *)
Lemma startup_tail_in_bounds b st :
  startup_tail_ok b st.
Proof.
  unfold startup_tail_ok.
  destruct (create_processors_run b st) as [Hstop | (st' & Hrun & Hcnt)].
  - right. unfold bind. rewrite Hstop. reflexivity.
  - left. destruct (start_counters_run (b_config b) st')
      as (st'' & Hrun' & Htk & Hs & Hcnt' & Hmi).
    exists st''. split; [exact (bind_Ok _ _ _ _ _ _ _ _ _ Hrun Hrun')|].
    repeat split; try assumption. congruence.
Qed.

(** ** The run loop goes on *)

Lemma run_pass_goes_on srate a p st :
  loop_invariant st p ->
  exists p' st' tr,
    run_pass srate a p st = Ok p' st' tr /\ loop_invariant st' p'.
Proof.
  intros (Hn & Hmi & Hp). unfold run_pass. unfold bind at 1. unfold get.
  destruct (state st) eqn:Hs.
  - destruct (searching_pass_run srate a st) as (st' & tr & Hrun & _ & _ & Hcnt & Hint & _).
    exists loop_head, st'. eexists.
    split; [rewrite (bind_Ok _ (fun _ => ret loop_head) _ _ _ _ _ _ _ Hrun eq_refl);
            reflexivity|].
    unfold loop_invariant. rewrite Hcnt, Hint. auto.
  - destruct (syncing_pass_run a st) as (st' & tr & n & Hrun & _ & _ & _ & Hcnt & Hint & _).
    exists loop_head, st'. eexists.
    split; [rewrite (bind_Ok _ (fun _ => ret loop_head) _ _ _ _ _ _ _ Hrun eq_refl);
            reflexivity|].
    unfold loop_invariant. rewrite Hcnt, Hint. auto.
  - assert (Hwf : well_formed st (match p with loop_head => 0 | in_processing i => i end)).
    { unfold well_formed. destruct p; repeat split; try lia; exact Hmi. }
    destruct (processing_body_cases srate a _ st Hwf)
      as (i' & st1 & tr & Hrun & _ & _ & (Hi' & Hn' & Hmi')).
    exists (in_processing i'). do 2 eexists.
    split; [rewrite (bind_Ok _ (fun i => ret (in_processing i)) _ _ _ _ _ _ _ Hrun eq_refl);
            reflexivity|].
    unfold loop_invariant. repeat split; try lia; exact Hmi'.
Qed.

Lemma run_loop_goes_on srate passes : forall p st,
  loop_invariant st p ->
  exists p' st' tr,
    run_loop srate passes p st = Ok p' st' tr /\ loop_invariant st' p'.
Proof.
  induction passes as [|a rest IH]; intros p st Hinv.
  - exists p, st, []. split; [reflexivity | exact Hinv].
  - destruct (run_pass_goes_on srate a p st Hinv) as (p1 & st1 & tr1 & Hrun1 & Hinv1).
    destruct (IH p1 st1 Hinv1) as (p2 & st2 & tr2 & Hrun2 & Hinv2).
    exists p2, st2, (tr1 ++ tr2). cbn [run_loop].
    split; [exact (bind_Ok _ _ _ _ _ _ _ _ _ Hrun1 Hrun2) | exact Hinv2].
Qed.

(** The start-up with the list of centre frequencies parsed: what is left
    is the two candidates and the tail. *)
Lemma startup_parsed b st fs :
  reaches_frequencies b -> frequencies_parsed b fs ->
  startup b st
  = (tune_candidates b fs ;; create_processors b ;; start_counters (b_config b))
      (configured b st).
Proof.
  intros Hreach Hparsed. unfold startup. unfold bind at 1.
  rewrite (read_configuration_ok b st fs Hreach Hparsed).
  cbn [app].
  destruct ((tune_candidates b fs;; create_processors b;; start_counters (b_config b))
              (configured b st)); reflexivity.
Qed.

(** With the first two candidates in range the start-up reaches the tail,
    whatever [sdr.tune] answers. *)
Lemma startup_two_candidates b st fs f0 f1 :
  reaches_frequencies b -> frequencies_parsed b fs ->
  nth_error fs 0 = Some f0 -> f0 <= UINT_MAX ->
  nth_error fs 1 = Some f1 -> f1 <= UINT_MAX ->
  (exists st' tr, startup b st = Ok tt st' tr /\
     tick st' = 0 /\ state st' = searching /\
     thread_cnt st' = match modem_phy_threads (b_config b) with
                      | Some v => wrap32 v
                      | None => 4
                      end /\
     measurement_interval st'
     = wrap32 (match modem_measurement_file_interval_secs (b_config b) with
               | Some v => wrap32 v
               | None => 5
               end * 1000)) \/
  startup b st = Stop (exit 1).
Proof.
  intros Hreach Hparsed H0 Hf0 H1 Hf1.
  rewrite (startup_parsed b st fs Hreach Hparsed).
  pose proof (tune_candidate_in_range b fs 0 f0 (configured b st) H0 Hf0) as Ht0.
  pose proof (tune_candidate_in_range b fs 1 f1 (configured b st) H1 Hf1) as Ht1.
  pose proof (bind_Ok _ (fun _ => tune_candidate b fs 1) _ _ _ _ _ _ _ Ht0 Ht1) as Ht.
  destruct (startup_tail_in_bounds b (configured b st))
    as [(st' & Hrun & Hrest) | Hstop].
  - left. exists st'. eexists. split; [|exact Hrest].
    exact (bind_Ok _ _ _ _ _ _ _ _ _ Ht Hrun).
  - right. unfold bind at 1. unfold tune_candidates. rewrite Ht. rewrite Hstop.
    reflexivity.
Qed.

Lemma startup_first_too_large b st fs f0 :
  reaches_frequencies b -> frequencies_parsed b fs ->
  nth_error fs 0 = Some f0 -> UINT_MAX < f0 ->
  startup b st = Stop (exit 1).
Proof.
  intros Hreach Hparsed H0 Hf0. rewrite (startup_parsed b st fs Hreach Hparsed).
  apply bind_Stop. unfold tune_candidates. apply bind_Stop.
  apply (tune_candidate_too_large b fs 0 f0); assumption.
Qed.

Lemma startup_second_too_large b st fs f0 f1 :
  reaches_frequencies b -> frequencies_parsed b fs ->
  nth_error fs 0 = Some f0 -> f0 <= UINT_MAX ->
  nth_error fs 1 = Some f1 -> UINT_MAX < f1 ->
  startup b st = Stop (exit 1).
Proof.
  intros Hreach Hparsed H0 Hf0 H1 Hf1. rewrite (startup_parsed b st fs Hreach Hparsed).
  apply bind_Stop. unfold tune_candidates. unfold bind.
  rewrite (tune_candidate_in_range b fs 0 f0 (configured b st) H0 Hf0).
  rewrite (tune_candidate_too_large b fs 1 f1 (configured b st) H1 Hf1). reflexivity.
Qed.

Lemma startup_second_missing b st f0 :
  reaches_frequencies b -> frequencies_parsed b [f0] -> f0 <= UINT_MAX ->
  startup b st = Stop (out_of_bounds 1 1).
Proof.
  intros Hreach Hparsed Hf0. rewrite (startup_parsed b st [f0] Hreach Hparsed).
  apply bind_Stop. unfold tune_candidates. unfold bind.
  rewrite (tune_candidate_in_range b [f0] 0 f0 (configured b st) eq_refl Hf0).
  rewrite (tune_candidate_out_of_bounds b [f0] 1 (configured b st) eq_refl). reflexivity.
Qed.

Lemma startup_first_missing b st :
  reaches_frequencies b -> frequencies_parsed b [] ->
  startup b st = Stop (out_of_bounds 0 0).
Proof.
  intros Hreach Hparsed. rewrite (startup_parsed b st [] Hreach Hparsed).
  apply bind_Stop. unfold tune_candidates. apply bind_Stop.
  apply (tune_candidate_out_of_bounds b [] 0). reflexivity.
Qed.

(** C5, as the code has it: the process exits with status 1 before the run
    loop when the configuration file cannot be read or parsed, when the
    list of centre frequencies cannot be read or an entry of it has no
    value, and when the first or the second frequency is above UINT_MAX.
    A failure of [sdr.tune] is not among them: with two frequencies in
    range and the frame processors created, the start-up reaches the run
    loop whatever [sdr.tune] answers, with the thread count and the
    measurement interval of the configuration.  When the thread count is
    between 1 and 2^31 and the interval is not 0, as with the defaults 4 and
    5000, the process goes on after every pass of the run loop, whatever
    the collaborators answer: no cell found, no synchronisation, a lost
    frame, another width. *)
Theorem startup_exits_and_run_loop_goes_on srate b st :
  (b_config_read b <> read_ok -> startup b st = Stop (exit 1)) /\
  (reaches_frequencies b -> b_frequencies_read b <> read_ok ->
   startup b st = Stop (exit 1)) /\
  (forall entries,
      reaches_frequencies b -> b_frequencies_read b = read_ok ->
      b_center_frequencies_hz b = Some entries -> In None entries ->
      startup b st = Stop (exit 1)) /\
  (forall fs f0,
      reaches_frequencies b -> frequencies_parsed b fs ->
      nth_error fs 0 = Some f0 -> UINT_MAX < f0 ->
      startup b st = Stop (exit 1)) /\
  (forall fs f0 f1,
      reaches_frequencies b -> frequencies_parsed b fs ->
      nth_error fs 0 = Some f0 -> f0 <= UINT_MAX ->
      nth_error fs 1 = Some f1 -> UINT_MAX < f1 ->
      startup b st = Stop (exit 1)) /\
  (forall fs f0 f1,
      reaches_frequencies b -> frequencies_parsed b fs ->
      nth_error fs 0 = Some f0 -> f0 <= UINT_MAX ->
      nth_error fs 1 = Some f1 -> f1 <= UINT_MAX ->
      b_cas_init b = true -> (forall k, b_mbsfn_init b k = true) ->
      exists st' tr,
        startup b st = Ok tt st' tr /\ state st' = searching /\
        thread_cnt st' = configured_threads b /\
        measurement_interval st' = configured_interval b /\
        (modem_phy_threads (b_config b) = None ->
         modem_measurement_file_interval_secs (b_config b) = None ->
         loop_invariant st' loop_head) /\
        (0 < configured_threads b <= 2 ^ 31 -> configured_interval b <> 0 ->
         loop_invariant st' loop_head /\
         forall passes,
         exists p st'' tr',
           run_loop srate passes loop_head st' = Ok p st'' tr' /\
           loop_invariant st'' p)) /\
  (forall passes p st0,
      loop_invariant st0 p ->
      exists p' st' tr,
        run_loop srate passes p st0 = Ok p' st' tr /\ loop_invariant st' p').
Proof.
  split; [|split; [|split; [|split; [|split; [|split]]]]].
  - intros H. apply bind_Stop. apply read_configuration_unreadable. exact H.
  - intros Hreach Hf. apply bind_Stop. apply read_configuration_no_list; assumption.
  - intros entries Hreach Hf He Hin. apply bind_Stop.
    apply (read_configuration_unparsable b st entries); assumption.
  - intros fs f0. apply startup_first_too_large.
  - intros fs f0 f1. apply startup_second_too_large.
  - intros fs f0 f1 Hreach Hparsed H0 Hf0 H1 Hf1 Hcas Hall.
    rewrite (startup_parsed b st fs Hreach Hparsed).
    pose proof (tune_candidate_in_range b fs 0 f0 (configured b st) H0 Hf0) as Ht0.
    pose proof (tune_candidate_in_range b fs 1 f1 (configured b st) H1 Hf1) as Ht1.
    pose proof (bind_Ok _ (fun _ => tune_candidate b fs 1) _ _ _ _ _ _ _ Ht0 Ht1) as Ht.
    destruct (create_processors_ok b (configured b st) Hcas Hall) as (st1 & Hrun1 & Hcnt1).
    destruct (start_counters_run (b_config b) st1) as (st2 & Hrun2 & _ & Hs & Hcnt2 & Hmi).
    assert (Hthreads : thread_cnt st2 = configured_threads b)
      by (rewrite Hcnt2, Hcnt1; reflexivity).
    exists st2. eexists. split; [|split; [exact Hs|split; [exact Hthreads|split;
      [exact Hmi|split]]]].
    + exact (bind_Ok _ _ _ _ _ _ _ _ _ Ht (bind_Ok _ _ _ _ _ _ _ _ _ Hrun1 Hrun2)).
    + intros Hnone Hinterval. unfold loop_invariant.
      rewrite Hcnt2, Hcnt1, Hmi, Hnone, Hinterval.
      repeat split; try reflexivity; discriminate.
    + intros Hn Hi.
      assert (Hinv : loop_invariant st2 loop_head).
      { unfold loop_invariant. rewrite Hthreads.
        fold (configured_interval b) in Hmi. rewrite Hmi. auto. }
      split; [exact Hinv|]. intros passes. apply run_loop_goes_on. exact Hinv.
  - intros passes p st0. apply run_loop_goes_on.
Qed.

Lemma startup_and_run_loop_witness :
  exists p st' tr,
    main sampling_freq_table
      (boot_with [Some 667000000; Some 682000000] (fun _ => true))
      [no_cell; subframe true true 25; never_locks; never_locks] = Ok p st' tr.
Proof.
  pose (b := boot_with [Some 667000000; Some 682000000] (fun _ => true)).
  destruct (startup_exits_and_run_loop_goes_on sampling_freq_table b initial_modem)
    as (_ & _ & _ & _ & _ & Hstart & Hloop).
  destruct (Hstart [667000000; 682000000] 667000000 682000000)
    as (st1 & tr1 & Hrun1 & _ & _ & _ & _ & Hgoes);
    try (repeat split; reflexivity); try (unfold UINT_MAX; lia).
  destruct Hgoes as (_ & Hpasses); [cbn; lia | cbn; discriminate |].
  destruct (Hpasses [no_cell; subframe true true 25; never_locks; never_locks])
    as (p & st2 & tr2 & Hrun2 & _).
  exists p, st2, (tr1 ++ tr2). unfold main.
  exact (bind_Ok _ _ _ _ _ _ _ _ _ Hrun1 Hrun2).
Defined.

(** C5 as stated fails for the tuning: with both configured frequencies
    refused by [sdr.tune] the start-up logs the two failures, starts the
    SDR and enters the run loop, where a searching pass runs. *)
Lemma tune_failure_does_not_exit :
  exists st tr,
    main sampling_freq_table
      (boot_with [Some 667000000; Some 682000000] (fun _ => false)) [no_cell]
    = Ok loop_head st
        ([sdr_tune 667000000 7680000 10000000 (gain initial_modem) "LNAW" false;
          log_failed_to_set_center_frequency 667000000;
          sdr_tune 682000000 7680000 10000000 (gain initial_modem) "LNAW" false;
          log_failed_to_set_center_frequency 682000000;
          sdr_start] ++ tr) /\
    tr = [read_restart false; sdr_disableSampleFileWriting; sdr_clear_buffer;
          phy_cell_search; sleep 1] /\
    state st = searching.
Proof.
  do 2 eexists. split; [vm_compute; reflexivity|]. split; reflexivity.
Qed.

(** C10, as the code has it: the first entry of the list of centre
    frequencies is read without a check of the length, and the second is
    read whenever the first is no more than UINT_MAX.  So the indexing is
    out of bounds on an empty list and on a list of one entry that is in
    range; a single entry above UINT_MAX ends the process with status 1
    before the second is read; with two entries or more no index is out of
    bounds. *)
Theorem frequency_list_indexing b st fs :
  reaches_frequencies b ->
  frequencies_parsed b fs ->
  (fs = [] -> startup b st = Stop (out_of_bounds 0 0)) /\
  (forall f, fs = [f] -> f <= UINT_MAX -> startup b st = Stop (out_of_bounds 1 1)) /\
  (forall f, fs = [f] -> UINT_MAX < f -> startup b st = Stop (exit 1)) /\
  ((2 <= List.length fs)%nat ->
   forall i n, startup b st <> Stop (out_of_bounds i n)).
Proof.
  intros Hreach Hparsed. split; [|split; [|split]].
  - intros ->. apply startup_first_missing; assumption.
  - intros f -> Hf. apply (startup_second_missing b st f); assumption.
  - intros f -> Hf. apply (startup_first_too_large b st [f] f); auto.
  - intros Hlen i n.
    destruct fs as [|f0 [|f1 fs']]; cbn [List.length] in Hlen; try lia.
    destruct (Z.leb_spec f0 UINT_MAX) as [Hf0|Hf0].
    + destruct (Z.leb_spec f1 UINT_MAX) as [Hf1|Hf1].
      * destruct (startup_two_candidates b st _ f0 f1 Hreach Hparsed eq_refl Hf0 eq_refl Hf1)
          as [(st' & tr & Hrun & _) | Hstop]; [rewrite Hrun | rewrite Hstop]; discriminate.
      * rewrite (startup_second_too_large b st _ f0 f1 Hreach Hparsed eq_refl Hf0 eq_refl Hf1).
        discriminate.
    + rewrite (startup_first_too_large b st _ f0 Hreach Hparsed eq_refl Hf0).
      discriminate.
Qed.

Lemma frequency_list_indexing_witness :
  reaches_frequencies (boot_with [Some 667000000] (fun _ => true)) /\
  frequencies_parsed (boot_with [Some 667000000] (fun _ => true)) [667000000] /\
  startup (boot_with [Some 667000000] (fun _ => true)) initial_modem
  = Stop (out_of_bounds 1 1).
Proof.
  assert (Hreach : reaches_frequencies (boot_with [Some 667000000] (fun _ => true)))
    by (repeat split; reflexivity).
  assert (Hparsed : frequencies_parsed (boot_with [Some 667000000] (fun _ => true))
                      [667000000])
    by (split; reflexivity).
  split; [exact Hreach|]. split; [exact Hparsed|].
  apply (proj1 (proj2 (frequency_list_indexing _ initial_modem _ Hreach Hparsed))
           667000000 eq_refl).
  unfold UINT_MAX. lia.
Defined.

(** C10 as stated fails on a list of one entry above UINT_MAX: the first
    entry is read in bounds, the process exits with status 1, and the
    second entry is never indexed. *)
Lemma single_oversized_frequency_exits :
  List.length [4294967296] = 1%nat /\
  reaches_frequencies (boot_with [Some 4294967296] (fun _ => true)) /\
  frequencies_parsed (boot_with [Some 4294967296] (fun _ => true)) [4294967296] /\
  startup (boot_with [Some 4294967296] (fun _ => true)) initial_modem
  = Stop (exit 1).
Proof.
  split; [reflexivity|]. split; [repeat split; reflexivity|].
  split; [split; reflexivity|]. vm_compute. reflexivity.
Qed.

(** ** The [while] of the processing branch inside the run loop *)

Lemma bind_inv {A B} (c : M A) (k : A -> M B) m b m2 t :
  bind c k m = Ok b m2 t ->
  exists a m1 t1 t2, c m = Ok a m1 t1 /\ k a m1 = Ok b m2 t2 /\ t = t1 ++ t2.
Proof.
  unfold bind. destruct (c m) as [a m1 t1|]; [|discriminate].
  destruct (k a m1) as [b' m2' t2|] eqn:Hk; [|discriminate].
  intros H. inversion H; subst. exists a, m1, t1, t2. auto.
Qed.

(** Passes of the run loop that stay in processing are the iterations of
    one [while], with its cursor. *)
Lemma run_loop_in_processing srate subframes : forall c st c' st' tr,
  state st = processing ->
  processing_while srate subframes c st = Ok c' st' tr ->
  state st' = processing ->
  run_loop srate subframes (in_processing c) st = Ok (in_processing c') st' tr.
Proof.
  induction subframes as [|a rest IH]; intros c st c' st' tr Hs Hrun Hs'.
  - cbn in Hrun. inversion Hrun; subst. reflexivity.
  - cbn [processing_while] in Hrun. unfold bind at 1 in Hrun. unfold get in Hrun.
    rewrite Hs in Hrun.
    destruct (bind (processing_body srate a c)
                (fun i => processing_while srate rest i) st)
      as [c2 st2 tr2|] eqn:Hb; [|discriminate].
    cbn [app] in Hrun. inversion Hrun; subst c2 st2 tr2. clear Hrun.
    destruct (bind_inv _ _ _ _ _ _ Hb) as (c1 & st1 & tr1 & tr2 & Hbody & Hrest & ->).
    assert (Hs1 : state st1 = processing).
    { destruct (state st1) eqn:E; [| |reflexivity];
        rewrite processing_while_left in Hrest by congruence;
        inversion Hrest; subst; congruence. }
    cbn [run_loop].
    assert (Hpass : run_pass srate a (in_processing c) st
                    = Ok (in_processing c1) st1 tr1).
    { unfold run_pass. unfold bind at 1. unfold get. rewrite Hs.
      rewrite (bind_Ok _ (fun i => ret (in_processing i)) _ _ _ _ _ _ _ Hbody eq_refl).
      cbn [app]. rewrite app_nil_r. reflexivity. }
    exact (bind_Ok _ _ _ _ _ _ _ _ _ Hpass (IH _ _ _ _ _ Hs1 Hrest Hs')).
Qed.

(** ** The command line *)

(** X1: two calls of [parse_opt] that return and have different keys
    give the same arguments in either order, each option touching its own
    field only; and a second call with the same key makes the first
    forgotten. *)
Theorem parse_opt_order_and_overwrite strtoul strtol k1 arg1 k2 arg2 a e1 a1 e2 a2 :
  Cli.parse_opt strtoul strtol k1 arg1 a = Cli.returned e1 a1 ->
  Cli.parse_opt strtoul strtol k2 arg2 a = Cli.returned e2 a2 ->
  (k1 <> k2 ->
   exists a12,
     Cli.parse_opt strtoul strtol k2 arg2 a1 = Cli.returned e2 a12 /\
     Cli.parse_opt strtoul strtol k1 arg1 a2 = Cli.returned e1 a12) /\
  (k1 = k2 -> Cli.parse_opt strtoul strtol k2 arg2 a1 = Cli.returned e2 a2).
Proof.
  unfold Cli.parse_opt, Cli.ARGP_KEY_ARG.
  change (Cli.key_of "c") with 99; change (Cli.key_of "l") with 108;
    change (Cli.key_of "s") with 115; change (Cli.key_of "f") with 102;
    change (Cli.key_of "w") with 119; change (Cli.key_of "b") with 98;
    change (Cli.key_of "p") with 112; change (Cli.key_of "d") with 100.
  intros H1 H2. split.
  - intros Hne. revert H1 H2.
    destruct (Z.eqb_spec k1 99); [|destruct (Z.eqb_spec k1 108);
      [|destruct (Z.eqb_spec k1 115); [|destruct (Z.eqb_spec k1 102);
      [|destruct (Z.eqb_spec k1 119); [|destruct (Z.eqb_spec k1 98);
      [|destruct (Z.eqb_spec k1 112); [|destruct (Z.eqb_spec k1 100);
      [|destruct (Z.eqb_spec k1 0)]]]]]]]];
    (destruct (Z.eqb_spec k2 99); [|destruct (Z.eqb_spec k2 108);
      [|destruct (Z.eqb_spec k2 115); [|destruct (Z.eqb_spec k2 102);
      [|destruct (Z.eqb_spec k2 119); [|destruct (Z.eqb_spec k2 98);
      [|destruct (Z.eqb_spec k2 112); [|destruct (Z.eqb_spec k2 100);
      [|destruct (Z.eqb_spec k2 0)]]]]]]]]);
    subst; try congruence; try discriminate;
    intros H1 H2; inversion H1; inversion H2; subst;
    eexists; split; reflexivity.
  - intros <-. revert H1 H2.
    destruct (Z.eqb_spec k1 99); [|destruct (Z.eqb_spec k1 108);
      [|destruct (Z.eqb_spec k1 115); [|destruct (Z.eqb_spec k1 102);
      [|destruct (Z.eqb_spec k1 119); [|destruct (Z.eqb_spec k1 98);
      [|destruct (Z.eqb_spec k1 112); [|destruct (Z.eqb_spec k1 100);
      [|destruct (Z.eqb_spec k1 0)]]]]]]]];
    try discriminate;
    intros H1 H2; inversion H1; inversion H2; subst; reflexivity.
Qed.

Lemma parse_opt_order_witness :
  exists a12,
    Cli.parse_opt (fun _ => 5) (fun _ => 5) (Cli.key_of "b"%char) "5"%string
      (Cli.mk_arguments "/etc/5gmag-rt.conf"%string 2 4 (-1) (Some "iq.raw"%string) 0 None false)
    = Cli.returned Cli.no_error a12 /\
    Cli.parse_opt (fun _ => 5) (fun _ => 5) (Cli.key_of "f"%char) "iq.raw"%string
      (Cli.mk_arguments "/etc/5gmag-rt.conf"%string 2 4 (-1) None 5 None false)
    = Cli.returned Cli.no_error a12.
Proof.
  apply (proj1 (parse_opt_order_and_overwrite (fun _ => 5) (fun _ => 5)
                  (Cli.key_of "f"%char) "iq.raw"%string (Cli.key_of "b"%char) "5"%string Cli.defaults
                  _ _ _ _ eq_refl eq_refl)).
  discriminate.
Defined.

(** ** The list of centre frequencies *)

Lemma entries_parsed_or_not (entries : list (option Z)) :
  (exists values, entries = map Some values) \/ In None entries.
Proof.
  induction entries as [|e entries IH].
  - left. exists []. reflexivity.
  - destruct e as [f|]; [|right; left; reflexivity].
    destruct IH as [(values & ->) | Hin].
    + left. exists (f :: values). reflexivity.
    + right. right. exact Hin.
Qed.

(** X2: [parseFrequenciesFromConfig] returns exactly when the file is
    read, the list is there and every entry has a value; the vector is then
    the one given followed by the values in the order of the list, and
    nothing else has changed.  A file that cannot be read or parsed and an
    entry without a value end the process with status 1, whatever the
    entries before it; a missing list is an exception nobody catches. *)
Theorem parse_frequencies_all_or_nothing b given st :
  match parseFrequenciesFromConfig b given st with
  | Ok frequencies st' tr =>
      st' = st /\ tr = [] /\ b_frequencies_read b = read_ok /\
      exists values,
        b_center_frequencies_hz b = Some (map Some values) /\
        frequencies = given ++ values
  | Stop why =>
      (why = exit 1 /\
       (b_frequencies_read b <> read_ok \/
        exists entries,
          b_center_frequencies_hz b = Some entries /\ In None entries)) \/
      (why = uncaught_exception /\ b_frequencies_read b = read_ok /\
       b_center_frequencies_hz b = None)
  end.
Proof.
  unfold parseFrequenciesFromConfig.
  destruct (b_frequencies_read b) eqn:Hread;
    [|left; split; [reflexivity | left; discriminate]
     |left; split; [reflexivity | left; discriminate]].
  destruct (b_center_frequencies_hz b) as [entries|] eqn:Hlist;
    [|right; auto].
  destruct (entries_parsed_or_not entries) as [(values & ->) | Hin].
  - rewrite push_frequencies_all. repeat split. exists values. auto.
  - rewrite push_frequencies_unparsable by exact Hin.
    left. split; [reflexivity|]. right. exists entries. auto.
Qed.

(** ** The start-up, outcome by outcome *)

Lemma parse_frequencies_ok_inv b given st fs st' tr :
  parseFrequenciesFromConfig b given st = Ok fs st' tr ->
  st' = st /\ tr = [] /\ b_frequencies_read b = read_ok /\
  exists values,
    b_center_frequencies_hz b = Some (map Some values) /\ fs = given ++ values.
Proof.
  unfold parseFrequenciesFromConfig.
  destruct (b_frequencies_read b); try discriminate.
  destruct (b_center_frequencies_hz b) as [entries|]; try discriminate.
  destruct (entries_parsed_or_not entries) as [(values & ->) | Hin].
  - rewrite push_frequencies_all. intros H. inversion H; subst.
    repeat split. exists values. auto.
  - rewrite push_frequencies_unparsable by exact Hin. discriminate.
Qed.

Lemma read_configuration_ok_inv b st fs st' tr :
  read_configuration b st = Ok fs st' tr ->
  reaches_frequencies b /\ frequencies_parsed b fs /\
  st' = configured b st /\ tr = [].
Proof.
  intros H.
  assert (Hreach : reaches_frequencies b).
  { unfold reaches_frequencies. revert H. unfold read_configuration.
    cbv [bind modify]. destruct (b_config_read b); try discriminate.
    destruct (list_sdr_devices (b_arguments b)); cbv [stop ret]; try discriminate.
    destruct (b_sdr_init b); try discriminate. auto. }
  pose proof Hreach as Hreach'.
  revert H. run_configuration Hreach'. intros Hrun.
  destruct (parseFrequenciesFromConfig b [] _) as [fs1 m1 t1|] eqn:Hp; [|discriminate].
  destruct (parse_frequencies_ok_inv _ _ _ _ _ _ Hp) as (-> & -> & Hread & values & Hlist & ->).
  assert (Hparsed : frequencies_parsed b values) by (split; assumption).
  revert Hrun. rewrite !lookupValue_run. cbn [app]. intros Hrun.
  inversion Hrun; subst.
  repeat split; try assumption.
Qed.

Lemma tune_candidate_ok_inv b fs i st st' tr :
  tune_candidate b fs i st = Ok tt st' tr ->
  exists f, nth_error fs i = Some f /\ f <= UINT_MAX.
Proof.
  destruct (nth_error fs i) as [f|] eqn:Hn.
  - destruct (Z.leb_spec f UINT_MAX) as [Hf|Hf].
    + intros _. exists f. auto.
    + rewrite (tune_candidate_too_large b fs i f st Hn Hf). discriminate.
  - rewrite (tune_candidate_out_of_bounds b fs i st Hn). discriminate.
Qed.

Lemma init_mbsfn_processors_all b n : forall i st,
  (forall k, (k < n)%nat -> b_mbsfn_init b (i + Z.of_nat k) = true) ->
  init_mbsfn_processors b n i st = Ok tt st [].
Proof.
  induction n as [|n IH]; intros i st Hall; cbn [init_mbsfn_processors].
  - reflexivity.
  - pose proof (Hall 0%nat ltac:(lia)) as H0. rewrite Z.add_0_r in H0. rewrite H0.
    apply IH. intros k Hk. specialize (Hall (S k) ltac:(lia)).
    rewrite <- Hall. f_equal. lia.
Qed.

Lemma init_mbsfn_processors_ok_inv b n : forall i st st' tr,
  init_mbsfn_processors b n i st = Ok tt st' tr ->
  forall k, (k < n)%nat -> b_mbsfn_init b (i + Z.of_nat k) = true.
Proof.
  induction n as [|n IH]; intros i st st' tr H k Hk; [lia|].
  cbn [init_mbsfn_processors] in H.
  destruct (b_mbsfn_init b i) eqn:Hi; [|discriminate].
  destruct k as [|k].
  - rewrite Z.add_0_r. exact Hi.
  - specialize (IH _ _ _ _ H k ltac:(lia)). rewrite <- IH. f_equal. lia.
Qed.

Lemma thread_cnt_processors_created b m :
  thread_cnt (looked_up (modem_phy_threads (b_config b))
                (fun v => set_thread_cnt (wrap32 v)) (set_thread_cnt 4 m))
  = configured_threads b.
Proof. unfold configured_threads. destruct (modem_phy_threads (b_config b)); reflexivity. Qed.

Lemma create_processors_exact b m :
  b_cas_init b = true ->
  (forall k, (k < Z.to_nat (configured_threads b))%nat ->
             b_mbsfn_init b (Z.of_nat k) = true) ->
  create_processors b m = Ok tt (processors_created b m) [sdr_start].
Proof.
  intros Hcas Hall. unfold create_processors. cbv [bind modify get].
  rewrite !lookupValue_run, Hcas. cbv [ret call].
  assert (Hn : thread_cnt (processors_created b m) = configured_threads b).
  { unfold processors_created, configured_threads.
    destruct (modem_phy_threads (b_config b)),
      (modem_measurement_file_enabled (b_config b)); reflexivity. }
  fold (processors_created b m). rewrite Hn.
  rewrite init_mbsfn_processors_all by (intros k Hk; apply Hall; exact Hk).
  reflexivity.
Qed.

Lemma create_processors_ok_inv b m st' tr :
  create_processors b m = Ok tt st' tr ->
  b_cas_init b = true /\
  (forall k, (k < Z.to_nat (configured_threads b))%nat ->
             b_mbsfn_init b (Z.of_nat k) = true).
Proof.
  unfold create_processors. cbv [bind modify get].
  rewrite !lookupValue_run.
  destruct (b_cas_init b); [|discriminate]. cbv [ret call].
  assert (Hn : thread_cnt (processors_created b m) = configured_threads b).
  { unfold processors_created, configured_threads.
    destruct (modem_phy_threads (b_config b)),
      (modem_measurement_file_enabled (b_config b)); reflexivity. }
  fold (processors_created b m). rewrite Hn.
  destruct (init_mbsfn_processors b (Z.to_nat (configured_threads b)) 0
              (processors_created b m)) as [u m1 t1|] eqn:Hinit; [|discriminate].
  intros _. split; [reflexivity|]. intros k Hk. destruct u.
  exact (init_mbsfn_processors_ok_inv _ _ _ _ _ _ Hinit k Hk).
Qed.

Lemma start_counters_exact cfg m :
  start_counters cfg m = Ok tt (counters_started cfg m) [].
Proof.
  unfold start_counters. cbv [bind modify get]. rewrite lookupValue_run. reflexivity.
Qed.

(** A start-up that fulfils the conditions reaches the run loop, with its
    five calls. *)
Lemma startup_exact b st f0 f1 :
  startup_succeeds b f0 f1 ->
  startup b st
  = Ok tt (started b st) (startup_calls b (configured b st) f0 f1).
Proof.
  intros (Hreach & (fs & Hparsed & H0 & H1) & Hf0 & Hf1 & Hcas & Hall).
  rewrite (startup_parsed b st fs Hreach Hparsed).
  pose proof (tune_candidate_in_range b fs 0 f0 (configured b st) H0 Hf0) as Ht0.
  pose proof (tune_candidate_in_range b fs 1 f1 (configured b st) H1 Hf1) as Ht1.
  pose proof (bind_Ok _ (fun _ => tune_candidate b fs 1) _ _ _ _ _ _ _ Ht0 Ht1) as Ht.
  pose proof (create_processors_exact b (configured b st) Hcas Hall) as Hc.
  pose proof (start_counters_exact (b_config b) (processors_created b (configured b st))) as Hs.
  pose proof (bind_Ok _ (fun _ => start_counters (b_config b)) _ _ _ _ _ _ _ Hc Hs) as Hcs.
  exact (bind_Ok _ _ _ _ _ _ _ _ _ Ht Hcs).
Qed.

(** A start-up that reaches the run loop fulfilled the conditions. *)
Lemma startup_ok_inv b st st' tr :
  startup b st = Ok tt st' tr ->
  exists f0 f1, startup_succeeds b f0 f1.
Proof.
  intros H. unfold startup in H.
  destruct (bind_inv _ _ _ _ _ _ H) as (fs & m1 & t1 & t2 & Hread & Hrest & _).
  destruct (read_configuration_ok_inv _ _ _ _ _ Hread) as (Hreach & Hparsed & -> & ->).
  destruct (bind_inv _ _ _ _ _ _ Hrest) as ([] & m2 & t3 & t4 & Htune & Htail & _).
  unfold tune_candidates in Htune.
  destruct (bind_inv _ _ _ _ _ _ Htune) as ([] & m3 & t5 & t6 & Ht0 & Ht1 & _).
  destruct (tune_candidate_ok_inv _ _ _ _ _ _ Ht0) as (f0 & H0 & Hf0).
  destruct (tune_candidate_ok_inv _ _ _ _ _ _ Ht1) as (f1 & H1 & Hf1).
  destruct (bind_inv _ _ _ _ _ _ Htail) as ([] & m4 & t7 & t8 & Hcreate & _ & _).
  destruct (create_processors_ok_inv _ _ _ _ Hcreate) as (Hcas & Hall).
  exists f0, f1. unfold startup_succeeds.
  split; [exact Hreach|]. split; [exists fs; auto|]. auto.
Qed.

(** X3: the start-up reaches the run loop exactly when the configuration
    file is read, no device list is asked for, the SDR initialises, the
    list of centre frequencies is parsed with a first and a second entry
    of at most UINT_MAX, and the CAS processor and each of the configured
    number of MBSFN processors initialise.  It has then tuned to the first
    and to the second frequency, in this order and whatever the first tune
    answered, and started the SDR; the loop starts in searching with TTI
    and tick 0, the static [frequency], the bandwidth and the restart flag
    as they were, and both sample rates at the configured search rate. *)
Theorem startup_reaches_run_loop_iff b st :
  ((exists st' tr, startup b st = Ok tt st' tr) <->
   (exists f0 f1, startup_succeeds b f0 f1)) /\
  (forall f0 f1,
      startup_succeeds b f0 f1 ->
      startup b st
      = Ok tt (started b st) (startup_calls b (configured b st) f0 f1)) /\
  state (started b st) = searching /\
  tti (started b st) = 0 /\ tick (started b st) = 0 /\
  thread_cnt (started b st) = configured_threads b /\
  measurement_interval (started b st) = configured_interval b /\
  frequency (started b st) = frequency st /\
  bandwidth (started b st) = bandwidth st /\
  restart (started b st) = restart st /\
  sample_rate (started b st) = search_sample_rate (started b st) /\
  search_sample_rate (started b st)
  = match modem_sdr_search_sample_rate_hz (b_config b) with
    | Some v => wrap32 v
    | None => sample_rate st
    end.
Proof.
  split; [split|split].
  - intros (st' & tr & H). exact (startup_ok_inv _ _ _ _ H).
  - intros (f0 & f1 & H). do 2 eexists. exact (startup_exact b st f0 f1 H).
  - intros f0 f1. apply startup_exact.
  - unfold started, counters_started, processors_created, configured,
      configured_threads, configured_interval.
    destruct (modem_sdr_search_sample_rate_hz (b_config b)),
      (modem_sdr_normalized_gain (b_config b)),
      (modem_sdr_antenna (b_config b)),
      (modem_sdr_use_agc (b_config b)),
      (modem_phy_threads (b_config b)),
      (modem_measurement_file_enabled (b_config b)),
      (modem_measurement_file_interval_secs (b_config b));
      repeat split; reflexivity.
Qed.






Lemma startup_lists_devices b st :
  b_config_read b = read_ok -> list_sdr_devices (b_arguments b) = true ->
  startup b st = Stop (exit 0).
Proof.
  intros Hc Hl. apply bind_Stop. unfold read_configuration.
  rewrite Hc, Hl. reflexivity.
Qed.

Lemma startup_sdr_init_fails b st :
  b_config_read b = read_ok -> list_sdr_devices (b_arguments b) = false ->
  b_sdr_init b = false -> startup b st = Stop (exit 1).
Proof.
  intros Hc Hl Hi. apply bind_Stop. unfold read_configuration.
  rewrite Hc, Hl, Hi. reflexivity.
Qed.

Lemma startup_no_list b st :
  reaches_frequencies b -> b_frequencies_read b = read_ok ->
  b_center_frequencies_hz b = None -> startup b st = Stop uncaught_exception.
Proof.
  intros Hreach Hf He. apply bind_Stop. run_configuration Hreach.
  unfold parseFrequenciesFromConfig. rewrite Hf, He. reflexivity.
Qed.

Lemma read_configuration_unreadable' b st :
  b_config_read b <> read_ok -> startup b st = Stop (exit 1).
Proof. intros H. apply bind_Stop, read_configuration_unreadable, H. Qed.

Lemma startup_no_frequencies b st :
  reaches_frequencies b -> b_frequencies_read b <> read_ok ->
  startup b st = Stop (exit 1).
Proof. intros Hr H. apply bind_Stop, read_configuration_no_list; assumption. Qed.

Lemma startup_unparsable b st entries :
  reaches_frequencies b -> b_frequencies_read b = read_ok ->
  b_center_frequencies_hz b = Some entries -> In None entries ->
  startup b st = Stop (exit 1).
Proof.
  intros Hr Hf He Hin. apply bind_Stop.
  apply (read_configuration_unparsable b st entries); assumption.
Qed.

(** X5: the ways a start-up ends before the run loop.  Status 0 is the
    list of SDR devices and nothing else; a missing list of centre
    frequencies is an uncaught exception; an index out of bounds is the
    length of a parsed list of fewer than two frequencies; every other end
    is exit status 1.  A readable configuration with the device list asked
    for always ends with status 0, before the SDR is initialised or a
    frequency is read. *)
Theorem startup_stop_reasons b st :
  (forall why,
      startup b st = Stop why ->
      (why = exit 0 /\ b_config_read b = read_ok /\
       list_sdr_devices (b_arguments b) = true) \/
      why = exit 1 \/
      (why = uncaught_exception /\ b_center_frequencies_hz b = None) \/
      (exists fs,
          frequencies_parsed b fs /\ (List.length fs < 2)%nat /\
          why = out_of_bounds (Z.of_nat (List.length fs))
                  (Z.of_nat (List.length fs)))) /\
  (b_config_read b = read_ok -> list_sdr_devices (b_arguments b) = true ->
   startup b st = Stop (exit 0)).
Proof.
  split; [|apply startup_lists_devices].
  intros why Hstop.
  destruct (b_config_read b) eqn:Hc;
    [|rewrite read_configuration_unreadable' in Hstop; inversion Hstop; auto
     |rewrite read_configuration_unreadable' in Hstop; inversion Hstop; auto];
    try (rewrite Hc; discriminate).
  destruct (list_sdr_devices (b_arguments b)) eqn:Hl.
  { rewrite (startup_lists_devices b st Hc Hl) in Hstop. inversion Hstop. auto. }
  destruct (b_sdr_init b) eqn:Hi;
    [|rewrite (startup_sdr_init_fails b st Hc Hl Hi) in Hstop; inversion Hstop; auto].
  assert (Hreach : reaches_frequencies b) by (repeat split; assumption).
  destruct (b_frequencies_read b) eqn:Hf;
    [|rewrite startup_no_frequencies in Hstop; [inversion Hstop; auto | exact Hreach | rewrite Hf; discriminate]
     |rewrite startup_no_frequencies in Hstop; [inversion Hstop; auto | exact Hreach | rewrite Hf; discriminate]].
  destruct (b_center_frequencies_hz b) as [entries|] eqn:He;
    [|rewrite (startup_no_list b st Hreach Hf He) in Hstop; inversion Hstop; auto].
  destruct (entries_parsed_or_not entries) as [(fs & ->) | Hin];
    [|rewrite (startup_unparsable b st entries Hreach Hf He Hin) in Hstop;
      inversion Hstop; auto].
  assert (Hparsed : frequencies_parsed b fs) by (split; assumption).
  destruct fs as [|f0 [|f1 more]].
  - rewrite (startup_first_missing b st Hreach Hparsed) in Hstop.
    inversion Hstop. right. right. right. exists []. cbn. auto.
  - destruct (Z.leb_spec f0 UINT_MAX) as [Hf0|Hf0].
    + rewrite (startup_second_missing b st f0 Hreach Hparsed Hf0) in Hstop.
      inversion Hstop. right. right. right. exists [f0]. cbn. auto.
    + rewrite (startup_first_too_large b st _ f0 Hreach Hparsed eq_refl Hf0) in Hstop.
      inversion Hstop. auto.
  - destruct (Z.leb_spec f0 UINT_MAX) as [Hf0|Hf0];
      [|rewrite (startup_first_too_large b st _ f0 Hreach Hparsed eq_refl Hf0) in Hstop;
        inversion Hstop; auto].
    destruct (Z.leb_spec f1 UINT_MAX) as [Hf1|Hf1];
      [|rewrite (startup_second_too_large b st _ f0 f1 Hreach Hparsed eq_refl Hf0 eq_refl Hf1)
          in Hstop; inversion Hstop; auto].
    destruct (startup_two_candidates b st _ f0 f1 Hreach Hparsed eq_refl Hf0 eq_refl Hf1)
      as [(st' & tr & Hrun & _) | Hexit]; rewrite Hstop in *.
    + discriminate.
    + inversion Hexit. auto.
Qed.

(** ** The passes of the run loop, exactly *)

Lemma attempts_to_lock_bounds a : forall n from c,
  attempts_to_lock a from n = Some c ->
  (1 <= c <= n)%nat /\
  a_synchronize_subframe a (from + (c - 1)) = true /\
  forall j, (j < c - 1)%nat -> a_synchronize_subframe a (from + j) = false.
Proof.
  induction n as [|n IH]; intros from c H; cbn [attempts_to_lock] in H; [discriminate|].
  destruct (a_synchronize_subframe a from) eqn:Ha.
  - inversion H; subst. cbn. rewrite Nat.add_0_r.
    split; [lia|]. split; [exact Ha|]. intros j Hj. lia.
  - destruct (attempts_to_lock a (S from) n) as [c'|] eqn:Hrec; [|discriminate].
    inversion H; subst. destruct (IH _ _ Hrec) as (Hc & Hlast & Hbefore).
    split; [lia|]. split.
    + replace (from + (S c' - 1))%nat with (S from + (c' - 1))%nat by lia. exact Hlast.
    + intros j Hj. destruct j as [|j]; [rewrite Nat.add_0_r; exact Ha|].
      replace (from + S j)%nat with (S from + j)%nat by lia. apply Hbefore. lia.
Qed.

Lemma attempts_to_lock_none a : forall n from,
  attempts_to_lock a from n = None ->
  forall j, (j < n)%nat -> a_synchronize_subframe a (from + j) = false.
Proof.
  induction n as [|n IH]; intros from H j Hj; [lia|]. cbn [attempts_to_lock] in H.
  destruct (a_synchronize_subframe a from) eqn:Ha; [discriminate|].
  destruct (attempts_to_lock a (S from) n) eqn:Hrec; [discriminate|].
  destruct j as [|j]; [rewrite Nat.add_0_r; exact Ha|].
  replace (from + S j)%nat with (S from + j)%nat by lia. apply (IH _ Hrec). lia.
Qed.

(** The [while] of the syncing branch stops at the first call that locks,
    with the calls left in [max_frames], or after [max_frames] calls with
    the counter wrapped. *)
Lemma sync_while_attempts a st : forall n fuel calls,
  (n < fuel)%nat -> Z.of_nat n < 2 ^ 32 ->
  sync_while fuel a calls false (Z.of_nat n) st
  = match attempts_to_lock a calls n with
    | Some c => Ok (true, Z.of_nat n - Z.of_nat c) st (repeat phy_synchronize_subframe c)
    | None => Ok (false, 2 ^ 32 - 1) st (repeat phy_synchronize_subframe n)
    end.
Proof.
  induction n as [|n IH]; intros fuel calls Hfuel Hn;
    (destruct fuel as [|fuel]; [lia|]); cbn [sync_while negb attempts_to_lock].
  - reflexivity.
  - destruct (Z.ltb_spec 0 (Z.of_nat (S n))) as [_|Hneg]; [|lia].
    cbv [bind call]. rewrite wrap32_small by lia.
    replace (Z.of_nat (S n) - 1) with (Z.of_nat n) by lia.
    destruct (a_synchronize_subframe a calls).
    + rewrite sync_while_locked. cbn [app repeat].
      replace (Z.of_nat (S n) - Z.of_nat 1) with (Z.of_nat n) by lia. reflexivity.
    + rewrite IH by lia.
      destruct (attempts_to_lock a (S calls) n) as [c|]; cbn [option_map app repeat].
      * replace (Z.of_nat (S n) - Z.of_nat (S c)) with (Z.of_nat n - Z.of_nat c) by lia.
        reflexivity.
      * reflexivity.
Qed.

Lemma unlock_all_exact n : forall i st,
  unlock_all n i st = Ok tt st (unlock_calls n i).
Proof.
  induction n as [|n IH]; intros i st; [reflexivity|].
  cbn [unlock_all]. cbv [bind call]. rewrite IH. unfold unlock_calls.
  cbn [seq map app]. rewrite Z.add_0_r. do 2 f_equal.
  rewrite <- seq_shift, map_map. apply map_ext. intros k. f_equal. lia.
Qed.

Lemma syncing_pass_exact a st :
  syncing_pass a st
  = match attempts_to_lock a 0 200 with
    | Some c =>
        Ok tt (set_state processing (set_tti (a_tti a) st))
          (repeat phy_synchronize_subframe c ++ locked_calls a st)
    | None => Ok tt st (repeat phy_synchronize_subframe 200)
    end.
Proof.
  unfold syncing_pass. unfold bind at 1.
  change 200 with (Z.of_nat 200) at 1.
  rewrite (sync_while_attempts a st 200 201 0) by (cbn; lia).
  destruct (attempts_to_lock a 0 200) as [c|] eqn:Hc.
  - assert (Hz : (Z.of_nat 200 - Z.of_nat c =? 0) && negb true = false)
      by apply andb_false_r.
    rewrite Hz. cbv [when bind ret call get modify]. cbn [thread_cnt].
    rewrite unlock_all_exact. unfold locked_calls. cbn [app].
    rewrite ?app_nil_r. reflexivity.
  - assert (Hz : (2 ^ 32 - 1 =? 0) && negb false = false) by reflexivity.
    rewrite Hz. cbv [when bind ret]. cbn [app]. rewrite ?app_nil_r. reflexivity.
Qed.

Ltac unfold_searching :=
  unfold searching_pass;
  cbv [load_restart tune_at bind ret call get modify when stop
       set_sample_rate set_bandwidth set_mbsfn_nof_prb set_cas_nof_prb
       set_state set_restart];
  cbn [sample_rate search_sample_rate frequency bandwidth gain antenna use_agc
       mbsfn_nof_prb cas_nof_prb restart opts thread_cnt
       enable_measurement_file state tti measurement_interval tick app].

Lemma searching_pass_no_cell srate a st :
  a_cell_search a = false ->
  searching_pass srate a st
  = Ok tt (search_begun st) (search_calls st ++ [sleep 1]).
Proof.
  intros Hc. unfold_searching. unfold search_begun, search_calls. rewrite Hc.
  destruct (restart st) eqn:Hr; reflexivity.
Qed.

Lemma searching_pass_from_file srate a st :
  a_cell_search a = true -> file_mode st = true ->
  searching_pass srate a st
  = Ok tt (set_state syncing
             (set_mbsfn_nof_prb (file_bw (opts st) * 5)
                (set_cas_nof_prb (a_nr_prb a) (search_begun st))))
      (search_calls st ++
       [phy_nr_prb; phy_set_nof_mbsfn_prb (file_bw (opts st) * 5); phy_set_cell]).
Proof.
  unfold file_mode. intros Hc Hf. unfold_searching. unfold search_begun, search_calls.
  rewrite Hc. destruct (restart st) eqn:Hr; cbn; rewrite Hf; reflexivity.
Qed.

Lemma searching_pass_from_air srate a st :
  a_cell_search a = true -> file_mode st = false ->
  searching_pass srate a st
  = Ok tt (set_state syncing
             (set_bandwidth (filter_bandwidth (a_nr_prb a))
                (set_mbsfn_nof_prb (a_nr_prb a)
                   (set_cas_nof_prb (a_nr_prb a) (search_begun st)))))
      (search_calls st ++
       [phy_nr_prb; phy_nr_prb; phy_nr_prb; sdr_stop;
        sdr_tune (frequency st) (wrap32 (srate (a_nr_prb a)))
                 (filter_bandwidth (a_nr_prb a)) (gain st) (antenna st) (use_agc st);
        sdr_start]).
Proof.
  unfold file_mode. intros Hc Hf. unfold_searching. unfold search_begun, search_calls.
  rewrite Hc. destruct (restart st) eqn:Hr; cbn; rewrite Hf; reflexivity.
Qed.

Lemma tunes_at_app st tr1 tr2 :
  tunes_at st tr1 -> tunes_at st tr2 -> tunes_at st (tr1 ++ tr2).
Proof. intros H1 H2. apply Forall_app. split; assumption. Qed.

Lemma tunes_at_kept st st' tr :
  settings_kept st st' -> tunes_at st' tr -> tunes_at st tr.
Proof.
  intros (Hf & Hg & Ha & Hu & _) H. unfold tunes_at in *.
  rewrite Hf, Hg, Ha, Hu in H. exact H.
Qed.

Lemma settings_kept_trans st1 st2 st3 :
  settings_kept st1 st2 -> settings_kept st2 st3 -> settings_kept st1 st3.
Proof. unfold settings_kept. intuition congruence. Qed.

Ltac tunes_ok :=
  unfold tunes_at; repeat (apply Forall_cons; [cbn; auto|]); try apply Forall_nil.

Lemma tunes_at_search_calls st : tunes_at st (search_calls st).
Proof. unfold search_calls. destruct (restart st); cbn [app]; tunes_ok. Qed.

Lemma tunes_at_repeat st e n :
  (match e with sdr_tune _ _ _ _ _ _ => False | _ => True end) ->
  tunes_at st (repeat e n).
Proof.
  intros He. induction n as [|n IH]; cbn [repeat]; constructor; [|exact IH].
  destruct e; auto; contradiction.
Qed.

Lemma tunes_at_unlock_calls st n i : tunes_at st (unlock_calls n i).
Proof.
  unfold unlock_calls, tunes_at. apply Forall_map, Forall_forall. intros k _. exact I.
Qed.

Lemma tunes_at_telemetry st st0 : tunes_at st0 (telemetry_events st).
Proof.
  unfold telemetry_events.
  destruct (wrap32 (tick st + 1) mod measurement_interval st =? 0); [|constructor].
  destruct (enable_measurement_file st); tunes_ok.
Qed.

Lemma tunes_at_decode st a t i : tunes_at st (decode_calls a t i).
Proof.
  unfold decode_calls.
  destruct (a_mcch_configured a); [|tunes_ok].
  destruct (a_is_mbsfn_subframe a); [|tunes_ok].
  destruct (a_mbsfn_configured a); cbn [app]; tunes_ok.
Qed.

Lemma assigned_workers_none tr :
  Forall (fun e => match e with log_sending_to_mbsfn_proc _ _ => False | _ => True end) tr ->
  assigned_workers tr = [].
Proof.
  induction 1 as [|e tr He _ IH]; [reflexivity|].
  destruct e; cbn [assigned_workers]; auto; contradiction.
Qed.

Lemma assigned_workers_search_calls st : assigned_workers (search_calls st) = [].
Proof. unfold search_calls. destruct (restart st); reflexivity. Qed.

Lemma assigned_workers_repeat_sync n :
  assigned_workers (repeat phy_synchronize_subframe n) = [].
Proof. induction n as [|n IH]; [reflexivity | exact IH]. Qed.

Lemma assigned_workers_unlock_calls n i : assigned_workers (unlock_calls n i) = [].
Proof.
  unfold unlock_calls. apply assigned_workers_none, Forall_map, Forall_forall.
  intros k _. exact I.
Qed.

(** A searching pass, whatever it finds. *)
Lemma searching_pass_spec srate a st :
  exists st' tr,
    searching_pass srate a st = Ok tt st' (search_calls st ++ tr) /\
    state st' = (if a_cell_search a then syncing else state st) /\
    restart st' = false /\
    sample_rate st' = (if restart st then search_sample_rate st else sample_rate st) /\
    settings_kept st st' /\ tunes_at st tr /\ assigned_workers tr = [].
Proof.
  destruct (a_cell_search a) eqn:Hc; [destruct (file_mode st) eqn:Hf|].
  - rewrite (searching_pass_from_file srate a st Hc Hf). do 2 eexists.
    split; [reflexivity|]. unfold search_begun, settings_kept.
    destruct (restart st); cbn; repeat split; tunes_ok.
  - rewrite (searching_pass_from_air srate a st Hc Hf). do 2 eexists.
    split; [reflexivity|]. unfold search_begun, settings_kept.
    destruct (restart st); cbn; repeat split; tunes_ok.
  - rewrite (searching_pass_no_cell srate a st Hc). do 2 eexists.
    split; [reflexivity|]. unfold search_begun, settings_kept.
    destruct (restart st); cbn; repeat split; tunes_ok.
Qed.

Lemma tunes_at_path srate a i st st1 tr :
  subframe_path srate a i st st1 tr -> tunes_at st tr /\ settings_kept st st1.
Proof.
  intros Hp. inversion Hp; subst;
    unfold recovery_cas_order, recovery_mbsfn_order, extension_calls, settings_kept;
    (split; [cbn [app]; tunes_ok | cbn; repeat split]).
  destruct (a_mcch_configured a);
    [destruct (a_is_mbsfn_subframe a); [destruct (a_mbsfn_configured a)|]|];
    cbn [app]; tunes_ok.
Qed.

Lemma state_of_path srate a i st st1 tr :
  subframe_path srate a i st st1 tr ->
  state st = processing ->
  state st1 = next_state a st.
Proof.
  intros Hp Hs. unfold next_state. rewrite Hs.
  inversion Hp; subst;
    repeat match goal with H : _ = _ |- _ => rewrite H end;
    cbn [negb andb]; try reflexivity.
  - rewrite Z.eqb_refl. cbn. exact Hs.
  - destruct (Z.eqb_spec (a_nof_mbsfn_prb a) (mbsfn_nof_prb st)); [contradiction|].
    reflexivity.
  - cbn. exact Hs.
Qed.

Lemma assigned_workers_path srate a i st st1 tr :
  subframe_path srate a i st st1 tr ->
  assigned_workers tr = if a_is_cas_subframe a then [] else [i].
Proof.
  intros Hp. inversion Hp; subst;
    match goal with H : a_is_cas_subframe a = _ |- _ => rewrite H end;
    unfold recovery_cas_order, recovery_mbsfn_order, extension_calls;
    cbn [assigned_workers app]; try reflexivity.
  rewrite assigned_workers_decode. reflexivity.
Qed.

(** A pass of the run loop: it is defined on a state that fulfils the
    invariant, keeps the invariant and the settings, follows the table of
    transitions, tunes at the settings only, and names a worker exactly on
    a broadcast subframe. *)
Lemma run_pass_spec srate a p st :
  loop_invariant st p ->
  exists p' st' tr,
    run_pass srate a p st = Ok p' st' tr /\
    loop_invariant st' p' /\
    state st' = next_state a st /\
    settings_kept st st' /\
    tunes_at st tr /\
    (state st <> processing -> p' = loop_head /\ assigned_workers tr = []) /\
    (state st = processing ->
     p' = in_processing (if a_is_cas_subframe a then cursor_of p
                         else (cursor_of p + 1) mod thread_cnt st) /\
     assigned_workers tr = if a_is_cas_subframe a then [] else [cursor_of p]).
Proof.
  intros (Hn & Hmi & Hp). unfold run_pass. unfold bind at 1. unfold get.
  destruct (state st) eqn:Hs.
  - destruct (searching_pass_spec srate a st)
      as (st' & tr & Hrun & Hst & _ & _ & Hkept & Htune & Hw).
    exists loop_head, st', (search_calls st ++ tr).
    rewrite (bind_Ok _ (fun _ => ret loop_head) _ _ _ _ _ _ _ Hrun eq_refl).
    rewrite !app_nil_r. split; [reflexivity|].
    pose proof Hkept as (_ & _ & _ & _ & _ & _ & Hcnt & Hint & _).
    split; [unfold loop_invariant; rewrite Hcnt, Hint; auto|].
    split; [unfold next_state; rewrite Hs, Hst; rewrite Hs; reflexivity|].
    split; [exact Hkept|].
    split; [apply tunes_at_app; [apply tunes_at_search_calls | exact Htune]|].
    split; [|intros H; discriminate H].
    intros _. split; [reflexivity|].
    rewrite assigned_workers_app, assigned_workers_search_calls, Hw. reflexivity.
  - unfold bind. rewrite syncing_pass_exact. unfold next_state. rewrite Hs.
    destruct (attempts_to_lock a 0 200) as [c|].
    + do 3 eexists. split; [cbn [ret app]; reflexivity|].
      split; [unfold loop_invariant; cbn; auto|].
      split; [reflexivity|].
      split; [unfold settings_kept; cbn; repeat split|].
      rewrite !app_nil_r.
      split; [|split; [|intros H; discriminate H]].
      * apply tunes_at_app; [apply tunes_at_repeat; exact I|].
        unfold locked_calls. apply tunes_at_app; [tunes_ok|].
        apply tunes_at_app; [apply tunes_at_unlock_calls | tunes_ok].
      * intros _. split; [reflexivity|]. unfold locked_calls.
        rewrite !assigned_workers_app, assigned_workers_repeat_sync,
          assigned_workers_unlock_calls. reflexivity.
    + do 3 eexists. split; [cbn [ret app]; reflexivity|].
      split; [unfold loop_invariant; auto|].
      split; [exact Hs|].
      split; [unfold settings_kept; repeat split|].
      rewrite !app_nil_r.
      split; [apply tunes_at_repeat; exact I|].
      split; [|intros H; discriminate H].
      intros _. split; [reflexivity | apply assigned_workers_repeat_sync].
  - assert (Hwf : well_formed st (cursor_of p)).
    { unfold well_formed, cursor_of. destruct p; repeat split; try lia; exact Hmi. }
    destruct (processing_body_cases srate a _ st Hwf)
      as (i' & st1 & tr & Hrun & Hpath & Hfr & (Hi' & Hn' & Hmi')).
    destruct Hfr as (_ & _ & Hcnt & _ & _ & _ & _ & Hieq).
    destruct (tunes_at_path _ _ _ _ _ _ Hpath) as (Htune & Hkept).
    exists (in_processing i'), (set_tick (wrap32 (tick st + 1)) st1),
      (phy_is_cas_subframe (next_tti (tti st)) :: tr ++ telemetry_events st).
    fold (cursor_of p).
    rewrite (bind_Ok _ (fun i => ret (in_processing i)) _ _ _ _ _ _ _ Hrun eq_refl).
    rewrite !app_nil_r. split; [reflexivity|].
    split; [unfold loop_invariant; repeat split; try lia; exact Hmi'|].
    split; [cbn [state set_tick]; apply (state_of_path _ _ _ _ _ _ Hpath Hs)|].
    split; [unfold settings_kept in *; cbn; exact Hkept|].
    split; [|split; [intros H; congruence|]].
    + unfold tunes_at. apply Forall_cons; [exact I|]. apply Forall_app. split;
        [exact Htune | apply tunes_at_telemetry].
    + intros _. split; [rewrite Hieq; reflexivity|].
      cbn [assigned_workers].
      rewrite assigned_workers_app, assigned_workers_telemetry, app_nil_r.
      apply (assigned_workers_path _ _ _ _ _ _ Hpath).
Qed.

(** ** The receiver as a state machine *)

(** X6: every pass of the run loop moves the receiver as the table
    [next_state] says, from the answers of that pass alone: searching goes
    to syncing when a cell is found and stays otherwise; syncing goes to
    processing when one of the 200 attempts locks and stays otherwise;
    processing stays on a subframe whose frame is retrieved, goes to
    syncing when a CAS subframe shows another MBSFN width, and goes to
    searching when a restart is pending or the frame is lost.  So no pass
    takes searching to processing or syncing to searching. *)
Theorem run_pass_follows_next_state srate a p st :
  loop_invariant st p ->
  exists p' st' tr,
    run_pass srate a p st = Ok p' st' tr /\
    state st' = next_state a st /\
    (state st = searching -> state st' <> processing) /\
    (state st = syncing -> state st' <> searching).
Proof.
  intros Hinv.
  destruct (run_pass_spec srate a p st Hinv) as (p' & st' & tr & Hrun & _ & Hst & _).
  exists p', st', tr. split; [exact Hrun|]. split; [exact Hst|].
  rewrite Hst. unfold next_state. split; intros ->.
  - destruct (a_cell_search a); discriminate.
  - destruct (attempts_to_lock a 0 200); discriminate.
Qed.

Lemma run_pass_follows_next_state_witness :
  loop_invariant camped loop_head /\
  exists p' st' tr,
    run_pass sampling_freq_table (subframe true true 40) loop_head camped
    = Ok p' st' tr /\
    state st' = next_state (subframe true true 40) camped.
Proof.
  assert (Hinv : loop_invariant camped loop_head)
    by (unfold loop_invariant; cbn; repeat split; (lia || discriminate)).
  split; [exact Hinv|].
  destruct (run_pass_follows_next_state sampling_freq_table (subframe true true 40)
              loop_head camped Hinv) as (p' & st' & tr & Hrun & Hst & _).
  exists p', st', tr. auto.
Defined.

(** X7: a syncing pass calls [phy.synchronize_subframe] until the first
    call that succeeds and at most 200 times.  When a call succeeds, the
    200th too, it asks the PHY for the TTI to log it, sets the cell in the
    CAS processor, unlocks each of the [thread_cnt] MBSFN processors once,
    in the order of their indices, asks for the TTI again and stores it,
    resets the RRC, enables the writing of samples and goes to processing,
    changing nothing else; when none succeeds it has made 200 calls and
    changed nothing. *)
Theorem syncing_pass_locks_or_stays a st :
  match attempts_to_lock a 0 200 with
  | Some c =>
      (1 <= c <= 200)%nat /\
      a_synchronize_subframe a (c - 1) = true /\
      (forall j, (j < c - 1)%nat -> a_synchronize_subframe a j = false) /\
      syncing_pass a st
      = Ok tt (set_state processing (set_tti (a_tti a) st))
          (repeat phy_synchronize_subframe c ++
           [phy_tti; phy_cell; cas_set_cell (a_cell a)] ++
           map (fun k => mbsfn_unlock (Z.of_nat k))
               (seq 0 (Z.to_nat (thread_cnt st))) ++
           [phy_tti; rrc_reset; sdr_enableSampleFileWriting])
  | None =>
      (forall j, (j < 200)%nat -> a_synchronize_subframe a j = false) /\
      syncing_pass a st = Ok tt st (repeat phy_synchronize_subframe 200)
  end.
Proof.
  pose proof (syncing_pass_exact a st) as Hrun.
  destruct (attempts_to_lock a 0 200) as [c|] eqn:Hc.
  - destruct (attempts_to_lock_bounds a _ _ _ Hc) as (Hb & Hlast & Hbefore).
    split; [exact Hb|]. split; [exact Hlast|]. split; [exact Hbefore|].
    rewrite Hrun. reflexivity.
  - split; [|exact Hrun]. exact (attempts_to_lock_none a _ _ Hc).
Qed.

(** X8: the cursor of the dispatch does not outlive the [while] of the
    processing branch.  When a broadcast subframe at cursor [c] ends the
    loop, and a cell is found and synchronised again, the next broadcast
    subframe goes to worker 0, not to worker [c + 1]. *)
Theorem cursor_starts_over_after_recovery srate a1 a2 a3 a4 c st :
  loop_invariant st (in_processing c) ->
  state st = processing ->
  a_is_cas_subframe a1 = false ->
  negb (restart st) && a_get_next_frame a1 = false ->
  a_cell_search a2 = true ->
  attempts_to_lock a3 0 200 <> None ->
  a_is_cas_subframe a4 = false ->
  exists st' tr,
    run_loop srate [a1; a2; a3; a4] (in_processing c) st
    = Ok (in_processing (1 mod thread_cnt st)) st' tr /\
    assigned_workers tr = [c; 0].
Proof.
  intros Hinv Hs Hcas1 Hfail Hcell Hlock Hcas4.
  destruct (run_pass_spec srate a1 _ st Hinv)
    as (p1 & st1 & tr1 & Hrun1 & Hinv1 & Hst1 & Hk1 & _ & _ & Hw1).
  destruct (Hw1 Hs) as (_ & Hw1'). rewrite Hcas1 in Hw1'. cbn [cursor_of] in Hw1'.
  unfold next_state in Hst1. rewrite Hs, Hfail in Hst1.
  destruct (run_pass_spec srate a2 p1 st1 Hinv1)
    as (p2 & st2 & tr2 & Hrun2 & Hinv2 & Hst2 & Hk2 & _ & Hw2 & _).
  destruct (Hw2 ltac:(congruence)) as (-> & Hw2').
  unfold next_state in Hst2. rewrite Hst1, Hcell in Hst2.
  destruct (run_pass_spec srate a3 loop_head st2 Hinv2)
    as (p3 & st3 & tr3 & Hrun3 & Hinv3 & Hst3 & Hk3 & _ & Hw3 & _).
  destruct (Hw3 ltac:(congruence)) as (-> & Hw3').
  unfold next_state in Hst3. rewrite Hst2 in Hst3.
  destruct (attempts_to_lock a3 0 200) eqn:Hl; [|contradiction].
  destruct (run_pass_spec srate a4 loop_head st3 Hinv3)
    as (p4 & st4 & tr4 & Hrun4 & _ & Hst4 & Hk4 & _ & _ & Hw4).
  destruct (Hw4 Hst3) as (-> & Hw4'). rewrite Hcas4 in *. cbn [cursor_of] in *.
  assert (Hcnt : thread_cnt st3 = thread_cnt st).
  { destruct Hk1 as (_ & _ & _ & _ & _ & _ & H1 & _).
    destruct Hk2 as (_ & _ & _ & _ & _ & _ & H2 & _).
    destruct Hk3 as (_ & _ & _ & _ & _ & _ & H3 & _). congruence. }
  rewrite Hcnt in Hrun4.
  exists st4, (tr1 ++ tr2 ++ tr3 ++ tr4 ++ []). cbn [run_loop].
  split.
  - eapply bind_Ok; [exact Hrun1|]. eapply bind_Ok; [exact Hrun2|].
    eapply bind_Ok; [exact Hrun3|]. eapply bind_Ok; [exact Hrun4|]. reflexivity.
  - rewrite !assigned_workers_app, Hw1', Hw2', Hw3', Hw4'. reflexivity.
Qed.

Lemma cursor_starts_over_witness :
  loop_invariant camped (in_processing 2) /\
  exists st' tr,
    run_loop sampling_freq_table
      [subframe false false 25; subframe true true 25; subframe true true 25;
       subframe false true 25] (in_processing 2) camped
    = Ok (in_processing (1 mod thread_cnt camped)) st' tr /\
    assigned_workers tr = [2; 0].
Proof.
  assert (Hinv : loop_invariant camped (in_processing 2))
    by (unfold loop_invariant; cbn; repeat split; (lia || discriminate)).
  split; [exact Hinv|].
  apply (cursor_starts_over_after_recovery sampling_freq_table
           (subframe false false 25) (subframe true true 25)
           (subframe true true 25) (subframe false true 25) 2 camped Hinv);
    try reflexivity.
  cbn. discriminate.
Defined.

(** ** The settings of the radio *)

Lemma run_loop_spec srate passes : forall p st,
  loop_invariant st p ->
  exists p' st' tr,
    run_loop srate passes p st = Ok p' st' tr /\
    loop_invariant st' p' /\ settings_kept st st' /\ tunes_at st tr.
Proof.
  induction passes as [|a rest IH]; intros p st Hinv.
  - exists p, st, []. split; [reflexivity|]. split; [exact Hinv|].
    split; [unfold settings_kept; repeat split | constructor].
  - destruct (run_pass_spec srate a p st Hinv)
      as (p1 & st1 & tr1 & Hrun1 & Hinv1 & _ & Hk1 & Ht1 & _).
    destruct (IH p1 st1 Hinv1) as (p2 & st2 & tr2 & Hrun2 & Hinv2 & Hk2 & Ht2).
    exists p2, st2, (tr1 ++ tr2). cbn [run_loop].
    split; [exact (bind_Ok _ _ _ _ _ _ _ _ _ Hrun1 Hrun2)|].
    split; [exact Hinv2|].
    split; [exact (settings_kept_trans _ _ _ Hk1 Hk2)|].
    apply tunes_at_app; [exact Ht1 | exact (tunes_at_kept _ _ _ Hk1 Ht2)].
Qed.

(** X9: the centre frequencies of the configuration reach the radio in the
    two tunes of the start-up only.  The start-up leaves the static
    [frequency] at its initial 667000000, no pass of the run loop changes
    it (nor the gain, the antenna, the AGC setting or the search sample
    rate), and every [sdr.tune] of the run loop is at these values,
    whatever the collaborators answer. *)
Theorem run_loop_tunes_at_initial_frequency srate b passes f0 f1 :
  startup_succeeds b f0 f1 ->
  0 < configured_threads b <= 2 ^ 31 ->
  configured_interval b <> 0 ->
  exists p st tr,
    main srate b passes
    = Ok p st (startup_calls b (configured b initial_modem) f0 f1 ++ tr) /\
    tunes_at (started b initial_modem) tr /\
    frequency (started b initial_modem) = 667000000 /\
    settings_kept (started b initial_modem) st.
Proof.
  intros Hok Hn Hmi.
  assert (Hinv : loop_invariant (started b initial_modem) loop_head).
  { unfold loop_invariant.
    replace (thread_cnt (started b initial_modem)) with (configured_threads b).
    replace (measurement_interval (started b initial_modem)) with (configured_interval b).
    - auto.
    - unfold started, counters_started, configured_interval.
      destruct (modem_measurement_file_interval_secs (b_config b)); reflexivity.
    - unfold started, counters_started, processors_created, configured_threads.
      destruct (modem_phy_threads (b_config b)),
        (modem_measurement_file_enabled (b_config b)),
        (modem_measurement_file_interval_secs (b_config b)); reflexivity. }
  destruct (run_loop_spec srate passes loop_head _ Hinv)
    as (p & st & tr & Hrun & _ & Hkept & Htune).
  exists p, st, tr. split; [|split; [exact Htune|split; [|exact Hkept]]].
  - unfold main.
    exact (bind_Ok _ _ _ _ _ _ _ _ _ (startup_exact b initial_modem f0 f1 Hok) Hrun).
  - unfold started, counters_started, processors_created, configured.
    destruct (modem_sdr_search_sample_rate_hz (b_config b)),
      (modem_sdr_normalized_gain (b_config b)),
      (modem_sdr_antenna (b_config b)),
      (modem_sdr_use_agc (b_config b)),
      (modem_phy_threads (b_config b)),
      (modem_measurement_file_enabled (b_config b)),
      (modem_measurement_file_interval_secs (b_config b)); reflexivity.
Qed.

Lemma run_loop_tunes_witness :
  startup_succeeds (boot_with [Some 474000000; Some 482000000] (fun _ => true))
    474000000 482000000 /\
  exists p st tr,
    main sampling_freq_table
      (boot_with [Some 474000000; Some 482000000] (fun _ => true))
      [subframe true true 25; subframe true true 25; subframe true false 25]
    = Ok p st
        (startup_calls (boot_with [Some 474000000; Some 482000000] (fun _ => true))
           (configured (boot_with [Some 474000000; Some 482000000] (fun _ => true))
              initial_modem) 474000000 482000000 ++ tr) /\
    tunes_at (started (boot_with [Some 474000000; Some 482000000] (fun _ => true))
                initial_modem) tr /\
    frequency (started (boot_with [Some 474000000; Some 482000000] (fun _ => true))
                 initial_modem) = 667000000.
Proof.
  assert (Hok : startup_succeeds
                  (boot_with [Some 474000000; Some 482000000] (fun _ => true))
                  474000000 482000000).
  { unfold startup_succeeds. split; [repeat split; reflexivity|].
    split; [exists [474000000; 482000000]; repeat split; reflexivity|].
    unfold UINT_MAX. repeat split; try lia; try reflexivity. }
  split; [exact Hok|].
  destruct (run_loop_tunes_at_initial_frequency sampling_freq_table _
              [subframe true true 25; subframe true true 25; subframe true false 25]
              _ _ Hok)
    as (p & st & tr & Hrun & Htune & Hf & _).
  - cbn. lia.
  - cbn. discriminate.
  - exists p, st, tr. auto.
Defined.

(** ** The receive buffers *)

Lemma locks_after_app tr1 tr2 held :
  locks_after (tr1 ++ tr2) held = locks_after tr2 (locks_after tr1 held).
Proof.
  revert held. induction tr1 as [|e tr1 IH]; intros held; [reflexivity|].
  destruct e; cbn [locks_after app]; try apply IH.
  destruct p; apply IH.
Qed.

Lemma locks_after_untouched tr held :
  Forall (fun e => match e with
                   | mbsfn_get_rx_buffer_and_lock _ | mbsfn_unlock _ => False
                   | pool_push (mbsfn_processor _) _ => False
                   | _ => True
                   end) tr ->
  locks_after tr held = held.
Proof.
  induction 1 as [|e tr He _ IH]; [reflexivity|].
  destruct e; cbn [locks_after]; try exact IH; try contradiction.
  destruct p; [exact IH | contradiction].
Qed.

Ltac no_locks :=
  apply locks_after_untouched; repeat (apply Forall_cons; [exact I|]); apply Forall_nil.

Lemma locks_after_telemetry st held : locks_after (telemetry_events st) held = held.
Proof.
  unfold telemetry_events.
  destruct (wrap32 (tick st + 1) mod measurement_interval st =? 0); [|reflexivity].
  destruct (enable_measurement_file st); reflexivity.
Qed.

Lemma remove_only i : remove Z.eq_dec i [i] = [].
Proof. cbn. destruct (Z.eq_dec i i); [reflexivity | contradiction]. Qed.

(** X10: an iteration of the processing loop that starts with no receive
    buffer held by the control thread ends with none held (the buffer it
    locked was handed to a decode task or unlocked) except when the frame
    of a broadcast subframe could not be retrieved: the buffer of that
    worker stays locked while the loop goes back to searching. *)
Theorem iteration_leaves_no_buffer_locked srate a i st :
  well_formed st i ->
  exists i' st' tr,
    processing_body srate a i st = Ok i' st' tr /\
    locks_after tr []
    = (if negb (a_is_cas_subframe a) && negb (restart st)
          && negb (a_get_next_frame a)
       then [i] else []) /\
    (locks_after tr [] = [i] -> state st' = searching).
Proof.
  intros Hwf.
  destruct (processing_body_cases srate a i st Hwf)
    as (i' & st1 & tr & Hrun & Hpath & _ & _).
  do 3 eexists. split; [exact Hrun|].
  cbn [locks_after]. rewrite locks_after_app, locks_after_telemetry.
  inversion Hpath; subst;
    repeat match goal with H : _ = _ |- _ => rewrite H end;
    cbn [negb andb];
    unfold recovery_cas_order, recovery_mbsfn_order, extension_calls;
    cbn [locks_after app]; try (split; [reflexivity | intros H'; try discriminate H'; reflexivity]).
  unfold decode_calls.
  destruct (a_mcch_configured a);
    [destruct (a_is_mbsfn_subframe a); [destruct (a_mbsfn_configured a)|]|];
    cbn [locks_after app]; rewrite ?remove_only;
    (split; [reflexivity | intros H'; discriminate H']).
Qed.

Lemma iteration_locks_witness :
  well_formed camped 3 /\
  exists i' st' tr,
    processing_body sampling_freq_table (subframe false false 25) 3 camped
    = Ok i' st' tr /\
    locks_after tr [] = [3] /\ state st' = searching.
Proof.
  assert (Hwf : well_formed camped 3)
    by (unfold well_formed; cbn; repeat split; (lia || discriminate)).
  split; [exact Hwf|].
  destruct (iteration_leaves_no_buffer_locked sampling_freq_table
              (subframe false false 25) 3 camped Hwf)
    as (i' & st' & tr & Hrun & Hl & Hs).
  exists i', st', tr. split; [exact Hrun|]. split; [exact Hl | exact (Hs Hl)].
Defined.

Lemma locks_after_unlock_calls n : forall i held x,
  In x (locks_after (unlock_calls n i) held) <->
  In x held /\ ~ (i <= x < i + Z.of_nat n).
Proof.
  induction n as [|n IH]; intros i held x.
  - cbn. split; [intros H; split; [exact H | lia] | intros (H & _); exact H].
  - unfold unlock_calls. cbn [seq map locks_after].
    rewrite <- seq_shift, map_map.
    assert (Hshift : map (fun k => mbsfn_unlock (i + Z.of_nat (S k))) (seq 0 n)
                     = unlock_calls n (i + 1)).
    { unfold unlock_calls. apply map_ext. intros k. f_equal. lia. }
    rewrite Hshift, IH. rewrite Z.add_0_r.
    split.
    + intros (Hin & Hout). apply in_remove in Hin. destruct Hin as (Hin & Hne).
      split; [exact Hin | lia].
    + intros (Hin & Hout). split; [|lia].
      apply in_in_remove; [lia | exact Hin].
Qed.

(** X11: a syncing pass that locks releases every buffer the control
    thread still holds: whatever buffers of the [thread_cnt] workers were
    left locked by lost frames, none is held when processing starts. *)
Theorem syncing_releases_every_buffer a st held :
  attempts_to_lock a 0 200 <> None ->
  Forall (fun i => 0 <= i < thread_cnt st) held ->
  exists st' tr,
    syncing_pass a st = Ok tt st' tr /\
    state st' = processing /\
    locks_after tr held = [].
Proof.
  intros Hlock Hheld. rewrite syncing_pass_exact.
  destruct (attempts_to_lock a 0 200) as [c|]; [|contradiction].
  do 2 eexists. split; [reflexivity|]. split; [reflexivity|].
  unfold locked_calls. rewrite !locks_after_app.
  assert (Hsync : locks_after (repeat phy_synchronize_subframe c) held = held).
  { apply locks_after_untouched. apply Forall_forall. intros e He.
    apply repeat_spec in He. subst e. exact I. }
  rewrite Hsync. cbn [locks_after].
  destruct (locks_after (unlock_calls (Z.to_nat (thread_cnt st)) 0) held) as [|x rest] eqn:Hl;
    [reflexivity|].
  assert (Hin : In x (locks_after (unlock_calls (Z.to_nat (thread_cnt st)) 0) held))
    by (rewrite Hl; left; reflexivity).
  apply locks_after_unlock_calls in Hin. destruct Hin as (Hin & Hout).
  rewrite Forall_forall in Hheld. specialize (Hheld x Hin). lia.
Qed.

Lemma syncing_releases_witness :
  exists st' tr,
    syncing_pass (subframe true true 25) (camped_at syncing 0) = Ok tt st' tr /\
    state st' = processing /\
    locks_after tr [3; 1] = [].
Proof.
  apply (syncing_releases_every_buffer (subframe true true 25) (camped_at syncing 0)
           [3; 1]).
  - cbn. discriminate.
  - repeat constructor; cbn; lia.
Defined.

(** ** Configured values the processing loop cannot run with *)

Lemma telemetry_zero_interval st :
  measurement_interval st = 0 -> telemetry st = Stop division_by_zero.
Proof.
  intros H. unfold telemetry. cbv [bind get modify]. cbn [measurement_interval set_tick].
  rewrite H. reflexivity.
Qed.

Lemma cas_subframe_defined srate a t st :
  exists st1 tr,
    cas_subframe srate a t st = Ok tt st1 tr /\
    measurement_interval st1 = measurement_interval st.
Proof.
  destruct (restart st) eqn:Hr.
  - rewrite (cas_subframe_restart srate a t st Hr). eauto.
  - destruct (a_get_next_frame a) eqn:Hf.
    + destruct (Z.eq_dec (a_nof_mbsfn_prb a) (mbsfn_nof_prb st)) as [Hw|Hw].
      * rewrite (cas_subframe_steady srate a t st Hr Hf Hw). eauto.
      * rewrite (cas_subframe_extension srate a t st Hr Hf Hw). eauto.
    + rewrite (cas_subframe_no_frame srate a t st Hr Hf). eauto.
Qed.

(** A broadcast subframe on any state: it runs, or the index is out of the
    vector of processors, or there is no processor to take the modulus by. *)
Lemma mbsfn_subframe_outcome a t i st :
  (exists i' st1 tr,
      mbsfn_subframe a t i st = Ok i' st1 tr /\
      measurement_interval st1 = measurement_interval st) \/
  (restart st = false /\ ~ (0 <= i < thread_cnt st) /\
   mbsfn_subframe a t i st = Stop (out_of_bounds i (thread_cnt st))) \/
  (restart st = true /\ thread_cnt st = 0 /\
   mbsfn_subframe a t i st = Stop division_by_zero).
Proof.
  destruct (restart st) eqn:Hr.
  - destruct (Z.eq_dec (thread_cnt st) 0) as [Hn|Hn].
    + right. right. split; [reflexivity|]. split; [exact Hn|].
      unfold mbsfn_subframe.
      cbv [load_restart tune_at bind ret call get modify when stop
           set_sample_rate set_state].
      cbn [restart search_sample_rate thread_cnt]. rewrite Hr.
      cbn [negb thread_cnt]. rewrite Hn. reflexivity.
    + left. rewrite (mbsfn_subframe_restart a t i st Hn Hr). eauto.
  - destruct (Z_le_dec 0 i) as [H0|H0]; [destruct (Z_lt_dec i (thread_cnt st)) as [H1|H1]|].
    + left. destruct (a_get_next_frame a) eqn:Hf.
      * rewrite (mbsfn_subframe_frame a t i st (conj H0 H1) Hr Hf). eauto.
      * rewrite (mbsfn_subframe_no_frame a t i st (conj H0 H1) Hr Hf). eauto.
    + right. left. split; [reflexivity|]. split; [lia|].
      unfold mbsfn_subframe.
      cbv [load_restart mbsfn_processors bind ret call get modify when stop].
      rewrite Hr. cbn [negb].
      destruct (Z.ltb_spec i (thread_cnt st)); [lia|]. rewrite andb_false_r. reflexivity.
    + right. left. split; [reflexivity|]. split; [lia|].
      unfold mbsfn_subframe.
      cbv [load_restart mbsfn_processors bind ret call get modify when stop].
      rewrite Hr. cbn [negb].
      destruct (Z.leb_spec 0 i); [lia|]. reflexivity.
Qed.

Lemma processing_body_stop srate a i st why :
  (if a_is_cas_subframe a
   then bind (cas_subframe srate a (next_tti (tti st))) (fun _ => ret i)
   else mbsfn_subframe a (next_tti (tti st)) i) (set_tti (next_tti (tti st)) st)
  = Stop why ->
  processing_body srate a i st = Stop why.
Proof.
  intros Hd. unfold processing_body.
  cbv [bind get modify]. cbn [tti set_tti call].
  change (mk_modem (sample_rate st) (search_sample_rate st) (frequency st)
            (bandwidth st) (gain st) (antenna st) (use_agc st) (mbsfn_nof_prb st)
            (cas_nof_prb st) (restart st) (opts st) (thread_cnt st)
            (enable_measurement_file st) (state st) (next_tti (tti st))
            (measurement_interval st) (tick st))
    with (set_tti (next_tti (tti st)) st).
  destruct (a_is_cas_subframe a).
  - cbv [bind ret] in Hd |- *.
    destruct (cas_subframe srate a (next_tti (tti st)) (set_tti (next_tti (tti st)) st));
      [discriminate | inversion Hd; reflexivity].
  - rewrite Hd. reflexivity.
Qed.

Lemma processing_body_stop_at_tick srate a i st i' st1 tr :
  (if a_is_cas_subframe a
   then bind (cas_subframe srate a (next_tti (tti st))) (fun _ => ret i)
   else mbsfn_subframe a (next_tti (tti st)) i) (set_tti (next_tti (tti st)) st)
  = Ok i' st1 tr ->
  measurement_interval st1 = 0 ->
  processing_body srate a i st = Stop division_by_zero.
Proof.
  intros Hd Hmi. unfold processing_body.
  cbv [bind get modify]. cbn [tti set_tti call].
  change (mk_modem (sample_rate st) (search_sample_rate st) (frequency st)
            (bandwidth st) (gain st) (antenna st) (use_agc st) (mbsfn_nof_prb st)
            (cas_nof_prb st) (restart st) (opts st) (thread_cnt st)
            (enable_measurement_file st) (state st) (next_tti (tti st))
            (measurement_interval st) (tick st))
    with (set_tti (next_tti (tti st)) st).
  destruct (a_is_cas_subframe a).
  - cbv [bind ret] in Hd |- *.
    destruct (cas_subframe srate a (next_tti (tti st)) (set_tti (next_tti (tti st)) st))
      as [u m1 t1|]; [|discriminate].
    inversion Hd; subst. rewrite (telemetry_zero_interval _ Hmi). reflexivity.
  - rewrite Hd. rewrite (telemetry_zero_interval _ Hmi). reflexivity.
Qed.

(** X12: with a measurement interval of 0 ticks, which a configured
    interval of 0 seconds gives and the start-up accepts, no iteration of
    the processing loop completes: the test of the tick divides by zero,
    unless the subframe has already indexed out of the processors. *)
Theorem zero_interval_stops_processing srate a i st :
  measurement_interval st = 0 ->
  (processing_body srate a i st = Stop division_by_zero \/
   (~ (0 <= i < thread_cnt st) /\
    processing_body srate a i st = Stop (out_of_bounds i (thread_cnt st)))) /\
  (forall b st0,
      modem_measurement_file_interval_secs (b_config b) = Some 0 ->
      measurement_interval (started b st0) = 0).
Proof.
  intros Hmi. split.
  - destruct (a_is_cas_subframe a) eqn:Hcas.
    + left.
      destruct (cas_subframe_defined srate a (next_tti (tti st))
                  (set_tti (next_tti (tti st)) st)) as (st1 & tr & Hrun & Hint).
      apply (processing_body_stop_at_tick srate a i st i st1 (tr ++ [])).
      * rewrite Hcas. exact (bind_Ok _ _ _ _ _ _ _ _ _ Hrun eq_refl).
      * rewrite Hint. exact Hmi.
    + destruct (mbsfn_subframe_outcome a (next_tti (tti st)) i
                  (set_tti (next_tti (tti st)) st))
        as [(i' & st1 & tr & Hrun & Hint) | [(_ & Hout & Hstop) | (_ & _ & Hstop)]].
      * left. apply (processing_body_stop_at_tick srate a i st i' st1 tr).
        -- rewrite Hcas. exact Hrun.
        -- rewrite Hint. exact Hmi.
      * right. split; [exact Hout|].
        apply processing_body_stop. rewrite Hcas. exact Hstop.
      * left. apply processing_body_stop. rewrite Hcas. exact Hstop.
  - intros b st0 H. unfold started, counters_started. rewrite H. reflexivity.
Qed.

Lemma zero_interval_witness :
  processing_body sampling_freq_table (subframe true true 25) 0
    (set_measurement_interval 0 camped) = Stop division_by_zero \/
  (~ (0 <= 0 < thread_cnt (set_measurement_interval 0 camped)) /\
   processing_body sampling_freq_table (subframe true true 25) 0
     (set_measurement_interval 0 camped)
   = Stop (out_of_bounds 0 (thread_cnt (set_measurement_interval 0 camped)))).
Proof.
  exact (proj1 (zero_interval_stops_processing sampling_freq_table
                  (subframe true true 25) 0 (set_measurement_interval 0 camped)
                  eq_refl)).
Defined.

(** X13: with no MBSFN processor, which a configured thread count of 0
    gives and the start-up accepts without creating one, no broadcast
    subframe can be handled: the first one indexes an empty vector, or,
    with a restart pending, takes the cursor modulo zero. *)
Theorem zero_threads_stops_broadcast srate a i st :
  thread_cnt st = 0 ->
  a_is_cas_subframe a = false ->
  processing_body srate a i st
  = Stop (if restart st then division_by_zero else out_of_bounds i 0) /\
  (forall b st0,
      modem_phy_threads (b_config b) = Some 0 ->
      thread_cnt (started b st0) = 0 /\
      (forall f0 f1,
          reaches_frequencies b ->
          (exists fs, frequencies_parsed b fs /\
                      nth_error fs 0 = Some f0 /\ nth_error fs 1 = Some f1) ->
          f0 <= UINT_MAX -> f1 <= UINT_MAX -> b_cas_init b = true ->
          startup b st0
          = Ok tt (started b st0) (startup_calls b (configured b st0) f0 f1))).
Proof.
  intros Hn Hcas. split.
  - apply processing_body_stop. rewrite Hcas.
    destruct (mbsfn_subframe_outcome a (next_tti (tti st)) i
                (set_tti (next_tti (tti st)) st))
      as [(i' & st1 & tr & Hrun & _) | [(Hr & _ & Hstop) | (Hr & _ & Hstop)]].
    + exfalso. revert Hrun.
      destruct (restart st) eqn:Hr.
      * unfold mbsfn_subframe.
        cbv [load_restart tune_at bind ret call get modify when stop
             set_sample_rate set_state set_tti].
        cbn [restart search_sample_rate thread_cnt]. rewrite Hr.
        cbn [negb thread_cnt]. rewrite Hn. discriminate.
      * unfold mbsfn_subframe.
        cbv [load_restart mbsfn_processors bind ret call get modify when stop set_tti].
        cbn [restart thread_cnt]. rewrite Hr. cbn [negb]. rewrite Hn.
        assert (Hb : (0 <=? i) && (i <? 0) = false)
          by (destruct (Z.leb_spec 0 i), (Z.ltb_spec i 0); try reflexivity; lia).
        cbn [thread_cnt]. rewrite Hb. discriminate.
    + cbn [restart set_tti thread_cnt] in Hr, Hstop. rewrite Hr, <- Hn. exact Hstop.
    + cbn [restart set_tti] in Hr. rewrite Hr. exact Hstop.
  - intros b st0 Hthreads. split.
    + unfold started, counters_started, processors_created. rewrite Hthreads.
      destruct (modem_measurement_file_enabled (b_config b)),
        (modem_measurement_file_interval_secs (b_config b)); reflexivity.
    + intros f0 f1 Hreach Hfs Hf0 Hf1 Hcasinit. apply startup_exact.
      unfold startup_succeeds. repeat (split; [assumption|]).
      unfold configured_threads. rewrite Hthreads. intros k Hk.
      change (Z.to_nat (wrap32 0)) with 0%nat in Hk. lia.
Qed.

Lemma zero_threads_witness :
  processing_body sampling_freq_table (subframe false true 25) 0
    (set_thread_cnt 0 camped)
  = Stop (out_of_bounds 0 0).
Proof.
  exact (proj1 (zero_threads_stops_broadcast sampling_freq_table
                  (subframe false true 25) 0 (set_thread_cnt 0 camped)
                  eq_refl eq_refl)).
Defined.

(** ** Requests of the RESTful API *)

Lemma set_params_run ant fc g sr bw st :
  set_params ant fc g sr bw st = Ok tt (requested ant fc g sr bw st) [].
Proof. reflexivity. Qed.

(** X14: after [set_params], the next searching pass stops the radio,
    tunes it to the requested frequency, bandwidth, gain and antenna and
    starts it again before it searches, and lowers the flag.  The sample
    rate requested is not used: the radio is tuned at the search sample
    rate, which also replaces the requested one in [sample_rate]. *)
Theorem set_params_applied_by_searching srate a ant fc g sr bw st :
  exists st' tr,
    (set_params ant fc g sr bw ;; searching_pass srate a) st
    = Ok tt st' (retune_calls ant fc g bw st ++ tr) /\
    restart st' = false /\
    sample_rate st' = search_sample_rate st /\
    frequency st' = wrap32 fc /\ gain st' = g /\ antenna st' = ant /\
    tunes_at st' tr.
Proof.
  destruct (searching_pass_spec srate a (requested ant fc g sr bw st))
    as (st' & tr & Hrun & _ & Hr & Hsr & Hkept & Htune & _).
  exists st', tr. split; [|split; [exact Hr|split; [exact Hsr|]]].
  - exact (bind_Ok _ _ _ _ _ _ _ _ _ (set_params_run ant fc g sr bw st) Hrun).
  - destruct Hkept as (Hf & Hg & Ha & Hu & _).
    split; [exact Hf|]. split; [exact Hg|]. split; [exact Ha|].
    unfold tunes_at in *. rewrite Hf, Hg, Ha, Hu. exact Htune.
Qed.

(** X15: a request of [set_params] that arrives during processing makes
    the next iteration retrieve no frame, lock no buffer and submit no
    decode: it recovers to searching, tuning the radio to the request at
    the search sample rate, and leaves the flag raised; the searching pass
    that follows tunes the radio to the same values once more, and only
    then is the flag lowered. *)
Theorem restart_in_processing_retunes_twice srate a1 a2 ant fc g sr bw i st :
  well_formed st i ->
  state st = processing ->
  exists st' tr1 tr2,
    (set_params ant fc g sr bw ;; run_loop srate [a1; a2] (in_processing i)) st
    = Ok loop_head st' (tr1 ++ retune_calls ant fc g bw st ++ tr2) /\
    Forall (fun e => is_frame_event e = false) tr1 /\
    In (sdr_tune (wrap32 fc) (search_sample_rate st) (wrap32 bw) g ant (use_agc st))
       tr1 /\
    In (sleep 1) tr1 /\
    restart st' = false.
Proof.
  intros Hwf Hs.
  pose (st0 := requested ant fc g sr bw st).
  assert (Hwf0 : well_formed st0 i) by exact Hwf.
  destruct (processing_body_cases srate a1 i st0 Hwf0)
    as (i1 & st1 & tr1 & Hrun1 & Hpath & _ & _).
  assert (Hpass1 : run_pass srate a1 (in_processing i) st0
                   = Ok (in_processing i1) (set_tick (wrap32 (tick st0 + 1)) st1)
                       (phy_is_cas_subframe (next_tti (tti st0))
                        :: tr1 ++ telemetry_events st0)).
  { unfold run_pass. unfold bind at 1. unfold get.
    change (state st0) with (state st). rewrite Hs.
    rewrite (bind_Ok _ (fun k => ret (in_processing k)) _ _ _ _ _ _ _ Hrun1 eq_refl).
    cbn [app]. rewrite !app_nil_r. reflexivity. }
  assert (Hshape : state st1 = searching /\ restart st1 = true /\
                   search_sample_rate st1 = search_sample_rate st /\
                   frequency st1 = wrap32 fc /\ bandwidth st1 = wrap32 bw /\
                   gain st1 = g /\ antenna st1 = ant /\ use_agc st1 = use_agc st /\
                   Forall (fun e => is_frame_event e = false) tr1 /\
                   In (sdr_tune (wrap32 fc) (search_sample_rate st) (wrap32 bw) g ant
                         (use_agc st)) tr1 /\
                   In (sleep 1) tr1).
  { inversion Hpath; subst;
      try (match goal with H : restart st0 = false |- _ => discriminate H end);
      unfold recovery_cas_order, recovery_mbsfn_order; cbn;
      repeat split; auto 10; repeat constructor. }
  destruct Hshape as (Hs1 & Hr1 & Hss1 & Hf1 & Hb1 & Hg1 & Ha1 & Hu1 & Hnf & Htune & Hsleep).
  set (st1' := set_tick (wrap32 (tick st0 + 1)) st1) in *.
  destruct (searching_pass_spec srate a2 st1')
    as (st2 & tr2 & Hrun2 & _ & Hr2 & _ & _ & _ & _).
  assert (Hcalls : search_calls st1' = retune_calls ant fc g bw st).
  { unfold search_calls, retune_calls. cbn [restart set_tick st1'].
    change (restart (set_tick (wrap32 (tick st0 + 1)) st1)) with (restart st1).
    rewrite Hr1. cbn [app]. unfold st1'. cbn [frequency search_sample_rate bandwidth
      gain antenna use_agc set_tick]. rewrite Hf1, Hss1, Hb1, Hg1, Ha1, Hu1. reflexivity. }
  rewrite Hcalls in Hrun2.
  assert (Hpass2 : run_pass srate a2 (in_processing i1) st1'
                   = Ok loop_head st2 (retune_calls ant fc g bw st ++ tr2)).
  { unfold run_pass. unfold bind at 1. unfold get.
    change (state st1') with (state st1). rewrite Hs1.
    rewrite (bind_Ok _ (fun _ => ret loop_head) _ _ _ _ _ _ _ Hrun2 eq_refl).
    cbn [app]. rewrite !app_nil_r. reflexivity. }
  exists st2, (phy_is_cas_subframe (next_tti (tti st0)) :: tr1 ++ telemetry_events st0), tr2.
  split; [|split; [|split; [|split; [|exact Hr2]]]].
  - eapply (bind_Ok _ _ _ _ _ []); [apply set_params_run|]. cbn [run_loop].
    fold st0.
    assert (Hloop : (p' <- run_pass srate a1 (in_processing i);;
                     p'0 <- run_pass srate a2 p';; ret p'0) st0
                    = Ok loop_head st2
                        ((phy_is_cas_subframe (next_tti (tti st0))
                          :: tr1 ++ telemetry_events st0) ++
                         (retune_calls ant fc g bw st ++ tr2) ++ [])).
    { eapply bind_Ok; [exact Hpass1|]. eapply bind_Ok; [exact Hpass2|]. reflexivity. }
    rewrite app_nil_r in Hloop. exact Hloop.
  - constructor; [reflexivity|]. apply Forall_app. split; [exact Hnf|].
    apply Forall_forall. intros e He.
    destruct (telemetry_events_only _ _ He); subst; reflexivity.
  - right. apply in_or_app. left. exact Htune.
  - right. apply in_or_app. left. exact Hsleep.
Qed.

Lemma restart_in_processing_witness :
  well_formed camped 1 /\ state camped = processing /\
  exists st' tr1 tr2,
    (set_params "LNAL" 482000000 (gain camped) 15360000 8000000 ;;
     run_loop sampling_freq_table [subframe false true 25; no_cell] (in_processing 1))
      camped
    = Ok loop_head st'
        (tr1 ++ retune_calls "LNAL" 482000000 (gain camped) 8000000 camped ++ tr2) /\
    Forall (fun e => is_frame_event e = false) tr1 /\
    restart st' = false.
Proof.
  assert (Hwf : well_formed camped 1)
    by (unfold well_formed; cbn; repeat split; (lia || discriminate)).
  split; [exact Hwf|]. split; [reflexivity|].
  destruct (restart_in_processing_retunes_twice sampling_freq_table
              (subframe false true 25) no_cell "LNAL" 482000000 (gain camped)
              15360000 8000000 1 camped Hwf eq_refl)
    as (st' & tr1 & tr2 & Hrun & Hnf & _ & _ & Hr).
  exists st', tr1, tr2. auto.
Defined.

(** ** The static sample rate *)

Lemma sample_rate_of_path srate a i st st1 tr :
  subframe_path srate a i st st1 tr ->
  sample_rate st1 = sample_rate st \/ sample_rate st1 = search_sample_rate st.
Proof. intros Hp. inversion Hp; subst; cbn; auto. Qed.

Lemma run_pass_sample_rate srate a p st :
  loop_invariant st p ->
  exists p' st' tr,
    run_pass srate a p st = Ok p' st' tr /\
    loop_invariant st' p' /\
    search_sample_rate st' = search_sample_rate st /\
    (sample_rate st' = sample_rate st \/ sample_rate st' = search_sample_rate st).
Proof.
  intros Hinv.
  destruct (run_pass_spec srate a p st Hinv)
    as (p' & st' & tr & Hrun & Hinv' & _ & Hkept & _).
  exists p', st', tr. split; [exact Hrun|]. split; [exact Hinv'|].
  split; [apply Hkept|].
  destruct Hinv as (Hn & Hmi & Hp). revert Hrun.
  unfold run_pass. unfold bind at 1. unfold get.
  destruct (state st) eqn:Hs.
  - destruct (searching_pass_spec srate a st)
      as (st1 & tr1 & Hrun1 & _ & _ & Hsr & _).
    rewrite (bind_Ok _ (fun _ => ret loop_head) _ _ _ _ _ _ _ Hrun1 eq_refl).
    intros Heq. injection Heq as _ <- _. rewrite Hsr.
    destruct (restart st); auto.
  - unfold bind. rewrite syncing_pass_exact.
    destruct (attempts_to_lock a 0 200) as [c|];
      cbn [ret]; intros Heq; injection Heq as _ <- _; cbn; auto.
  - assert (Hwf : well_formed st (cursor_of p)).
    { unfold well_formed, cursor_of. destruct p; repeat split; try lia; exact Hmi. }
    destruct (processing_body_cases srate a _ st Hwf)
      as (i' & st1 & tr1 & Hrun1 & Hpath & _).
    fold (cursor_of p).
    rewrite (bind_Ok _ (fun i => ret (in_processing i)) _ _ _ _ _ _ _ Hrun1 eq_refl).
    intros Heq. injection Heq as _ <- _.
    exact (sample_rate_of_path _ _ _ _ _ _ Hpath).
Qed.

(** X16: the static [sample_rate] does not follow the radio.  Starting
    from a state in which it equals the search sample rate, as the start-up
    leaves it, no run of the loop changes it, whatever the collaborators
    answer: the rate of the cell found and the rate of a PRB extension are
    passed to [sdr.tune] from a local variable only. *)
Theorem sample_rate_stays_at_search_rate srate passes : forall p st,
  loop_invariant st p ->
  sample_rate st = search_sample_rate st ->
  exists p' st' tr,
    run_loop srate passes p st = Ok p' st' tr /\
    sample_rate st' = sample_rate st /\
    search_sample_rate st' = search_sample_rate st.
Proof.
  induction passes as [|a rest IH]; intros p st Hinv Heq.
  - exists p, st, []. repeat split.
  - destruct (run_pass_sample_rate srate a p st Hinv)
      as (p1 & st1 & tr1 & Hrun1 & Hinv1 & Hss1 & Hsr1).
    assert (Heq1 : sample_rate st1 = search_sample_rate st1).
    { rewrite Hss1. destruct Hsr1 as [-> | ->]; [exact Heq | reflexivity]. }
    destruct (IH p1 st1 Hinv1 Heq1) as (p2 & st2 & tr2 & Hrun2 & Hsr2 & Hss2).
    exists p2, st2, (tr1 ++ tr2). cbn [run_loop].
    split; [exact (bind_Ok _ _ _ _ _ _ _ _ _ Hrun1 Hrun2)|].
    split; [|rewrite Hss2; exact Hss1].
    rewrite Hsr2, Heq1, Hss1. symmetry. exact Heq.
Qed.

Lemma sample_rate_stays_witness :
  loop_invariant (camped_at searching 0) loop_head /\
  sample_rate (camped_at searching 0) = search_sample_rate (camped_at searching 0) /\
  exists p' st' tr,
    run_loop sampling_freq_table
      [subframe true true 25; subframe true true 25; subframe true true 40]
      loop_head (camped_at searching 0)
    = Ok p' st' tr /\
    sample_rate st' = sample_rate (camped_at searching 0) /\
    search_sample_rate st' = search_sample_rate (camped_at searching 0).
Proof.
  assert (Hinv : loop_invariant (camped_at searching 0) loop_head)
    by (unfold loop_invariant; cbn; repeat split; (lia || discriminate)).
  split; [exact Hinv|]. split; [reflexivity|].
  exact (sample_rate_stays_at_search_rate sampling_freq_table
           [subframe true true 25; subframe true true 25; subframe true true 40]
           loop_head (camped_at searching 0) Hinv eq_refl).
Defined.
